(** * prompt-editor: the segment store, the result cache and the session

    A shallow embedding of [src/services/openai.ts] (the [OpenAIService]
    class) and of the [usePromptEditor] hook, with the properties of the
    segment collection, the derived output, the 24-hour result cache and
    the saved session.

    Conventions of the embedding
    - a JavaScript string is a [string]; its code units are the characters
      of the Rocq string (code units below 256);
    - a JavaScript number that the program uses as an integer (an index, an
      [order], a [Date.now()] instant, the 32-bit hash) is a [Z];
    - [localStorage] is a [gmap string item] together with the quota of the
      browser: [setItem] stores the item when the browser has room for it
      and throws a QuotaExceededError when it has not;
    - [setState (prev => ...)] is a function [AppState -> AppState], and an
      effect of the hook runs with the update that triggers it;
    - the browser (storage, clock, log of provider requests) is an explicit
      [World] threaded through the effectful functions; the clock stands
      still while synchronous code runs and moves while a call is awaited;
    - [JSON.parse] and the provider are parameters of the functions that
      use them. *)

From Stdlib Require Import ZArith Lia List Bool Ascii String Sorted Permutation.
From stdpp Require Import base option list gmap strings pretty.

Local Open Scope string_scope.
Local Open Scope Z_scope.

#[local] Set Warnings "-register-all".

(** ** JavaScript strings *)

Module JsString.

Definition charCodeAt (c : ascii) : Z := Z.of_nat (nat_of_ascii c).

(** White space and line terminators below U+0100, as [String.prototype.trim]
    strips them: TAB, LF, VT, FF, CR, SPACE and NBSP. *)
Definition isWhiteSpace (c : ascii) : bool :=
  let n := nat_of_ascii c in
  ((9 <=? n)%nat && (n <=? 13)%nat) || (n =? 32)%nat || (n =? 160)%nat.

Fixpoint trimStart (s : string) : string :=
  match s with
  | String c s' => if isWhiteSpace c then trimStart s' else s
  | EmptyString => EmptyString
  end.

(** [trimEnd] keeps a character when it is not white space or when
    something remains after it. *)
Fixpoint trimEnd (s : string) : string :=
  match s with
  | String c s' =>
      match trimEnd s' with
      | EmptyString => if isWhiteSpace c then EmptyString else String c EmptyString
      | r => String c r
      end
  | EmptyString => EmptyString
  end.

Definition trim (s : string) : string := trimEnd (trimStart s).

(** Truthiness of a string: only the empty string is falsy. *)
Definition truthy (s : string) : bool :=
  match s with EmptyString => false | _ => true end.

Fixpoint chars (s : string) : list ascii :=
  match s with
  | EmptyString => []
  | String c s' => c :: chars s'
  end.

(** [Array.prototype.join] on an array of strings. *)
Definition join (sep : string) (l : list string) : string := String.concat sep l.

Definition LF : string := String (ascii_of_nat 10) EmptyString.

End JsString.

(** ** Segments and the application state (components/PromptSegment.tsx,
       types/index.ts) *)

Record PromptSegment := mkSegment {
  id : string;
  content : string;
  title : string;
  isIncluded : bool;
  order : Z;
  isEditing : bool;
  isExpanded : option bool
}.

Record AppState := mkState {
  originalPrompt : string;
  segments : list PromptSegment;
  finalOutput : string;
  isLoading : bool;
  error : option string
}.

(** [Partial<PromptSegment>]: each key is present or absent. *)
Record PartialSegment := mkPartial {
  p_id : option string;
  p_content : option string;
  p_title : option string;
  p_isIncluded : option bool;
  p_order : option Z;
  p_isEditing : option bool;
  p_isExpanded : option (option bool)
}.

Definition noUpdates : PartialSegment :=
  mkPartial None None None None None None None.

(** [{ ...segment, ...updates }] *)
Definition spread (segment : PromptSegment) (updates : PartialSegment) : PromptSegment :=
  {| id := default (id segment) (p_id updates);
     content := default (content segment) (p_content updates);
     title := default (title segment) (p_title updates);
     isIncluded := default (isIncluded segment) (p_isIncluded updates);
     order := default (order segment) (p_order updates);
     isEditing := default (isEditing segment) (p_isEditing updates);
     isExpanded := default (isExpanded segment) (p_isExpanded updates) |}.

(** ** Arrays *)

Section ArraySort.
Context {A : Type} (compareFn : A -> A -> Z).

(** [Array.prototype.sort] is stable (ECMAScript 2019); for a consistent
    comparator its result is the stable sorted arrangement, computed here
    by insertion: an element goes in front of the first element that
    does not compare below it. *)
Fixpoint sort_insert (a : A) (l : list A) : list A :=
  match l with
  | [] => [a]
  | b :: l' => if compareFn a b <=? 0 then a :: b :: l' else b :: sort_insert a l'
  end.

Definition Array_sort (l : list A) : list A := foldr sort_insert [] l.
End ArraySort.

(** [array.map((x, index) => f x index)] *)
Fixpoint mapi_from {A B : Type} (f : A -> Z -> B) (index : Z) (l : list A) : list B :=
  match l with
  | [] => []
  | x :: l' => f x index :: mapi_from f (index + 1) l'
  end.

Definition Array_mapi {A B : Type} (f : A -> Z -> B) (l : list A) : list B :=
  mapi_from f 0 l.

(** ** The derived output (hooks/usePromptEditor.ts, updateFinalOutput) *)

Definition byOrder (a b : PromptSegment) : Z := order a - order b.

Definition includedSegments (segs : list PromptSegment) : list PromptSegment :=
  Array_sort byOrder (List.filter isIncluded segs).

Definition output (segs : list PromptSegment) : string :=
  JsString.join (JsString.LF +:+ JsString.LF) (List.map content (includedSegments segs)).

Definition updateFinalOutput (state : AppState) : AppState :=
  {| originalPrompt := originalPrompt state;
     segments := segments state;
     finalOutput := output (segments state);
     isLoading := isLoading state;
     error := error state |}.

(** ** JSON values and the browser *)

(** A parsed JSON value.  The numbers are the integers; the keys of an
    object are distinct ([JSON.parse] keeps one value for a key). *)
Inductive json :=
| JNull
| JBool (b : bool)
| JNum (n : Z)
| JStr (s : string)
| JArr (l : list json)
| JObj (fields : list (string * json)).

(** A JavaScript value read out of parsed JSON: [None] is [undefined]. *)
Abbreviation jsvalue := (option json).

Definition null : jsvalue := Some JNull.

(** What a JavaScript computation does.  [Untyped] marks the runs in which a
    value leaves its declared TypeScript type (an unchecked [as] cast of
    foreign JSON, a coercion of a non-number): the embedding stops there. *)
Inductive thrown :=
| Error (message : string)
| NotAnError.

Inductive outcome (A : Type) :=
| Returns (a : A)
| Throws (e : thrown)
| Untyped.
Arguments Returns {A} a.
Arguments Throws {A} e.
Arguments Untyped {A}.

Module Json.

(** [obj.key] on a non-null parsed value for the keys this program reads
    ([data], [timestamp], [title], [content], [originalPrompt],
    [segments]): an own property of an object, [undefined] elsewhere. *)
Fixpoint lookup (key : string) (fields : list (string * json)) : jsvalue :=
  match fields with
  | [] => None
  | (k, v) :: rest => if String.eqb k key then Some v else lookup key rest
  end.

Definition get (key : string) (j : json) : jsvalue :=
  match j with
  | JObj fields => lookup key fields
  | _ => None
  end.

Definition truthy (v : jsvalue) : bool :=
  match v with
  | None | Some JNull => false
  | Some (JBool b) => b
  | Some (JNum n) => negb (n =? 0)
  | Some (JStr s) => JsString.truthy s
  | Some (JArr _) | Some (JObj _) => true
  end.

(** [ToNumber]; [Returns None] is NaN.  Strings, arrays and objects would
    go through [ToPrimitive] and the string-to-number grammar. *)
Definition ToNumber (v : jsvalue) : outcome (option Z) :=
  match v with
  | None => Returns None
  | Some JNull => Returns (Some 0)
  | Some (JBool b) => Returns (Some (if b then 1 else 0))
  | Some (JNum n) => Returns (Some n)
  | Some (JStr _) | Some (JArr _) | Some (JObj _) => Untyped
  end.

(** [JSON.stringify] of a segment, as [JSON.parse] reads it back: the keys
    in the order in which the service creates them; a key holding
    [undefined] is left out. *)
Definition ofSegment (s : PromptSegment) : json :=
  JObj ([("id", JStr (id s)); ("title", JStr (title s)); ("content", JStr (content s));
         ("isIncluded", JBool (isIncluded s)); ("order", JNum (order s));
         ("isEditing", JBool (isEditing s))]
        ++ match isExpanded s with
           | Some b => [("isExpanded", JBool b)]
           | None => []
           end).

Definition ofSegments (l : list PromptSegment) : json := JArr (List.map ofSegment l).

Definition keysAre (fields : list (string * json)) (keys : list string) : bool :=
  bool_decide (List.map fst fields = keys).

(** The cast [as PromptSegment]: defined on the objects of that shape. *)
Definition asSegment (j : json) : option PromptSegment :=
  match j with
  | JObj ([(_, JStr i); (_, JStr t); (_, JStr c); (_, JBool inc); (_, JNum o);
           (_, JBool e)] as fields) =>
      if keysAre fields ["id"; "title"; "content"; "isIncluded"; "order"; "isEditing"]
      then Some (mkSegment i c t inc o e None) else None
  | JObj ([(_, JStr i); (_, JStr t); (_, JStr c); (_, JBool inc); (_, JNum o);
           (_, JBool e); (_, JBool x)] as fields) =>
      if keysAre fields ["id"; "title"; "content"; "isIncluded"; "order"; "isEditing";
                         "isExpanded"]
      then Some (mkSegment i c t inc o e (Some x)) else None
  | _ => None
  end.

Fixpoint asSegments (l : list json) : option (list PromptSegment) :=
  match l with
  | [] => Some []
  | j :: rest =>
      match asSegment j, asSegments rest with
      | Some s, Some ss => Some (s :: ss)
      | _, _ => None
      end
  end.

End Json.

(** An item of [localStorage] is a string.  [Stringified j] is the text
    [JSON.stringify] produced for [j], which [JSON.parse] maps back to [j];
    [Raw s] is any other text [s]. *)
Inductive item :=
| Stringified (j : json)
| Raw (s : string).

Inductive Model := gpt_5_mini | gpt_4o_mini | gpt_3_5_turbo.

Record OpenAIConfig := mkConfig {
  apiKey : string;
  model : Model
}.

(** The SDK client and the part of its chat-completion types the service
    reads. *)
Module OpenAI.

Record Client := mkClient { clientApiKey : string; dangerouslyAllowBrowser : bool }.

Inductive Operation := break_segments | make_concise.

Inductive Temperature := T_1 | T_0_3 | T_0_2.

(** The request of [chat.completions.create].  Its two messages are the
    fixed system text of the operation and the user text built from
    [input]. *)
Record Request := mkRequest {
  req_model : Model;
  operation : Operation;
  input : string;
  temperature : Temperature;
  max_tokens : option Z;
  max_completion_tokens : option Z
}.

Record Message := mkMessage { content : option string }.

Record Choice := mkChoice {
  message : option Message;
  finish_reason : option string
}.

Record ChatCompletion := mkCompletion { choices : list Choice }.

(** How an awaited call settles, and the time it took. *)
Record Settled := mkSettled {
  elapsed : Z;
  result : thrown + ChatCompletion
}.

End OpenAI.

(** The browser.  [quota ls key value] tells whether the browser has room
    to store [value] under [key] when the storage holds [ls]. *)
Record World := mkWorld {
  localStorage : gmap string item;
  Date_now : Z;
  requests : list OpenAI.Request;
  quota : gmap string item -> string -> item -> bool
}.

Definition setStorage (ls : gmap string item) (w : World) : World :=
  mkWorld ls (Date_now w) (requests w) (quota w).

(** Whether [setItem(key, value)] would store its item in [w]. *)
Definition localStorage_accepts (key : string) (value : item) (w : World) : bool :=
  quota w (localStorage w) key value.

(** The DOMException that [setItem] throws when the write is refused; it is
    an instance of [Error], and no code of the program reads its message. *)
Definition QuotaExceededError : thrown := Error "QuotaExceededError".

(** [localStorage.setItem(key, value)]: a refused write throws and leaves
    the storage as it was. *)
Definition localStorage_setItem (key : string) (value : item) (w : World) : outcome World :=
  if localStorage_accepts key value w
  then Returns (setStorage (<[key := value]> (localStorage w)) w)
  else Throws QuotaExceededError.

Definition localStorage_removeItem (key : string) (w : World) : World :=
  setStorage (delete key (localStorage w)) w.

(** Time passing between two events. *)
Definition advance (d : Z) (w : World) : World :=
  mkWorld (localStorage w) (Date_now w + d) (requests w) (quota w).

(** ** The service (services/openai.ts) *)

Module OpenAIService.

Record t := mk {
  client : option OpenAI.Client;
  config : option OpenAIConfig
}.

(** [new OpenAIService()] *)
Definition new : t := mk None None.

Definition initialize (cfg : OpenAIConfig) (this : t) : t :=
  mk (Some (OpenAI.mkClient (apiKey cfg) true)) (Some cfg).

Definition isInitialized (this : t) : bool :=
  match client this, config this with
  | Some _, Some _ => true
  | _, _ => false
  end.

Definition cachePrefix : string := "prompt-editor-cache-".

(** The value of a number as a signed 32-bit integer. *)
Definition ToInt32 (z : Z) : Z := (z + 2 ^ 31) mod 2 ^ 32 - 2 ^ 31.

(** One turn of the loop of [generateCacheKey]; [hash] is a 32-bit integer
    when the turn starts, so [hash << 5] is [ToInt32] of the shifted value,
    and [hash & hash] is [ToInt32 hash]. *)
Definition hashStep (hash : Z) (c : ascii) : Z :=
  let char := JsString.charCodeAt c in
  let hash := (ToInt32 (Z.shiftl hash 5) - hash) + char in
  ToInt32 hash.

Definition generateCacheKey (operation input : string) : string :=
  let hash := fold_left hashStep (JsString.chars input) 0 in
  cachePrefix +:+ operation +:+ "-" +:+ pretty (Z.abs hash).

(** Cache entries expire after 24 hours. *)
Definition TTL : Z := 24 * 60 * 60 * 1000.

(** [{ data, timestamp: Date.now() }] *)
Definition cacheData (data : json) (now : Z) : json :=
  JObj [("data", data); ("timestamp", JNum now)].

(** The [catch] logs a refused write and the call returns all the same. *)
Definition setCachedResult (key : string) (data : json) (w : World) : World :=
  match localStorage_setItem key (Stringified (cacheData data (Date_now w))) w with
  | Returns stored => stored
  | Throws _ | Untyped => w
  end.

Definition wrap (prefix : string) (e : thrown) : thrown :=
  Error (prefix +:+ match e with
                    | Error message => message
                    | NotAnError => "Unknown error"
                    end).

(** [v || d] where a string is expected. *)
Definition orString (v : jsvalue) (d : string) : outcome string :=
  if Json.truthy v
  then match v with
       | Some (JStr s) => Returns s
       | _ => Untyped
       end
  else Returns d.

(** The callback of [segments.map] in [breakPromptIntoSegments]; reading a
    property of [null] is a TypeError (the messages of the TypeErrors are
    those of V8). *)
Definition toPromptSegment (now : Z) (segment : json) (index : Z) : outcome PromptSegment :=
  match segment with
  | JNull => Throws (Error "Cannot read properties of null (reading 'title')")
  | _ =>
      match orString (Json.get "title" segment) ("Segment " +:+ pretty (index + 1)),
            orString (Json.get "content" segment) "" with
      | Returns t, Returns c =>
          Returns {| id := "segment-" +:+ pretty now +:+ "-" +:+ pretty index;
                     title := t;
                     content := c;
                     isIncluded := true;
                     order := index;
                     isEditing := false;
                     isExpanded := Some false |}
      | _, _ => Untyped
      end
  end.

(** [array.map] with a callback that may throw: the first throw, in array
    order, ends the loop. *)
Fixpoint mapOutcome {A B : Type} (f : A -> Z -> outcome B) (index : Z) (l : list A)
  : outcome (list B) :=
  match l with
  | [] => Returns []
  | x :: l' =>
      match f x index with
      | Throws e => Throws e
      | Returns y =>
          match mapOutcome f (index + 1) l' with
          | Returns ys => Returns (y :: ys)
          | o => o
          end
      | Untyped =>
          match mapOutcome f (index + 1) l' with
          | Throws e => Throws e
          | _ => Untyped
          end
      end
  end.

(** [segments.map(...)] on the parsed reply: only an array has [map]. *)
Definition convertSegments (now : Z) (segments : json) : outcome (list PromptSegment) :=
  match segments with
  | JArr l => mapOutcome (toPromptSegment now) 0 l
  | JNull => Throws (Error "Cannot read properties of null (reading 'map')")
  | _ => Throws (Error "segments.map is not a function")
  end.

(** [response.choices[0]] *)
Definition firstChoice (response : OpenAI.ChatCompletion) : option OpenAI.Choice :=
  head (OpenAI.choices response).

(** [choice?.message?.content] *)
Definition messageContent (choice : option OpenAI.Choice) : option string :=
  match choice with
  | Some c =>
      match OpenAI.message c with
      | Some m => OpenAI.content m
      | None => None
      end
  | None => None
  end.

(** [!content] for a string that may be null or undefined. *)
Definition noContent (content : option string) : bool :=
  match content with
  | Some s => negb (JsString.truthy s)
  | None => true
  end.

(** [choice?.finish_reason === 'length'] *)
Definition finishedByLength (choice : option OpenAI.Choice) : bool :=
  match choice with
  | Some c => bool_decide (OpenAI.finish_reason c = Some "length")
  | None => false
  end.

(** [cached && Array.isArray(cached)] *)
Definition cachedArray (cached : jsvalue) : option (list json) :=
  if Json.truthy cached
  then match cached with
       | Some (JArr l) => Some l
       | _ => None
       end
  else None.

(** [cached && typeof cached === 'string'] *)
Definition cachedString (cached : jsvalue) : option string :=
  if Json.truthy cached
  then match cached with
       | Some (JStr s) => Some s
       | _ => None
       end
  else None.

Section Runtime.
(** [JSON.parse] on arbitrary text: the parsed value, or the message of
    the SyntaxError. *)
Variable JSON_parse : string -> string + json.
(** [client.chat.completions.create], awaited. *)
Variable create : OpenAI.Client -> OpenAI.Request -> World -> OpenAI.Settled.

Definition parseItem (cached : item) : string + json :=
  match cached with
  | Stringified j => inr j
  | Raw s => JSON_parse s
  end.

Definition itemTruthy (cached : item) : bool :=
  match cached with
  | Stringified _ => true
  | Raw s => JsString.truthy s
  end.

(** Every exception is caught inside; [null] is the miss. *)
Definition getCachedResult (key : string) (w : World) : outcome jsvalue * World :=
  match localStorage w !! key with
  | Some cached =>
      if itemTruthy cached then
        match parseItem cached with
        | inr JNull => (Returns null, w)
        | inr parsed =>
            let now := Date_now w in
            match Json.ToNumber (Json.get "timestamp" parsed) with
            | Returns (Some timestamp) =>
                if now - timestamp <? TTL
                then (Returns (Json.get "data" parsed), w)
                else (Returns null, localStorage_removeItem key w)
            | Returns None => (Returns null, localStorage_removeItem key w)
            | _ => (Untyped, w)
            end
        | inl _ => (Returns null, w)
        end
      else (Returns null, w)
  | None => (Returns null, w)
  end.

(** The awaited provider call: the request is logged and the clock moves
    by the time the call took. *)
Definition await_create (c : OpenAI.Client) (request : OpenAI.Request) (w : World)
  : (thrown + OpenAI.ChatCompletion) * World :=
  let settled := create c request w in
  (OpenAI.result settled,
   mkWorld (localStorage w) (Date_now w + OpenAI.elapsed settled) (requests w ++ [request])
     (quota w)).

Definition breakRequest (cfg : OpenAIConfig) (prompt : string) : OpenAI.Request :=
  {| OpenAI.req_model := model cfg;
     OpenAI.operation := OpenAI.break_segments;
     OpenAI.input := prompt;
     OpenAI.temperature :=
       match model cfg with gpt_5_mini => OpenAI.T_1 | _ => OpenAI.T_0_3 end;
     OpenAI.max_tokens :=
       match model cfg with gpt_5_mini => None | _ => Some 16000 end;
     OpenAI.max_completion_tokens := None |}.

Definition conciseRequest (cfg : OpenAIConfig) (content : string) : OpenAI.Request :=
  {| OpenAI.req_model := model cfg;
     OpenAI.operation := OpenAI.make_concise;
     OpenAI.input := content;
     OpenAI.temperature :=
       match model cfg with gpt_5_mini => OpenAI.T_1 | _ => OpenAI.T_0_2 end;
     OpenAI.max_tokens :=
       match model cfg with gpt_5_mini => None | _ => Some 2000 end;
     OpenAI.max_completion_tokens :=
       match model cfg with gpt_5_mini => Some 2000 | _ => None end |}.

Definition truncatedMessage : string :=
  "Response was truncated due to token limit. The prompt may be too large to process in one request.".

(** The [try] block of [breakPromptIntoSegments], after the cache miss. *)
Definition breakUncached (c : OpenAI.Client) (cfg : OpenAIConfig) (cacheKey prompt : string)
    (w : World) : outcome (list PromptSegment) * World :=
  match await_create c (breakRequest cfg prompt) w with
  | (inl e, w1) => (Throws e, w1)
  | (inr response, w1) =>
      let choice := firstChoice response in
      let content := messageContent choice in
      if noContent content then
        if finishedByLength choice
        then (Throws (Error truncatedMessage), w1)
        else (Throws (Error "No response from OpenAI"), w1)
      else
        match JSON_parse (default "" content) with
        | inl syntaxError => (Throws (Error syntaxError), w1)
        | inr segments =>
            match convertSegments (Date_now w1) segments with
            | Returns result =>
                (Returns result, setCachedResult cacheKey (Json.ofSegments result) w1)
            | o => (o, w1)
            end
        end
  end.

Definition breakPromptIntoSegments (prompt : string) (this : t) (w : World)
  : outcome (list PromptSegment) * World :=
  match client this, config this with
  | Some c, Some cfg =>
      let cacheKey := generateCacheKey "break-segments" prompt in
      match getCachedResult cacheKey w with
      | (Returns cached, w0) =>
          match cachedArray cached with
          | Some l =>
              match Json.asSegments l with
              | Some segs => (Returns segs, w0)
              | None => (Untyped, w0)
              end
          | None =>
              match breakUncached c cfg cacheKey prompt w0 with
              | (Throws e, w1) =>
                  (Throws (wrap "Failed to break prompt into segments: " e), w1)
              | r => r
              end
          end
      | (_, w0) => (Untyped, w0)
      end
  | _, _ => (Throws (Error "OpenAI service not initialized"), w)
  end.

(** The [try] block of [makeConcise], after the cache miss. *)
Definition conciseUncached (c : OpenAI.Client) (cfg : OpenAIConfig) (cacheKey content : string)
    (w : World) : outcome string * World :=
  match await_create c (conciseRequest cfg content) w with
  | (inl e, w1) => (Throws e, w1)
  | (inr response, w1) =>
      let result := messageContent (firstChoice response) in
      if noContent result
      then (Throws (Error "No response from OpenAI"), w1)
      else
        let trimmedResult := JsString.trim (default "" result) in
        (Returns trimmedResult, setCachedResult cacheKey (JStr trimmedResult) w1)
  end.

Definition makeConcise (content : string) (this : t) (w : World) : outcome string * World :=
  match client this, config this with
  | Some c, Some cfg =>
      let cacheKey := generateCacheKey "make-concise" content in
      match getCachedResult cacheKey w with
      | (Returns cached, w0) =>
          match cachedString cached with
          | Some s => (Returns s, w0)
          | None =>
              match conciseUncached c cfg cacheKey content w0 with
              | (Throws e, w1) => (Throws (wrap "Failed to make content concise: " e), w1)
              | r => r
              end
          end
      | (_, w0) => (Untyped, w0)
      end
  | _, _ => (Throws (Error "OpenAI service not initialized"), w)
  end.

End Runtime.

End OpenAIService.

(** ** The hook (hooks/usePromptEditor.ts) *)

Module usePromptEditor.

Definition initialState : AppState := mkState "" [] "" false None.

(** [setState(f)] followed by the effects of the render it causes.  The
    effect on [state.segments] calls [updateFinalOutput] when the array is
    a new one; [newSegments] tells whether [f] builds a new array (every
    update that assigns [segments] does) or keeps the array of [prev]. *)
Definition setState (newSegments : bool) (f : AppState -> AppState) (state : AppState)
  : AppState :=
  let next := f state in
  if newSegments then updateFinalOutput next else next.

(** *** The updates [prev => ...] *)

Definition promptReplaced (prompt : string) (prev : AppState) : AppState :=
  {| originalPrompt := prompt;
     segments := [];
     finalOutput := "";
     isLoading := isLoading prev;
     error := None |}.

Definition loadingStarted (prev : AppState) : AppState :=
  {| originalPrompt := originalPrompt prev;
     segments := segments prev;
     finalOutput := finalOutput prev;
     isLoading := true;
     error := None |}.

Definition segmentsReceived (segs : list PromptSegment) (prev : AppState) : AppState :=
  {| originalPrompt := originalPrompt prev;
     segments := segs;
     finalOutput := finalOutput prev;
     isLoading := false;
     error := error prev |}.

Definition loadingFinished (prev : AppState) : AppState :=
  {| originalPrompt := originalPrompt prev;
     segments := segments prev;
     finalOutput := finalOutput prev;
     isLoading := false;
     error := error prev |}.

(** [error instanceof Error ? error.message : fallback] *)
Definition messageOf (e : thrown) (fallback : string) : string :=
  match e with
  | Error message => message
  | NotAnError => fallback
  end.

Definition operationFailed (message : string) (prev : AppState) : AppState :=
  {| originalPrompt := originalPrompt prev;
     segments := segments prev;
     finalOutput := finalOutput prev;
     isLoading := false;
     error := Some message |}.

Definition segmentUpdated (id0 : string) (updates : PartialSegment) (prev : AppState)
  : AppState :=
  {| originalPrompt := originalPrompt prev;
     segments := List.map (fun segment =>
                             if String.eqb (id segment) id0
                             then spread segment updates
                             else segment)
                          (segments prev);
     finalOutput := finalOutput prev;
     isLoading := isLoading prev;
     error := error prev |}.

Definition withOrder (segment : PromptSegment) (index : Z) : PromptSegment :=
  {| id := id segment;
     content := content segment;
     title := title segment;
     isIncluded := isIncluded segment;
     order := index;
     isEditing := isEditing segment;
     isExpanded := isExpanded segment |}.

Definition segmentsReordered (newSegments : list PromptSegment) (prev : AppState)
  : AppState :=
  {| originalPrompt := originalPrompt prev;
     segments := Array_mapi withOrder newSegments;
     finalOutput := finalOutput prev;
     isLoading := isLoading prev;
     error := error prev |}.

Definition errorCleared (prev : AppState) : AppState :=
  {| originalPrompt := originalPrompt prev;
     segments := segments prev;
     finalOutput := finalOutput prev;
     isLoading := isLoading prev;
     error := None |}.

Definition sessionRestored (prompt : string) (segs : list PromptSegment) (prev : AppState)
  : AppState :=
  {| originalPrompt := prompt;
     segments := segs;
     finalOutput := finalOutput prev;
     isLoading := isLoading prev;
     error := None |}.

(** *** The callbacks *)

Definition setOriginalPrompt (prompt : string) : AppState -> AppState :=
  setState true (promptReplaced prompt).

Definition updateSegment (id0 : string) (updates : PartialSegment) : AppState -> AppState :=
  setState true (segmentUpdated id0 updates).

Definition reorderSegments (newSegments : list PromptSegment) : AppState -> AppState :=
  setState true (segmentsReordered newSegments).

Definition clearError : AppState -> AppState :=
  setState false errorCleared.

Definition sessionKey : string := "prompt-editor-session".

(** [{ originalPrompt, segments, timestamp: Date.now() }] *)
Definition sessionData (state : AppState) (now : Z) : json :=
  JObj [("originalPrompt", JStr (originalPrompt state));
        ("segments", Json.ofSegments (segments state));
        ("timestamp", JNum now)].

(** The write is not in a [try]: a refused write throws out of
    [saveSession]. *)
Definition saveSession (state : AppState) (w : World) : outcome World :=
  localStorage_setItem sessionKey (Stringified (sessionData state (Date_now w))) w.

(** [sessionData.segments || []] *)
Definition segmentsOr (v : jsvalue) : outcome (list PromptSegment) :=
  if Json.truthy v
  then match v with
       | Some (JArr l) =>
           match Json.asSegments l with
           | Some segs => Returns segs
           | None => Untyped
           end
       | _ => Untyped
       end
  else Returns [].

Section Runtime.
Variable JSON_parse : string -> string + json.
Variable create : OpenAI.Client -> OpenAI.Request -> World -> OpenAI.Settled.

(** The result is the returned flag and the state after the update.  The
    update reads [sessionData] when React renders, outside the [try]: a
    stored [null] ends the render with a TypeError, which is [Untyped]
    here like any stored value of another shape. *)
Definition loadSession (w : World) (state : AppState) : outcome (bool * AppState) :=
  match localStorage w !! sessionKey with
  | Some saved =>
      if OpenAIService.itemTruthy saved then
        match OpenAIService.parseItem JSON_parse saved with
        | inr JNull => Untyped
        | inr sessionData =>
            match OpenAIService.orString (Json.get "originalPrompt" sessionData) "",
                  segmentsOr (Json.get "segments" sessionData) with
            | Returns prompt, Returns segs =>
                Returns (true, setState true (sessionRestored prompt segs) state)
            | _, _ => Untyped
            end
        | inl _ => Returns (false, state)
        end
      else Returns (false, state)
  | None => Returns (false, state)
  end.

(** The async callbacks, run from the call to the last update with no
    other update in between.  They never reject. *)
Definition breakPromptIntoSegments (service : OpenAIService.t) (state : AppState)
    (w : World) : outcome AppState * World :=
  if negb (JsString.truthy (JsString.trim (originalPrompt state)))
     || negb (OpenAIService.isInitialized service)
  then (Returns state, w)
  else
    let loading := setState false loadingStarted state in
    match OpenAIService.breakPromptIntoSegments JSON_parse create
            (originalPrompt state) service w with
    | (Returns segs, w1) => (Returns (setState true (segmentsReceived segs) loading), w1)
    | (Throws e, w1) =>
        (Returns (setState false
                    (operationFailed (messageOf e "Failed to break prompt into segments"))
                    loading), w1)
    | (Untyped, w1) => (Untyped, w1)
    end.

(** [state.segments.find(s => s.id === segmentId)] *)
Definition findSegment (segmentId : string) (segs : list PromptSegment)
  : option PromptSegment :=
  List.find (fun s => String.eqb (id s) segmentId) segs.

Definition makeConcise (service : OpenAIService.t) (segmentId : string) (state : AppState)
    (w : World) : outcome AppState * World :=
  match findSegment segmentId (segments state) with
  | Some segment =>
      if negb (OpenAIService.isInitialized service) then (Returns state, w)
      else
        let loading := setState false loadingStarted state in
        match OpenAIService.makeConcise JSON_parse create (content segment) service w with
        | (Returns conciseContent, w1) =>
            let updates := mkPartial None (Some conciseContent) None None None None None in
            (Returns (setState true
                        (fun prev => loadingFinished (segmentUpdated segmentId updates prev))
                        loading), w1)
        | (Throws e, w1) =>
            (Returns (setState false
                        (operationFailed (messageOf e "Failed to make content concise"))
                        loading), w1)
        | (Untyped, w1) => (Untyped, w1)
        end
  | None => (Returns state, w)
  end.

End Runtime.

End usePromptEditor.

(** ** The application: the hook state, the service singleton and the browser *)

Module App.

Record t := mk {
  state : AppState;
  config : option OpenAIConfig;
  service : OpenAIService.t;
  world : World
}.

Inductive Action :=
| SetConfig (cfg : option OpenAIConfig)
| SetOriginalPrompt (prompt : string)
| BreakPromptIntoSegments
| UpdateSegment (id0 : string) (updates : PartialSegment)
| ReorderSegments (newSegments : list PromptSegment)
| MakeConcise (segmentId : string)
| ClearError
| SaveSession
| LoadSession
| Wait (d : Z).

(** The application when it starts in a browser [w]. *)
Definition start (w : World) : t :=
  mk usePromptEditor.initialState None OpenAIService.new w.

Definition withState (app : t) (st : AppState) : t :=
  mk st (config app) (service app) (world app).

Section Runtime.
Variable JSON_parse : string -> string + json.
Variable create : OpenAI.Client -> OpenAI.Request -> World -> OpenAI.Settled.

Definition step (a : Action) (app : t) : outcome t :=
  match a with
  | SetConfig cfg =>
      (* the effect on [config] initializes the service when it is not null *)
      Returns (mk (state app) cfg
                  match cfg with
                  | Some c => OpenAIService.initialize c (service app)
                  | None => service app
                  end
                  (world app))
  | SetOriginalPrompt prompt =>
      Returns (withState app (usePromptEditor.setOriginalPrompt prompt (state app)))
  | BreakPromptIntoSegments =>
      match usePromptEditor.breakPromptIntoSegments JSON_parse create
              (service app) (state app) (world app) with
      | (Returns st, w) => Returns (mk st (config app) (service app) w)
      | (Throws e, _) => Throws e
      | (Untyped, _) => Untyped
      end
  | UpdateSegment id0 updates =>
      Returns (withState app (usePromptEditor.updateSegment id0 updates (state app)))
  | ReorderSegments newSegments =>
      Returns (withState app (usePromptEditor.reorderSegments newSegments (state app)))
  | MakeConcise segmentId =>
      match usePromptEditor.makeConcise JSON_parse create
              (service app) segmentId (state app) (world app) with
      | (Returns st, w) => Returns (mk st (config app) (service app) w)
      | (Throws e, _) => Throws e
      | (Untyped, _) => Untyped
      end
  | ClearError =>
      Returns (withState app (usePromptEditor.clearError (state app)))
  | SaveSession =>
      (* [saveSession] is called by the timers of the page; when it throws,
         the callback of the timer ends there and the page goes on *)
      match usePromptEditor.saveSession (state app) (world app) with
      | Returns w => Returns (mk (state app) (config app) (service app) w)
      | Throws _ | Untyped => Returns app
      end
  | LoadSession =>
      match usePromptEditor.loadSession JSON_parse (world app) (state app) with
      | Returns (_, st) => Returns (withState app st)
      | Throws e => Throws e
      | Untyped => Untyped
      end
  | Wait d =>
      Returns (mk (state app) (config app) (service app) (advance d (world app)))
  end.

Fixpoint run (actions : list Action) (app : t) : outcome t :=
  match actions with
  | [] => Returns app
  | a :: rest =>
      match step a app with
      | Returns app' => run rest app'
      | o => o
      end
  end.

End Runtime.

End App.

(** ** The segment card (components/PromptSegment.tsx) *)

Module SegmentCard.

(** The state the card keeps for itself. *)
Record Local := mkLocal {
  editedContent : string;
  originalContent : string;
  expanded : bool
}.

(** [useState(segment.content)], twice, and [useState(segment.isExpanded ?? false)] *)
Definition mount (segment : PromptSegment) : Local :=
  mkLocal (content segment) (content segment) (default false (isExpanded segment)).

Definition handleToggleInclude (segment : PromptSegment) : AppState -> AppState :=
  usePromptEditor.updateSegment (id segment)
    (mkPartial None None None (Some (negb (isIncluded segment))) None None None).

Definition handleStartEdit (segment : PromptSegment) (card : Local * AppState)
  : Local * AppState :=
  (mkLocal (content segment) (content segment) (expanded card.1),
   usePromptEditor.updateSegment (id segment)
     (mkPartial None None None None None (Some true) None) card.2).

Definition handleContentChange (value : string) (card : Local * AppState) : Local * AppState :=
  (mkLocal value (originalContent card.1) (expanded card.1), card.2).

Definition handleSaveEdit (segment : PromptSegment) (card : Local * AppState)
  : Local * AppState :=
  (card.1,
   usePromptEditor.updateSegment (id segment)
     (mkPartial None (Some (editedContent card.1)) None None None (Some false) None) card.2).

Definition handleCancelEdit (segment : PromptSegment) (card : Local * AppState)
  : Local * AppState :=
  (mkLocal (originalContent card.1) (originalContent card.1) (expanded card.1),
   usePromptEditor.updateSegment (id segment)
     (mkPartial None None None None None (Some false) None) card.2).

Definition handleToggleExpanded (segment : PromptSegment) (card : Local * AppState)
  : Local * AppState :=
  let newExpanded := negb (expanded card.1) in
  (mkLocal (editedContent card.1) (originalContent card.1) newExpanded,
   usePromptEditor.updateSegment (id segment)
     (mkPartial None None None None None None (Some (Some newExpanded))) card.2).

(** [text.substring(0, maxLength) + '...'] for a text longer than [maxLength] *)
Definition getPreviewText (text : string) (maxLength : nat) : string :=
  if (String.length text <=? maxLength)%nat then text
  else String.substring 0 maxLength text +:+ "...".

End SegmentCard.

(** ** The list of cards (components/SegmentsPanel.tsx) *)

Module SegmentsPanel.

(** [segments.filter(s => s.isIncluded).length] *)
Definition includedCount (segs : list PromptSegment) : Z :=
  Z.of_nat (length (List.filter isIncluded segs)).

(** [.reduce((sum, s) => sum + s.content.length, 0)] over the included
    segments *)
Definition totalCharacters (segs : list PromptSegment) : Z :=
  fold_left (fun sum s => sum + Z.of_nat (String.length (content s)))
            (List.filter isIncluded segs) 0.

(** [segments.forEach(...)] over the segments of the render, each call of
    [onUpdateSegment] being an update of the hook. *)
Definition handleSelectAll (segs : list PromptSegment) (state : AppState) : AppState :=
  fold_left (fun st segment =>
               if negb (isIncluded segment)
               then usePromptEditor.updateSegment (id segment)
                      (mkPartial None None None (Some true) None None None) st
               else st)
            segs state.

Definition handleSelectNone (segs : list PromptSegment) (state : AppState) : AppState :=
  fold_left (fun st segment =>
               if isIncluded segment
               then usePromptEditor.updateSegment (id segment)
                      (mkPartial None None None (Some false) None None None) st
               else st)
            segs state.

End SegmentsPanel.

(** ** The credential form (components/ApiKeyManager.tsx) *)

Module ApiKeyManager.

Record Form := mkForm {
  apiKeyInput : string;
  modelInput : Model;
  isVisible : bool;
  showKey : bool;
  isEditMode : bool
}.

Definition initialForm : Form := mkForm "" gpt_5_mini false false false.

Definition keyItem : string := "openai-api-key".
Definition modelItem : string := "openai-model".

(** The value of the [<option>] of a model. *)
Definition modelName (m : Model) : string :=
  match m with
  | gpt_5_mini => "gpt-5-mini"
  | gpt_4o_mini => "gpt-4o-mini"
  | gpt_3_5_turbo => "gpt-3.5-turbo"
  end.

(** The cast [as OpenAIConfig['model']] of a stored text: defined on the
    three names. *)
Definition asModel (text : string) : option Model :=
  if String.eqb text "gpt-5-mini" then Some gpt_5_mini
  else if String.eqb text "gpt-4o-mini" then Some gpt_4o_mini
  else if String.eqb text "gpt-3.5-turbo" then Some gpt_3_5_turbo
  else None.

(** [localStorage.getItem] read as text; the characters of a [Stringified]
    item are not modelled. *)
Definition getItem (key : string) (w : World) : outcome (option string) :=
  match localStorage w !! key with
  | None => Returns None
  | Some (Raw s) => Returns (Some s)
  | Some (Stringified _) => Untyped
  end.

(** The effect on mount.  The second component is the argument of
    [onConfigChange] when it is called. *)
Definition load (w : World) (form : Form) : outcome (Form * option OpenAIConfig) :=
  match getItem keyItem w, getItem modelItem w with
  | Returns savedKey, Returns savedModel =>
      if JsString.truthy (default "" savedKey) then
        let key := default "" savedKey in
        if JsString.truthy (default "" savedModel) then
          match asModel (default "" savedModel) with
          | Some m =>
              Returns (mkForm key m (isVisible form) (showKey form) (isEditMode form),
                       Some (mkConfig key m))
          | None => Untyped
          end
        else
          Returns (mkForm key gpt_5_mini (isVisible form) (showKey form) (isEditMode form),
                   Some (mkConfig key gpt_5_mini))
      else Returns (mkForm (apiKeyInput form) (modelInput form) true (showKey form)
                           (isEditMode form), None)
  | _, _ => Untyped
  end.

(** [handleSave]: the new form and the argument of [onConfigChange] when it
    is called, and the world it leaves.  The two writes are not in a [try]:
    a refused write throws out of the handler, before [onConfigChange]. *)
Definition handleSave (w : World) (form : Form)
  : outcome (Form * option OpenAIConfig) * World :=
  if negb (JsString.truthy (JsString.trim (apiKeyInput form))) then (Returns (form, None), w)
  else
    let config := mkConfig (JsString.trim (apiKeyInput form)) (modelInput form) in
    match localStorage_setItem keyItem (Raw (apiKey config)) w with
    | Returns w1 =>
        match localStorage_setItem modelItem (Raw (modelName (model config))) w1 with
        | Returns w2 =>
            (Returns (mkForm (apiKeyInput form) (modelInput form) false (showKey form) false,
                      Some config), w2)
        | Throws e => (Throws e, w1)
        | Untyped => (Untyped, w1)
        end
    | Throws e => (Throws e, w)
    | Untyped => (Untyped, w)
    end.

(** [handleClear] calls [onConfigChange(null)]. *)
Definition handleClear (w : World) (form : Form) : World * Form :=
  (localStorage_removeItem modelItem (localStorage_removeItem keyItem w),
   mkForm "" gpt_5_mini true (showKey form) false).

(** [key.slice(0, 4) + '...' + key.slice(-4)] for a key of more than eight
    characters *)
Definition maskApiKey (key : string) : string :=
  if (String.length key <=? 8)%nat then key
  else String.substring 0 4 key +:+ "..."
       +:+ String.substring (String.length key - 4) 4 key.

End ApiKeyManager.

(** ** The prompt box and the page (components/PromptInput.tsx, App.tsx) *)

Module Page.

(** [config !== null] *)
Definition hasApiKey (app : App.t) : bool :=
  match App.config app with Some _ => true | None => false end.

(** [hasApiKey && value.trim().length > 0 && !isLoading], the condition
    under which the button of the prompt box is enabled. *)
Definition canBreakPrompt (app : App.t) : bool :=
  hasApiKey app
  && (0 <? Z.of_nat (String.length (JsString.trim (originalPrompt (App.state app)))))
  && negb (isLoading (App.state app)).

(** What both save timers run when they fire: [saveSession] when there are
    segments. *)
Definition autosave (state : AppState) (w : World) : outcome World :=
  if (0 <? Z.of_nat (length (segments state)))
  then usePromptEditor.saveSession state w
  else Returns w.

End Page.

(** * Vocabulary of the properties *)

(** Ascending [order]. *)
Definition orderLe (a b : PromptSegment) : Prop := order a <= order b.

(** The separator of the output: two line feeds, a blank line. *)
Definition blankLine : string := String "010" (String "010" EmptyString).

(** The derived output in the words of the specification: [text] is the
    content of exactly the segments of [segs] with [isIncluded = true],
    taken in ascending [order] and joined with a blank line. *)
Definition derivedOutput (segs : list PromptSegment) (text : string) : Prop :=
  exists taken : list PromptSegment,
    Permutation taken (List.filter isIncluded segs)
    /\ StronglySorted orderLe taken
    /\ text = String.concat blankLine (List.map content taken).

(** A state is settled when its [finalOutput] is the output of its segments. *)
Definition settled (st : AppState) : Prop := finalOutput st = output (segments st).

(** An update either keeps [finalOutput] or leaves it recomputed. *)
Definition keptOrRecomputed (st st' : AppState) : Prop :=
  finalOutput st' = finalOutput st \/ settled st'.

(** The payload and the timestamp of the entry stored under [key], when the
    item parses to a non-null value with a numeric timestamp. *)
Definition entryOf (JSON_parse : string -> string + json) (key : string) (w : World)
  : option (jsvalue * Z) :=
  match localStorage w !! key with
  | Some cached =>
      if OpenAIService.itemTruthy cached then
        match OpenAIService.parseItem JSON_parse cached with
        | inr JNull => None
        | inr parsed =>
            match Json.ToNumber (Json.get "timestamp" parsed) with
            | Returns (Some timestamp) => Some (Json.get "data" parsed, timestamp)
            | _ => None
            end
        | inl _ => None
        end
      else None
  | None => None
  end.

(** The hash of [generateCacheKey] before it is cut to 32 bits: each
    character multiplies the hash by 31 and adds its code. *)
Definition polynomialHash (cs : list ascii) : Z :=
  fold_left (fun hash c => 31 * hash + JsString.charCodeAt c) cs 0.





(** [{ ...segment, isIncluded: b }] *)
Definition withIncluded (b : bool) (s : PromptSegment) : PromptSegment :=
  spread s (mkPartial None None None (Some b) None None None).

(** The action gives the page a configuration that is not null. *)
Definition configures (a : App.Action) : bool :=
  match a with
  | App.SetConfig (Some _) => true
  | _ => false
  end.

(** The last configuration that was not null among the actions, if any. *)
Fixpoint lastConfigured (actions : list App.Action) (sofar : option OpenAIConfig)
  : option OpenAIConfig :=
  match actions with
  | [] => sofar
  | App.SetConfig (Some c) :: rest => lastConfigured rest (Some c)
  | _ :: rest => lastConfigured rest sofar
  end.

(** The singleton once the last configuration that was not null is [cfg]. *)
Definition serviceOf (cfg : option OpenAIConfig) : OpenAIService.t :=
  match cfg with
  | Some c => OpenAIService.initialize c OpenAIService.new
  | None => OpenAIService.new
  end.

(** * A session of the application, for the examples *)

Module Scenario.

(** A stand-in for [JSON.parse] that knows three texts. *)
Definition parse (text : string) : string + json :=
  if String.eqb text "[{},{}]" then inr (JArr [JObj []; JObj []])
  else if String.eqb text "[]" then inr (JArr [])
  else if String.eqb text "null" then inr JNull
  else inl "Unexpected token".

Definition completion (text : option string) (reason : string) : OpenAI.ChatCompletion :=
  OpenAI.mkCompletion [OpenAI.mkChoice (Some (OpenAI.mkMessage text)) (Some reason)].

(** A provider that answers both operations after 1.2 seconds. *)
Definition provider (c : OpenAI.Client) (request : OpenAI.Request) (w : World)
  : OpenAI.Settled :=
  match OpenAI.operation request with
  | OpenAI.break_segments =>
      OpenAI.mkSettled 1200 (inr (completion (Some "[{},{}]") "stop"))
  | OpenAI.make_concise =>
      OpenAI.mkSettled 1200 (inr (completion (Some "  short  ") "stop"))
  end.

(** A provider whose replies are cut short before any content. *)
Definition truncated : OpenAI.ChatCompletion := completion None "length".

Definition truncating (c : OpenAI.Client) (request : OpenAI.Request) (w : World)
  : OpenAI.Settled :=
  OpenAI.mkSettled 900 (inr truncated).

(** A provider that refuses every request. *)
Definition refusing (c : OpenAI.Client) (request : OpenAI.Request) (w : World)
  : OpenAI.Settled :=
  OpenAI.mkSettled 30 (inl (Error "429 Too Many Requests")).

Definition config : OpenAIConfig := mkConfig "sk-test" gpt_4o_mini.

Definition client : OpenAI.Client := OpenAI.mkClient "sk-test" true.

Definition service : OpenAIService.t := OpenAIService.initialize config OpenAIService.new.

(** A browser with an empty storage and room for every item. *)
Definition browser : World := mkWorld ∅ 1700000000000 [] (fun _ _ _ => true).

(** A browser whose storage takes no item: every write is refused. *)
Definition full : World := mkWorld ∅ 1700000000000 [] (fun _ _ _ => false).

Definition A : PromptSegment := mkSegment "a" "A" "First" true 0 false (Some false).
Definition B : PromptSegment := mkSegment "b" "B" "Second" true 1 false None.

Definition editing : AppState :=
  mkState "A B" [A; B] (output [A; B]) false None.

Definition blank : AppState :=
  mkState "   " [A] (output [A]) false None.

(** The state after a failed segmentation of "hello world". *)
Definition failed : AppState :=
  mkState "hello world" [] ""
          false (Some "Failed to break prompt into segments: 429 Too Many Requests").

Definition failedApp : App.t := App.mk failed (Some config) service browser.

Definition retried : App.t :=
  Eval vm_compute in
    match App.step parse provider App.BreakPromptIntoSegments failedApp with
    | Returns app => app
    | _ => failedApp
    end.

(** The browser after the session of [editing] has been saved. *)
Definition saved : World :=
  Eval vm_compute in
    match usePromptEditor.saveSession editing browser with
    | Returns w => w
    | _ => browser
    end.

Definition savedApp : App.t := App.mk failed None OpenAIService.new saved.

Definition reloaded : App.t :=
  Eval vm_compute in
    match App.step parse provider App.LoadSession savedApp with
    | Returns app => app
    | _ => savedApp
    end.

Definition actions : list App.Action :=
  [App.SetConfig (Some config);
   App.SetOriginalPrompt "hello world";
   App.BreakPromptIntoSegments;
   App.MakeConcise "segment-1700000001200-0";
   App.UpdateSegment "segment-1700000001200-1" (mkPartial None None None (Some false) None None None);
   App.SaveSession;
   App.Wait 5000].

Definition final : App.t :=
  Eval vm_compute in
    match App.run parse provider actions (App.start browser) with
    | Returns app => app
    | _ => App.start browser
    end.

(** A session that leaves the array in another sequence than the ascending
    [order]: B, A and an excluded C are put in that sequence, then B is
    given the order 7. *)
Definition shuffling : list App.Action :=
  [App.ReorderSegments [B; A; mkSegment "c" "C" "Third" false 0 false None];
   App.UpdateSegment "b" (mkPartial None None None None (Some 7) None None)].

Definition shuffled : App.t :=
  Eval vm_compute in
    match App.run parse provider shuffling (App.start browser) with
    | Returns app => app
    | _ => App.start browser
    end.

(** The first segmentation of "hello world" in an empty browser. *)
Definition segmented : list PromptSegment :=
  Eval vm_compute in
    match OpenAIService.breakPromptIntoSegments parse provider "hello world" service browser with
    | (Returns segs, _) => segs
    | _ => []
    end.

Definition afterSegmenting : World :=
  Eval vm_compute in
    (OpenAIService.breakPromptIntoSegments parse provider "hello world" service browser).2.

(** The same segmentation in the browser whose storage is full. *)
Definition uncached : World :=
  Eval vm_compute in
    (OpenAIService.breakPromptIntoSegments parse provider "hello world" service full).2.

End Scenario.

(** * More of the example session *)

Module Samples.

(** A provider whose reply to [make_concise] is three spaces. *)
Definition blanking (c : OpenAI.Client) (request : OpenAI.Request) (w : World)
  : OpenAI.Settled :=
  OpenAI.mkSettled 700 (inr (Scenario.completion (Some "   ") "stop")).

Definition blankReply : OpenAI.ChatCompletion := Scenario.completion (Some "   ") "stop".

(** The segmentation of "Aa", whose hash is the hash of "BB". *)
Definition segmentedAa : list PromptSegment :=
  Eval vm_compute in
    match OpenAIService.breakPromptIntoSegments Scenario.parse Scenario.provider
            "Aa" Scenario.service Scenario.browser with
    | (Returns segs, _) => segs
    | _ => []
    end.

Definition afterAa : World :=
  Eval vm_compute in
    (OpenAIService.breakPromptIntoSegments Scenario.parse Scenario.provider
       "Aa" Scenario.service Scenario.browser).2.

Definition afterConcise : World :=
  Eval vm_compute in
    (OpenAIService.makeConcise Scenario.parse Scenario.provider
       "A long paragraph." Scenario.service Scenario.browser).2.

Definition afterRefusal : World :=
  Eval vm_compute in
    (OpenAIService.breakPromptIntoSegments Scenario.parse Scenario.refusing
       "hello world" Scenario.service Scenario.browser).2.

Definition afterBlank : World :=
  Eval vm_compute in
    (OpenAIService.makeConcise Scenario.parse blanking
       "A long paragraph." Scenario.service Scenario.browser).2.

(** The page once it is configured and holds a prompt. *)
Definition ready : App.t :=
  Eval vm_compute in
    match App.run Scenario.parse Scenario.provider
            [App.SetConfig (Some Scenario.config); App.SetOriginalPrompt "hello world"]
            (App.start Scenario.browser) with
    | Returns app => app
    | _ => App.start Scenario.browser
    end.

Definition afterConciseA : World :=
  Eval vm_compute in
    (OpenAIService.makeConcise Scenario.parse Scenario.provider
       "A" Scenario.service Scenario.browser).2.

Definition form : ApiKeyManager.Form :=
  ApiKeyManager.mkForm "  sk-test  " gpt_4o_mini true false false.

Definition card : SegmentCard.Local := SegmentCard.mount Scenario.A.

End Samples.

(** * Properties *)

(** ** Sorting by [order] *)


Lemma byOrder_def a b : byOrder a b = order a - order b.
Proof. reflexivity. Qed.

Lemma sort_insert_head a l :
  Forall (orderLe a) l -> sort_insert byOrder a l = a :: l.
Proof.
  destruct l as [|b l]; [reflexivity|].
  intros H. apply Forall_cons_1 in H as [Hab _]. simpl.
  unfold orderLe in Hab. pose proof (byOrder_def a b).
  destruct (Z.leb_spec (byOrder a b) 0); [reflexivity | lia].
Qed.

Lemma sort_insert_Permutation a l : Permutation (sort_insert byOrder a l) (a :: l).
Proof.
  induction l as [|b l IH]; simpl; [reflexivity|].
  destruct (byOrder a b <=? 0); [reflexivity|].
  rewrite IH. apply perm_swap.
Qed.

Lemma sort_insert_Forall (P : PromptSegment -> Prop) a l :
  P a -> Forall P l -> Forall P (sort_insert byOrder a l).
Proof.
  intros Ha Hl. eapply Permutation_Forall.
  - symmetry. apply sort_insert_Permutation.
  - by constructor.
Qed.

Lemma sort_insert_sorted a l :
  StronglySorted orderLe l -> StronglySorted orderLe (sort_insert byOrder a l).
Proof.
  induction 1 as [|b l Hs IH Hb]; simpl.
  - repeat constructor.
  - pose proof (byOrder_def a b) as Hdef.
    destruct (Z.leb_spec (byOrder a b) 0) as [Hle|Hgt].
    + constructor; [by constructor|].
      constructor; [unfold orderLe; lia|].
      eapply Forall_impl; [exact Hb|]. unfold orderLe. intros c Hc. lia.
    + constructor; [exact IH|].
      apply sort_insert_Forall; [unfold orderLe; lia | exact Hb].
Qed.

Lemma Array_sort_sorted l : StronglySorted orderLe (Array_sort byOrder l).
Proof.
  induction l as [|a l IH]; simpl; [constructor | by apply sort_insert_sorted].
Qed.

Lemma Array_sort_Permutation l : Permutation (Array_sort byOrder l) l.
Proof.
  induction l as [|a l IH]; simpl; [reflexivity|].
  rewrite sort_insert_Permutation. by constructor.
Qed.

(** Sorting an array that is already in ascending order leaves it as it is. *)
Lemma Array_sort_id l : StronglySorted orderLe l -> Array_sort byOrder l = l.
Proof.
  induction 1 as [|a l Hs IH Ha]; simpl; [reflexivity|].
  rewrite IH. by apply sort_insert_head.
Qed.

Lemma Forall_filter_keep (P : PromptSegment -> Prop) p l :
  Forall P l -> Forall P (List.filter p l).
Proof.
  induction 1 as [|x l Hx Hl IH]; simpl; [constructor|].
  destruct (p x); [by constructor | exact IH].
Qed.

Lemma filter_sort_insert p a l :
  StronglySorted orderLe l ->
  List.filter p (sort_insert byOrder a l)
  = if p a then sort_insert byOrder a (List.filter p l) else List.filter p l.
Proof.
  induction 1 as [|b l Hs IH Hb]; simpl.
  - by destruct (p a).
  - pose proof (byOrder_def a b) as Hdef.
    destruct (Z.leb_spec (byOrder a b) 0) as [Hle|Hgt].
    + simpl. destruct (p a) eqn:Ea; [|reflexivity].
      assert (Hall : Forall (orderLe a) (b :: l)).
      { constructor; [unfold orderLe; lia|].
        eapply Forall_impl; [exact Hb|]. unfold orderLe. intros c Hc. lia. }
      symmetry. apply sort_insert_head.
      change (Forall (orderLe a) (List.filter p (b :: l))).
      by apply Forall_filter_keep.
    + simpl. rewrite IH. destruct (p b) eqn:Eb, (p a) eqn:Ea; try reflexivity.
      simpl. destruct (Z.leb_spec (byOrder a b) 0); [lia | reflexivity].
Qed.

(** Filtering commutes with the stable sort. *)
Lemma filter_Array_sort p l :
  Array_sort byOrder (List.filter p l) = List.filter p (Array_sort byOrder l).
Proof.
  induction l as [|a l IH]; simpl; [reflexivity|].
  rewrite filter_sort_insert by apply Array_sort_sorted.
  destruct (p a); simpl; by rewrite IH.
Qed.

(** ** The derived output *)


Lemma includedSegments_Permutation segs :
  Permutation (includedSegments segs) (List.filter isIncluded segs).
Proof. apply Array_sort_Permutation. Qed.

Lemma includedSegments_sorted segs : StronglySorted orderLe (includedSegments segs).
Proof. apply Array_sort_sorted. Qed.

Lemma updateFinalOutput_settled st : settled (updateFinalOutput st).
Proof. reflexivity. Qed.

(** What the code computes is the derived output of the specification. *)
Lemma output_derivedOutput segs : derivedOutput segs (output segs).
Proof.
  exists (includedSegments segs). split; [|split].
  - apply includedSegments_Permutation.
  - apply includedSegments_sorted.
  - reflexivity.
Qed.

(** ** Writes to the storage *)

Lemma localStorage_setItem_cases key value w :
  (localStorage_accepts key value w = true
   /\ localStorage_setItem key value w
      = Returns (setStorage (<[key := value]> (localStorage w)) w))
  \/ (localStorage_accepts key value w = false
      /\ localStorage_setItem key value w = Throws QuotaExceededError).
Proof.
  unfold localStorage_setItem. destruct (localStorage_accepts key value w); auto.
Qed.

(** The save of the timers keeps the state, the configuration and the
    service, and leaves the world as it was or with the session stored. *)
Lemma step_SaveSession JSON_parse create app app' :
  App.step JSON_parse create App.SaveSession app = Returns app' ->
  App.state app' = App.state app /\ App.config app' = App.config app
  /\ App.service app' = App.service app
  /\ (App.world app' = App.world app
      \/ usePromptEditor.saveSession (App.state app) (App.world app)
         = Returns (App.world app')).
Proof.
  simpl. destruct (usePromptEditor.saveSession _ _) as [w1|e|];
    intros [= <-]; simpl; auto.
Qed.

Section Settled.
Variable JSON_parse : string -> string + json.
Variable create : OpenAI.Client -> OpenAI.Request -> World -> OpenAI.Settled.

Import usePromptEditor.

Lemma setState_new_settled f st : settled (setState true f st).
Proof. reflexivity. Qed.

Lemma setState_keep_settled f st :
  settled st ->
  segments (f st) = segments st -> finalOutput (f st) = finalOutput st ->
  settled (setState false f st).
Proof. unfold settled, setState. intros H Hs Hf. by rewrite Hs, Hf. Qed.


Lemma breakPromptIntoSegments_output service st w st' w' :
  breakPromptIntoSegments JSON_parse create service st w = (Returns st', w') ->
  keptOrRecomputed st st'.
Proof.
  unfold breakPromptIntoSegments, keptOrRecomputed.
  destruct (_ || _); [intros [= <- _]; by left|].
  destruct (OpenAIService.breakPromptIntoSegments _ _ _ _ _) as [[segs|e|] w1];
    intros [= <- _]; [by right | by left].
Qed.

Lemma makeConcise_output service segmentId st w st' w' :
  makeConcise JSON_parse create service segmentId st w = (Returns st', w') ->
  keptOrRecomputed st st'.
Proof.
  unfold makeConcise, keptOrRecomputed.
  destruct (findSegment _ _) as [segment|]; [|intros [= <- _]; by left].
  destruct (negb _); [intros [= <- _]; by left|].
  destruct (OpenAIService.makeConcise _ _ _ _ _) as [[s|e|] w1];
    intros [= <- _]; [by right | by left].
Qed.

Lemma loadSession_output w st flag st' :
  loadSession JSON_parse w st = Returns (flag, st') -> keptOrRecomputed st st'.
Proof.
  unfold loadSession, keptOrRecomputed.
  destruct (localStorage w !! sessionKey) as [saved|]; [|intros [= _ <-]; by left].
  destruct (OpenAIService.itemTruthy saved); [|intros [= _ <-]; by left].
  destruct (OpenAIService.parseItem JSON_parse saved) as [msg|sessionData];
    [intros [= _ <-]; by left|].
  destruct sessionData; try discriminate;
    destruct (OpenAIService.orString _ _); try discriminate;
    destruct (segmentsOr _); try discriminate;
    intros [= _ <-]; by right.
Qed.

Lemma step_output a app app' :
  App.step JSON_parse create a app = Returns app' ->
  keptOrRecomputed (App.state app) (App.state app').
Proof.
  destruct a; simpl.
  - intros [= <-]. by left.
  - intros [= <-]. by right.
  - destruct (breakPromptIntoSegments _ _ _ _ _) as [[st|e|] w] eqn:E; try discriminate.
    intros [= <-]. eapply breakPromptIntoSegments_output, E.
  - intros [= <-]. by right.
  - intros [= <-]. by right.
  - destruct (makeConcise _ _ _ _ _ _) as [[st|e|] w] eqn:E; try discriminate.
    intros [= <-]. eapply makeConcise_output, E.
  - intros [= <-]. by left.
  - intros H. apply (step_SaveSession JSON_parse create) in H as (-> & _). by left.
  - destruct (loadSession _ _ _) as [[flag st]|e|] eqn:E; try discriminate.
    intros [= <-]. eapply loadSession_output, E.
  - intros [= <-]. by left.
Qed.

Lemma step_settled a app app' :
  settled (App.state app) ->
  App.step JSON_parse create a app = Returns app' ->
  settled (App.state app').
Proof.
  intros Hs Hstep. destruct (step_output _ _ _ Hstep) as [Hkept|Hnew]; [|exact Hnew].
  revert Hstep. destruct a; simpl; try (intros [= <-]; first [exact Hs | reflexivity]).
  - unfold breakPromptIntoSegments.
    destruct (_ || _); [intros [= <-]; exact Hs|].
    destruct (OpenAIService.breakPromptIntoSegments _ _ _ _ _) as [[segs|e|] w1];
      intros [= <-]; first [reflexivity | exact Hs].
  - unfold makeConcise.
    destruct (findSegment _ _) as [segment|]; [|intros [= <-]; exact Hs].
    destruct (negb _); [intros [= <-]; exact Hs|].
    destruct (OpenAIService.makeConcise _ _ _ _ _) as [[s|e|] w1];
      intros [= <-]; first [reflexivity | exact Hs].
  - intros H. apply (step_SaveSession JSON_parse create) in H as (-> & _). exact Hs.
  - unfold loadSession.
    destruct (localStorage _ !! sessionKey) as [saved|]; [|intros [= <-]; exact Hs].
    destruct (OpenAIService.itemTruthy saved); [|intros [= <-]; exact Hs].
    destruct (OpenAIService.parseItem JSON_parse saved) as [msg|sessionData];
      [intros [= <-]; exact Hs|].
    destruct sessionData; try discriminate;
      destruct (OpenAIService.orString _ _); try discriminate;
      destruct (segmentsOr _); try discriminate;
      intros [= <-]; reflexivity.
Qed.

Lemma run_settled actions : forall app app',
  settled (App.state app) ->
  App.run JSON_parse create actions app = Returns app' ->
  settled (App.state app').
Proof.
  induction actions as [|a rest IH]; simpl; intros app app' Hs.
  - intros [= <-]. exact Hs.
  - destruct (App.step JSON_parse create a app) as [app1|e|] eqn:E; try discriminate.
    apply IH. eapply step_settled; eauto.
Qed.

End Settled.

(** C1. In every state the application reaches, [finalOutput] is the
    content of exactly the segments with [isIncluded = true], taken in
    ascending [order] and joined with the two line feeds of a blank line;
    [updateFinalOutput] computes that text for every segment collection;
    and an action, taken in any state whatever, either keeps [finalOutput]
    or leaves it recomputed from the segments it leaves. *)
Theorem C1_finalOutput_joins_included_in_order
    (JSON_parse : string -> string + json)
    (create : OpenAI.Client -> OpenAI.Request -> World -> OpenAI.Settled)
    (w : World) (actions : list App.Action) (app : App.t) :
  App.run JSON_parse create actions (App.start w) = Returns app ->
  (exists taken : list PromptSegment,
      Permutation taken (List.filter isIncluded (segments (App.state app)))
      /\ StronglySorted orderLe taken
      /\ finalOutput (App.state app)
         = String.concat (String "010" (String "010" EmptyString)) (List.map content taken))
  /\ (forall state : AppState,
        derivedOutput (segments state) (finalOutput (updateFinalOutput state)))
  /\ (forall a before after,
        App.step JSON_parse create a before = Returns after ->
        finalOutput (App.state after) = finalOutput (App.state before)
        \/ derivedOutput (segments (App.state after)) (finalOutput (App.state after))).
Proof.
  intros Hrun. split; [|split].
  - pose proof (run_settled JSON_parse create actions (App.start w) app eq_refl Hrun) as H.
    unfold settled in H. rewrite H. apply output_derivedOutput.
  - intros state. apply output_derivedOutput.
  - intros a before after Hstep.
    destruct (step_output _ _ _ _ _ Hstep) as [Hkept|Hnew]; [by left|].
    right. unfold settled in Hnew. rewrite Hnew. apply output_derivedOutput.
Qed.

(** ** Reordering *)

Lemma mapi_from_lookup {A B : Type} (f : A -> Z -> B) (l : list A) : forall index (i : nat),
  mapi_from f index l !! i = (fun x => f x (index + Z.of_nat i)) <$> (l !! i).
Proof.
  induction l as [|x l IH]; intros index i; [by destruct i|].
  destruct i as [|i]; simpl.
  - by rewrite Z.add_0_r.
  - rewrite IH. destruct (l !! i); simpl; [|reflexivity].
    do 2 f_equal. lia.
Qed.

Lemma StronglySorted_filter p l :
  StronglySorted orderLe l -> StronglySorted orderLe (List.filter p l).
Proof.
  induction 1 as [|a l Hs IH Ha]; simpl; [constructor|].
  destruct (p a); [|exact IH].
  constructor; [exact IH | by apply Forall_filter_keep].
Qed.

Lemma mapi_withOrder_sorted l : forall index,
  StronglySorted orderLe (mapi_from usePromptEditor.withOrder index l)
  /\ Forall (fun s => index <= order s) (mapi_from usePromptEditor.withOrder index l).
Proof.
  induction l as [|x l IH]; intros index; simpl; [split; constructor|].
  destruct (IH (index + 1)) as [Hs Hf]. split.
  - constructor; [exact Hs|].
    eapply Forall_impl; [exact Hf|]. unfold orderLe. simpl. intros s Hle. lia.
  - constructor; [simpl; lia|].
    eapply Forall_impl; [exact Hf|]. simpl. intros s Hle. lia.
Qed.

Lemma mapi_withOrder_included l : forall index,
  List.map content (List.filter isIncluded (mapi_from usePromptEditor.withOrder index l))
  = List.map content (List.filter isIncluded l).
Proof.
  induction l as [|x l IH]; intros index; simpl; [reflexivity|].
  destruct (isIncluded x); simpl; by rewrite IH.
Qed.

(** After a reorder the included segments come out in the order of the list
    that was passed. *)
Lemma output_reordered (L : list PromptSegment) :
  output (Array_mapi usePromptEditor.withOrder L)
  = JsString.join (JsString.LF +:+ JsString.LF) (List.map content (List.filter isIncluded L)).
Proof.
  unfold output, includedSegments, Array_mapi.
  rewrite Array_sort_id.
  - by rewrite mapi_withOrder_included.
  - apply StronglySorted_filter, mapi_withOrder_sorted.
Qed.

Lemma output_reorder_canonical segs :
  output (Array_mapi usePromptEditor.withOrder (Array_sort byOrder segs)) = output segs.
Proof.
  rewrite output_reordered. unfold output, includedSegments.
  by rewrite filter_Array_sort.
Qed.

(** A list in strictly ascending [order] is the only arrangement of its
    elements in ascending [order]. *)
Lemma ascending_unique (l : list PromptSegment) : forall l',
  StronglySorted (fun a b => order a < order b) l ->
  StronglySorted orderLe l' ->
  Permutation l l' ->
  l = l'.
Proof.
  induction l as [|a t IH]; intros l' Hl Hl' Hperm.
  - by apply Permutation_nil in Hperm.
  - destruct l' as [|b t']; [by apply Permutation_sym, Permutation_nil in Hperm|].
    apply StronglySorted_inv in Hl as [Ht Ha].
    apply StronglySorted_inv in Hl' as [Ht' Hb].
    assert (Hab : a = b).
    { assert (Ha' : In a (b :: t')) by (apply (Permutation_in _ Hperm); by left).
      assert (Hb' : In b (a :: t))
        by (apply (Permutation_in _ (Permutation_sym Hperm)); by left).
      destruct Ha' as [Heq|Hin]; [done|]. destruct Hb' as [Heq|Hin']; [done|].
      rewrite List.Forall_forall in Ha, Hb.
      specialize (Ha _ Hin'). specialize (Hb _ Hin). unfold orderLe in Hb. lia. }
    subst b. f_equal. apply IH; [exact Ht | exact Ht'|].
    by apply Permutation_cons_inv in Hperm.
Qed.

(** C6. [reorderSegments L] leaves as many segments as [L] has; the segment
    at position [i] of [L] is at position [i] with the order [i] and its
    other fields as they are in [L].  With [L] the current segments in
    ascending [order] (the stable arrangement, or any arrangement of them
    in strictly ascending [order], or the current array when that is in
    ascending [order]) [finalOutput] is what it was. *)
Theorem C6_reorder_by_position_canonical_noop (st : AppState) (L : list PromptSegment) :
  finalOutput st = output (segments st) ->
  length (segments (usePromptEditor.reorderSegments L st)) = length L
  /\ (forall (i : nat) seg,
        L !! i = Some seg ->
        segments (usePromptEditor.reorderSegments L st) !! i
        = Some {| id := id seg;
                  content := content seg;
                  title := title seg;
                  isIncluded := isIncluded seg;
                  order := Z.of_nat i;
                  isEditing := isEditing seg;
                  isExpanded := isExpanded seg |})
  /\ (forall (i : nat) seg,
        segments (usePromptEditor.reorderSegments L st) !! i = Some seg ->
        order seg = Z.of_nat i)
  /\ finalOutput (usePromptEditor.reorderSegments (Array_sort byOrder (segments st)) st)
     = finalOutput st
  /\ (Permutation L (segments st) ->
      StronglySorted (fun a b => order a < order b) L ->
      finalOutput (usePromptEditor.reorderSegments L st) = finalOutput st)
  /\ (StronglySorted orderLe (segments st) ->
      finalOutput (usePromptEditor.reorderSegments (segments st) st) = finalOutput st).
Proof.
  intros Hst.
  assert (Hat : forall i : nat,
             segments (usePromptEditor.reorderSegments L st) !! i
             = (fun seg => usePromptEditor.withOrder seg (Z.of_nat i)) <$> (L !! i)).
  { intros i. simpl. unfold Array_mapi. by rewrite mapi_from_lookup. }
  split; [|split; [|split; [|split; [|split]]]].
  - apply Nat.le_antisymm.
    + apply Nat.nlt_ge. intros Hlt. apply lookup_lt_is_Some_2 in Hlt as [seg Hseg].
      rewrite Hat in Hseg. destruct (L !! length L) eqn:E; [|discriminate].
      apply lookup_lt_Some in E. lia.
    + apply Nat.nlt_ge. intros Hlt. apply lookup_lt_is_Some_2 in Hlt as [seg Hseg].
      pose proof (Hat (length (segments (usePromptEditor.reorderSegments L st)))) as H.
      rewrite Hseg in H. simpl in H. apply lookup_lt_Some in H. lia.
  - intros i seg Hseg. by rewrite Hat, Hseg.
  - intros i seg. rewrite Hat. destruct (L !! i); [|discriminate]. by intros [= <-].
  - simpl. by rewrite output_reorder_canonical.
  - intros Hperm Hsorted.
    rewrite (ascending_unique L (Array_sort byOrder (segments st)) Hsorted).
    + simpl. by rewrite output_reorder_canonical.
    + apply Array_sort_sorted.
    + rewrite Hperm. symmetry. apply Array_sort_Permutation.
  - intros Hsorted. rewrite <- (Array_sort_id _ Hsorted) at 1.
    simpl. by rewrite output_reorder_canonical.
Qed.

(** ** Replacing the prompt *)

(** C5. [setOriginalPrompt text] stores [text], empties the segments and the
    output, clears the error and keeps [isLoading]; the service, the storage
    and the log of provider requests are as before. *)
Theorem C5_setOriginalPrompt_resets
    (JSON_parse : string -> string + json)
    (create : OpenAI.Client -> OpenAI.Request -> World -> OpenAI.Settled)
    (app : App.t) (text : string) :
  usePromptEditor.setOriginalPrompt text (App.state app)
  = {| originalPrompt := text;
       segments := [];
       finalOutput := "";
       isLoading := isLoading (App.state app);
       error := None |}
  /\ App.step JSON_parse create (App.SetOriginalPrompt text) app
     = Returns {| App.state := usePromptEditor.setOriginalPrompt text (App.state app);
                  App.config := App.config app;
                  App.service := App.service app;
                  App.world := App.world app |}.
Proof. split; reflexivity. Qed.

(** ** The result cache *)

Section Cache.
Variable JSON_parse : string -> string + json.
Variable create : OpenAI.Client -> OpenAI.Request -> World -> OpenAI.Settled.

Import OpenAIService.


Lemma entryOf_lookup key w w' :
  localStorage w' !! key = localStorage w !! key ->
  entryOf JSON_parse key w' = entryOf JSON_parse key w.
Proof. unfold entryOf. by intros ->. Qed.

(** [setCachedResult] stores the entry when the browser accepts the write,
    and otherwise leaves the world as it is. *)
Lemma setCachedResult_cases key data w :
  (localStorage_accepts key (Stringified (cacheData data (Date_now w))) w = true
   /\ setCachedResult key data w
      = setStorage (<[key := Stringified (cacheData data (Date_now w))]> (localStorage w)) w)
  \/ (localStorage_accepts key (Stringified (cacheData data (Date_now w))) w = false
      /\ setCachedResult key data w = w).
Proof.
  unfold setCachedResult, localStorage_setItem.
  destruct (localStorage_accepts _ _ _); auto.
Qed.

Lemma setCachedResult_world key data w :
  Date_now (setCachedResult key data w) = Date_now w
  /\ requests (setCachedResult key data w) = requests w
  /\ quota (setCachedResult key data w) = quota w.
Proof. destruct (setCachedResult_cases key data w) as [[_ ->]|[_ ->]]; done. Qed.

Lemma entryOf_setCachedResult key data w :
  localStorage_accepts key (Stringified (cacheData data (Date_now w))) w = true ->
  entryOf JSON_parse key (setCachedResult key data w) = Some (Some data, Date_now w).
Proof.
  intros Hroom. destruct (setCachedResult_cases key data w) as [[_ ->]|[H _]]; [|congruence].
  unfold entryOf. simpl. by rewrite lookup_insert_eq.
Qed.

Lemma getCachedResult_entry key w data timestamp :
  entryOf JSON_parse key w = Some (data, timestamp) ->
  getCachedResult JSON_parse key w
  = if Date_now w - timestamp <? TTL
    then (Returns data, w)
    else (Returns null, localStorage_removeItem key w).
Proof.
  unfold entryOf, getCachedResult.
  destruct (localStorage w !! key) as [cached|]; [|discriminate].
  destruct (itemTruthy cached); [|discriminate].
  destruct (parseItem JSON_parse cached) as [msg|parsed]; [discriminate|].
  destruct parsed; try discriminate;
    destruct (Json.ToNumber _) as [[t|]| |]; try discriminate;
    by intros [= <- <-].
Qed.

Lemma getCachedResult_hit key w v w0 :
  getCachedResult JSON_parse key w = (Returns v, w0) ->
  v <> null ->
  w0 = w /\ exists timestamp,
    entryOf JSON_parse key w = Some (v, timestamp) /\ Date_now w - timestamp < TTL.
Proof.
  unfold entryOf, getCachedResult.
  destruct (localStorage w !! key) as [cached|]; [|by intros [= <- _]].
  destruct (itemTruthy cached); [|by intros [= <- _]].
  destruct (parseItem JSON_parse cached) as [msg|parsed]; [by intros [= <- _]|].
  destruct parsed; try (by intros [= <- _]);
    destruct (Json.ToNumber _) as [[t|]| |]; try discriminate;
    try (by intros [= <- _]);
    (destruct (Z.ltb_spec (Date_now w - t) TTL); [|by intros [= <- _]]);
    intros [= <- <-] _; eauto.
Qed.

(** Reading the cache touches neither the clock nor the request log. *)
Lemma getCachedResult_world key w :
  Date_now (getCachedResult JSON_parse key w).2 = Date_now w
  /\ requests (getCachedResult JSON_parse key w).2 = requests w.
Proof.
  unfold getCachedResult.
  destruct (localStorage w !! key) as [cached|]; [|done].
  destruct (itemTruthy cached); [|done].
  destruct (parseItem JSON_parse cached) as [msg|parsed]; [done|].
  destruct parsed; try done;
    destruct (Json.ToNumber _) as [[t|]| |]; try done;
    by destruct (_ <? _).
Qed.

(** C4, as the code has it.  When the browser accepts the write of
    [setCachedResult key data], then, as long as the item under [key] is
    the one that was written, [getCachedResult key] returns [data] while
    the age of the entry is below 24 hours; from 24 hours on it returns
    [null] and removes the item.  When the browser refuses the write,
    [setCachedResult] returns all the same and leaves the world as it was. *)
Theorem C4_cache_entry_valid_for_24_hours (key : string) (data : json) (w w' : World) :
  (localStorage_accepts key (Stringified (cacheData data (Date_now w))) w = true ->
   localStorage w' !! key = localStorage (setCachedResult key data w) !! key ->
   let age := Date_now w' - Date_now w in
   (age < 24 * 60 * 60 * 1000 ->
      getCachedResult JSON_parse key w' = (Returns (Some data), w'))
   /\ (24 * 60 * 60 * 1000 <= age ->
         getCachedResult JSON_parse key w' = (Returns null, localStorage_removeItem key w')
         /\ localStorage (localStorage_removeItem key w') !! key = None))
  /\ (localStorage_accepts key (Stringified (cacheData data (Date_now w))) w = false ->
      setCachedResult key data w = w).
Proof.
  split.
  - intros Hroom Hkey age.
    assert (Hentry : entryOf JSON_parse key w' = Some (Some data, Date_now w)).
    { rewrite (entryOf_lookup _ _ _ Hkey). by apply entryOf_setCachedResult. }
    rewrite (getCachedResult_entry _ _ _ _ Hentry).
    change TTL with (24 * 60 * 60 * 1000). fold age.
    split; intros Hage.
    + destruct (Z.ltb_spec age (24 * 60 * 60 * 1000)); [reflexivity | lia].
    + destruct (Z.ltb_spec age (24 * 60 * 60 * 1000)); [lia|].
      split; [reflexivity|]. simpl. apply lookup_delete_eq.
  - intros Hfull. destruct (setCachedResult_cases key data w) as [[H _]|[_ H]];
      [congruence | exact H].
Qed.

End Cache.

(** ** Segments through JSON *)

Lemma asSegment_ofSegment s : Json.asSegment (Json.ofSegment s) = Some s.
Proof. destruct s as [i c t inc o e [x|]]; reflexivity. Qed.

Lemma asSegments_ofSegments l : Json.asSegments (List.map Json.ofSegment l) = Some l.
Proof.
  induction l as [|s l IH]; [reflexivity|].
  cbn [List.map Json.asSegments]. by rewrite asSegment_ofSegment, IH.
Qed.

(** The cast accepts no other value than the JSON form of the segment. *)
Lemma ofSegment_asSegment j s : Json.asSegment j = Some s -> Json.ofSegment s = j.
Proof.
  unfold Json.asSegment. intros Hj.
  repeat match type of Hj with
         | (if Json.keysAre ?f ?k then _ else _) = _ =>
             destruct (Json.keysAre f k) eqn:?; try discriminate
         | match ?x with _ => _ end = _ => destruct x; try discriminate
         end.
  all: match goal with
       | H : Json.keysAre _ _ = true |- _ => apply bool_decide_eq_true in H; simpl in H
       end.
  all: simplify_eq; reflexivity.
Qed.

Lemma ofSegments_asSegments l : forall segs,
  Json.asSegments l = Some segs -> List.map Json.ofSegment segs = l.
Proof.
  induction l as [|j l IH]; intros segs; cbn [Json.asSegments]; [by intros [= <-]|].
  destruct (Json.asSegment j) as [s|] eqn:Hj; [|discriminate].
  destruct (Json.asSegments l) as [ss|]; [|discriminate].
  intros [= <-]. cbn [List.map].
  by rewrite (ofSegment_asSegment _ _ Hj), (IH ss eq_refl).
Qed.

(** ** Segmenting the same prompt twice *)

Section Segmentize.
Variable JSON_parse : string -> string + json.
Variable create : OpenAI.Client -> OpenAI.Request -> World -> OpenAI.Settled.

Import OpenAIService.

Lemma cachedArray_Some cached l : cachedArray cached = Some l -> cached = Some (JArr l).
Proof.
  unfold cachedArray. destruct (Json.truthy cached); [|discriminate].
  destruct cached as [[]|]; try discriminate. by intros [= ->].
Qed.

(** A successful uncached call asks the provider once and hands the result
    to [setCachedResult] at the instant at which it returns: the entry is
    written when the browser accepts it, and the storage is left as it was
    when the browser refuses it. *)
Lemma breakUncached_Returns c cfg cacheKey prompt w segs w1 :
  breakUncached JSON_parse create c cfg cacheKey prompt w = (Returns segs, w1) ->
  requests w1 = (requests w ++ [breakRequest cfg prompt])%list
  /\ (localStorage_accepts cacheKey
        (Stringified (cacheData (Json.ofSegments segs) (Date_now w1))) w = true ->
      entryOf JSON_parse cacheKey w1 = Some (Some (Json.ofSegments segs), Date_now w1))
  /\ (localStorage_accepts cacheKey
        (Stringified (cacheData (Json.ofSegments segs) (Date_now w1))) w = false ->
      localStorage w1 = localStorage w).
Proof.
  unfold breakUncached, await_create.
  destruct (OpenAI.result _) as [e|response]; [discriminate|].
  destruct (noContent _); [destruct (finishedByLength _); discriminate|].
  destruct (JSON_parse _) as [msg|parsed]; [discriminate|].
  destruct (convertSegments _ _) as [result| |]; try discriminate.
  intros [= <- <-].
  match goal with
  | |- context [setCachedResult cacheKey ?d ?wm] =>
      destruct (setCachedResult_world cacheKey d wm) as (Hnow & Hreq & _);
      pose proof (entryOf_setCachedResult JSON_parse cacheKey d wm) as Hentry;
      destruct (setCachedResult_cases cacheKey d wm) as [[Hroom Heq]|[Hroom Heq]]
  end.
  all: rewrite Hnow, Hreq; simpl in *; unfold localStorage_accepts in *; simpl in *.
  all: split; [reflexivity|]; split; intros H.
  - by apply Hentry.
  - congruence.
  - congruence.
  - by rewrite Heq.
Qed.

(** C3, as the code has it.  A [breakPromptIntoSegments prompt] that
    succeeds has asked the provider at most once.  When it was served from
    the cache, or when the browser accepted the write of its result, the
    cache then holds an entry for [prompt] (written at the return of the
    call when the provider was asked), and a second call with the same
    [prompt] made while that entry is younger than 24 hours returns the
    same segments and leaves the world, and with it the log of provider
    requests, as it was.  When the browser refused the write, the storage
    is as the read of the cache left it: the result is not cached. *)
Theorem C3_second_segmentize_served_from_cache
    (prompt : string) (this : t) (w w1 : World) (segs : list PromptSegment) :
  breakPromptIntoSegments JSON_parse create prompt this w = (Returns segs, w1) ->
  let key := generateCacheKey "break-segments" prompt in
  let afterRead := (getCachedResult JSON_parse key w).2 in
  let entry := Stringified (cacheData (Json.ofSegments segs) (Date_now w1)) in
  (length (requests w1) <= length (requests w) + 1)%nat
  /\ (requests w1 = requests w \/ localStorage_accepts key entry afterRead = true ->
      exists timestamp,
        entryOf JSON_parse key w1 = Some (Some (Json.ofSegments segs), timestamp)
        /\ (requests w1 <> requests w -> timestamp = Date_now w1)
        /\ forall w2,
             localStorage w2 !! key = localStorage w1 !! key ->
             Date_now w2 - timestamp < 24 * 60 * 60 * 1000 ->
             breakPromptIntoSegments JSON_parse create prompt this w2 = (Returns segs, w2))
  /\ (requests w1 <> requests w -> localStorage_accepts key entry afterRead = false ->
      localStorage w1 = localStorage afterRead).
Proof.
  intros Hcall key afterRead entry. revert Hcall.
  unfold breakPromptIntoSegments.
  destruct (client this) as [c|]; [|discriminate].
  destruct (config this) as [cfg|]; [|discriminate].
  fold key.
  assert (Hsecond : forall data timestamp w2,
             entryOf JSON_parse key w1 = Some (Some (JArr data), timestamp) ->
             Json.asSegments data = Some segs ->
             localStorage w2 !! key = localStorage w1 !! key ->
             Date_now w2 - timestamp < 24 * 60 * 60 * 1000 ->
             match getCachedResult JSON_parse key w2 with
             | (Returns cached, w0) =>
                 match cachedArray cached with
                 | Some l =>
                     match Json.asSegments l with
                     | Some segs => (Returns segs, w0)
                     | None => (Untyped, w0)
                     end
                 | None =>
                     match breakUncached JSON_parse create c cfg key prompt w0 with
                     | (Throws e, w3) =>
                         (Throws (wrap "Failed to break prompt into segments: " e), w3)
                     | r => r
                     end
                 end
             | (_, w0) => (Untyped, w0)
             end = (Returns segs, w2)).
  { intros data timestamp w2 Hentry Hdata Hkey Hfresh.
    rewrite <- (entryOf_lookup JSON_parse _ _ _ Hkey) in Hentry.
    rewrite (getCachedResult_entry _ _ _ _ _ Hentry).
    change TTL with (24 * 60 * 60 * 1000).
    destruct (Z.ltb_spec (Date_now w2 - timestamp) (24 * 60 * 60 * 1000)); [|lia].
    simpl. by rewrite Hdata. }
  pose proof (getCachedResult_world JSON_parse key w) as [_ Hreq].
  subst afterRead.
  destruct (getCachedResult JSON_parse key w) as [[cached| |] w0] eqn:Hget;
    try discriminate.
  simpl in Hreq. cbn [snd].
  destruct (cachedArray cached) as [l|] eqn:Harr.
  - (* served from the cache *)
    apply cachedArray_Some in Harr as ->.
    destruct (Json.asSegments l) as [segs'|] eqn:Hl; [|discriminate].
    intros [= -> ->].
    apply getCachedResult_hit in Hget as [-> (timestamp & Hentry & Hfresh)];
      [|discriminate].
    split; [lia|]. split; [|by intros Hneq].
    intros _. exists timestamp. split; [|split].
    + rewrite Hentry. unfold Json.ofSegments.
      by rewrite (ofSegments_asSegments _ _ Hl).
    + intros Hneq. by destruct Hneq.
    + intros w2 Hkey Hw2. by apply (Hsecond l timestamp).
  - (* asked the provider *)
    destruct (breakUncached JSON_parse create c cfg key prompt w0)
      as [[result|e|] w1'] eqn:Hun; try discriminate.
    intros [= -> ->].
    apply breakUncached_Returns in Hun as (Hlog & Hstored & Hrefused).
    assert (Hasked : requests w1 <> requests w).
    { rewrite Hlog, Hreq. intros Heq. apply (f_equal length) in Heq.
      rewrite length_app in Heq. simpl in Heq. lia. }
    split; [rewrite Hlog, length_app, Hreq; simpl; lia|]. split.
    + intros [Hsame|Hroom]; [done|].
      exists (Date_now w1). split; [by apply Hstored|]. split; [done|].
      intros w2 Hkey Hw2. apply (Hsecond _ _ _ (Hstored Hroom)); [|done..].
      apply asSegments_ofSegments.
    + intros _ Hfull. by apply Hrefused.
Qed.

End Segmentize.

(** ** The saved session *)

Lemma orString_JStr s : OpenAIService.orString (Some (JStr s)) "" = Returns s.
Proof. by destruct s. Qed.

Lemma segmentsOr_ofSegments l :
  usePromptEditor.segmentsOr (Some (Json.ofSegments l)) = Returns l.
Proof. unfold usePromptEditor.segmentsOr. simpl. by rewrite asSegments_ofSegments. Qed.

(** C7, as the code has it.  When the browser accepts the write of
    [saveSession], a [loadSession] made with the session item still the one
    that was saved reports a session, and the state it leaves has the saved
    [originalPrompt] and the saved segments, every field of every segment
    included.  When the browser refuses the write, [saveSession] ends in
    the exception of the storage and nothing is stored. *)
Theorem C7_saveSession_loadSession_roundtrip
    (JSON_parse : string -> string + json) (saved current : AppState) (w : World) :
  let written := Stringified (usePromptEditor.sessionData saved (Date_now w)) in
  (localStorage_accepts usePromptEditor.sessionKey written w = true ->
   exists w1,
     usePromptEditor.saveSession saved w = Returns w1
     /\ forall w',
          localStorage w' !! usePromptEditor.sessionKey
          = localStorage w1 !! usePromptEditor.sessionKey ->
          exists restored,
            usePromptEditor.loadSession JSON_parse w' current = Returns (true, restored)
            /\ originalPrompt restored = originalPrompt saved
            /\ segments restored = segments saved
            /\ List.map (fun s => (id s, content s, order s, isIncluded s))
                 (segments restored)
               = List.map (fun s => (id s, content s, order s, isIncluded s))
                   (segments saved))
  /\ (localStorage_accepts usePromptEditor.sessionKey written w = false ->
      usePromptEditor.saveSession saved w = Throws QuotaExceededError).
Proof.
  intros written. unfold usePromptEditor.saveSession. fold written.
  destruct (localStorage_setItem_cases usePromptEditor.sessionKey written w)
    as [[Hroom ->]|[Hfull ->]]; split; try congruence; intros _.
  eexists. split; [reflexivity|]. intros w' Hkey.
  unfold usePromptEditor.loadSession. rewrite Hkey. simpl.
  rewrite lookup_insert_eq. simpl.
  rewrite orString_JStr.
  change (JArr (List.map Json.ofSegment (segments saved)))
    with (Json.ofSegments (segments saved)).
  rewrite segmentsOr_ofSegments.
  eexists. split; [reflexivity|]. done.
Qed.

(** ** Guards and failures of the AI operations *)

Lemma trimStart_whitespace s :
  Forall (fun c => JsString.isWhiteSpace c = true) (JsString.chars s) ->
  JsString.trimStart s = "".
Proof.
  induction s as [|c s IH]; simpl; [reflexivity|].
  intros H. apply Forall_cons_1 in H as [-> H]. by apply IH.
Qed.

Lemma trim_whitespace s :
  Forall (fun c => JsString.isWhiteSpace c = true) (JsString.chars s) ->
  JsString.trim s = "".
Proof. intros H. unfold JsString.trim. by rewrite trimStart_whitespace. Qed.

Lemma findSegment_absent segmentId segs :
  Forall (fun s => id s <> segmentId) segs ->
  usePromptEditor.findSegment segmentId segs = None.
Proof.
  induction 1 as [|s l Hs Hl IH]; simpl; [reflexivity|].
  destruct (String.eqb_spec (id s) segmentId); [done | exact IH].
Qed.

(** The two updates that an AI callback makes around a failed call keep the
    prompt, the segments and the output of whatever state they are applied
    to. *)
Lemma loadingStarted_keeps_content prev :
  originalPrompt (usePromptEditor.loadingStarted prev) = originalPrompt prev
  /\ segments (usePromptEditor.loadingStarted prev) = segments prev
  /\ finalOutput (usePromptEditor.loadingStarted prev) = finalOutput prev.
Proof. by repeat split. Qed.

Lemma operationFailed_keeps_content message prev :
  originalPrompt (usePromptEditor.operationFailed message prev) = originalPrompt prev
  /\ segments (usePromptEditor.operationFailed message prev) = segments prev
  /\ finalOutput (usePromptEditor.operationFailed message prev) = finalOutput prev.
Proof. by repeat split. Qed.

Section Operations.
Variable JSON_parse : string -> string + json.
Variable create : OpenAI.Client -> OpenAI.Request -> World -> OpenAI.Settled.

(** The service throws [Error] objects only. *)
Lemma breakPromptIntoSegments_throws prompt this w e w1 :
  OpenAIService.breakPromptIntoSegments JSON_parse create prompt this w = (Throws e, w1) ->
  exists message, e = Error message.
Proof.
  unfold OpenAIService.breakPromptIntoSegments.
  destruct (OpenAIService.client this); [|intros [= <- _]; eauto].
  destruct (OpenAIService.config this); [|intros [= <- _]; eauto].
  destruct (OpenAIService.getCachedResult _ _ _) as [[cached| |] w0]; try discriminate.
  destruct (OpenAIService.cachedArray cached) as [l|].
  - destruct (Json.asSegments l); discriminate.
  - destruct (OpenAIService.breakUncached _ _ _ _ _ _ _) as [[r|e'|] w']; try discriminate.
    intros [= <- _]. unfold OpenAIService.wrap. eauto.
Qed.

Lemma makeConcise_throws content this w e w1 :
  OpenAIService.makeConcise JSON_parse create content this w = (Throws e, w1) ->
  exists message, e = Error message.
Proof.
  unfold OpenAIService.makeConcise.
  destruct (OpenAIService.client this); [|intros [= <- _]; eauto].
  destruct (OpenAIService.config this); [|intros [= <- _]; eauto].
  destruct (OpenAIService.getCachedResult _ _ _) as [[cached| |] w0]; try discriminate.
  destruct (OpenAIService.cachedString cached) as [s|]; [discriminate|].
  destruct (OpenAIService.conciseUncached _ _ _ _ _ _) as [[r|e'|] w']; try discriminate.
  intros [= <- _]. unfold OpenAIService.wrap. eauto.
Qed.

(** C9. When the service call of an AI operation rejects, the callback
    leaves [originalPrompt], [segments] and [finalOutput] as they were at
    the call, [isLoading] false and [error] the message of the failure. *)
Theorem C9_failed_operation_changes_only_loading_and_error
    (service : OpenAIService.t) (st : AppState) (w w1 : World) (e : thrown) :
  (JsString.trim (originalPrompt st) <> "" ->
   OpenAIService.isInitialized service = true ->
   OpenAIService.breakPromptIntoSegments JSON_parse create (originalPrompt st) service w
   = (Throws e, w1) ->
   exists message,
     e = Error message
     /\ usePromptEditor.breakPromptIntoSegments JSON_parse create service st w
        = (Returns {| originalPrompt := originalPrompt st;
                      segments := segments st;
                      finalOutput := finalOutput st;
                      isLoading := false;
                      error := Some message |}, w1))
  /\ (forall segmentId segment,
        usePromptEditor.findSegment segmentId (segments st) = Some segment ->
        OpenAIService.isInitialized service = true ->
        OpenAIService.makeConcise JSON_parse create (content segment) service w
        = (Throws e, w1) ->
        exists message,
          e = Error message
          /\ usePromptEditor.makeConcise JSON_parse create service segmentId st w
             = (Returns {| originalPrompt := originalPrompt st;
                           segments := segments st;
                           finalOutput := finalOutput st;
                           isLoading := false;
                           error := Some message |}, w1)).
Proof.
  split.
  - intros Hprompt Hinit Hcall.
    destruct (breakPromptIntoSegments_throws _ _ _ _ _ Hcall) as [message ->].
    exists message. split; [reflexivity|].
    unfold usePromptEditor.breakPromptIntoSegments. rewrite Hinit, Hcall.
    destruct (JsString.trim (originalPrompt st)); [done | reflexivity].
  - intros segmentId segment Hfind Hinit Hcall.
    destruct (makeConcise_throws _ _ _ _ _ Hcall) as [message ->].
    exists message. split; [reflexivity|].
    unfold usePromptEditor.makeConcise. by rewrite Hfind, Hinit, Hcall.
Qed.

(** C10. With a prompt that is empty or all white space, or with a segment
    id that no segment has, or with a service that is not initialized,
    the callbacks return at once: the state, [error] and [isLoading]
    included, and the world, the log of provider requests included, are
    unchanged. *)
Theorem C10_guarded_operations_change_nothing
    (service : OpenAIService.t) (st : AppState) (w : World) (segmentId : string) :
  (Forall (fun c => JsString.isWhiteSpace c = true) (JsString.chars (originalPrompt st))
   \/ OpenAIService.isInitialized service = false ->
   usePromptEditor.breakPromptIntoSegments JSON_parse create service st w = (Returns st, w))
  /\ (Forall (fun s => id s <> segmentId) (segments st)
      \/ OpenAIService.isInitialized service = false ->
      usePromptEditor.makeConcise JSON_parse create service segmentId st w = (Returns st, w)).
Proof.
  split; intros [H|H].
  - unfold usePromptEditor.breakPromptIntoSegments. by rewrite trim_whitespace.
  - unfold usePromptEditor.breakPromptIntoSegments. rewrite H.
    by destruct (negb _).
  - unfold usePromptEditor.makeConcise. by rewrite findSegment_absent.
  - unfold usePromptEditor.makeConcise. rewrite H.
    by destruct (usePromptEditor.findSegment _ _).
Qed.

End Operations.

(** ** A reply cut short by the token limit *)

Section Truncation.
Variable JSON_parse : string -> string + json.
Variable create : OpenAI.Client -> OpenAI.Request -> World -> OpenAI.Settled.

Import OpenAIService.

Lemma getCachedResult_absent key w :
  localStorage w !! key = None -> getCachedResult JSON_parse key w = (Returns null, w).
Proof. unfold getCachedResult. by intros ->. Qed.

(** [breakPromptIntoSegments]: no content and [finish_reason = 'length']
    give the failure that names the truncation; no content otherwise gives
    the failure for an empty reply. *)
Lemma breakPromptIntoSegments_no_content prompt this w c cfg response :
  client this = Some c -> config this = Some cfg ->
  localStorage w !! generateCacheKey "break-segments" prompt = None ->
  OpenAI.result (create c (breakRequest cfg prompt) w) = inr response ->
  noContent (messageContent (firstChoice response)) = true ->
  (breakPromptIntoSegments JSON_parse create prompt this w).1
  = Throws (Error ("Failed to break prompt into segments: "
                   +:+ if finishedByLength (firstChoice response)
                       then truncatedMessage
                       else "No response from OpenAI")).
Proof.
  intros Hc Hcfg Hmiss Hreply Hnone. unfold breakPromptIntoSegments.
  rewrite Hc, Hcfg, (getCachedResult_absent _ _ Hmiss). simpl.
  unfold breakUncached, await_create. rewrite Hreply, Hnone.
  by destruct (finishedByLength _).
Qed.

(** C2, on [makeConcise]: a reply with no content and
    [finish_reason = 'length'] is rejected with the message of an empty
    reply; the truncation is not told apart. *)
Theorem C2_makeConcise_truncated_reply_is_no_response
    (content : string) (this : t) (w : World)
    (c : OpenAI.Client) (cfg : OpenAIConfig) (response : OpenAI.ChatCompletion) :
  client this = Some c -> config this = Some cfg ->
  localStorage w !! generateCacheKey "make-concise" content = None ->
  OpenAI.result (create c (conciseRequest cfg content) w) = inr response ->
  noContent (messageContent (firstChoice response)) = true ->
  finishedByLength (firstChoice response) = true ->
  (makeConcise JSON_parse create content this w).1
  = Throws (Error "Failed to make content concise: No response from OpenAI").
Proof.
  intros Hc Hcfg Hmiss Hreply Hnone _. unfold makeConcise.
  rewrite Hc, Hcfg, (getCachedResult_absent _ _ Hmiss). simpl.
  unfold conciseUncached, await_create. by rewrite Hreply, Hnone.
Qed.

End Truncation.

(** ** What clears the error *)

Section ErrorField.
Variable JSON_parse : string -> string + json.
Variable create : OpenAI.Client -> OpenAI.Request -> World -> OpenAI.Settled.

(** C8, as the code has it. [updateSegment], [reorderSegments],
    [saveSession] (and a change of configuration, and time) keep [error];
    [clearError] and [setOriginalPrompt] clear it; so does [loadSession]
    when it finds a session, and so does an AI operation that passes its
    guard: [error] is then null when the operation succeeds and the
    message of the failure when it fails. *)
Theorem C8_what_clears_the_error (a : App.Action) (app app' : App.t) :
  App.step JSON_parse create a app = Returns app' ->
  match a with
  | App.UpdateSegment _ _ | App.ReorderSegments _ | App.SaveSession
  | App.SetConfig _ | App.Wait _ =>
      error (App.state app') = error (App.state app)
  | App.ClearError | App.SetOriginalPrompt _ =>
      error (App.state app') = None
  | App.LoadSession =>
      match usePromptEditor.loadSession JSON_parse (App.world app) (App.state app) with
      | Returns (true, _) => error (App.state app') = None
      | _ => App.state app' = App.state app
      end
  | App.BreakPromptIntoSegments =>
      if negb (JsString.truthy (JsString.trim (originalPrompt (App.state app))))
         || negb (OpenAIService.isInitialized (App.service app))
      then app' = app
      else
        match OpenAIService.breakPromptIntoSegments JSON_parse create
                (originalPrompt (App.state app)) (App.service app) (App.world app) with
        | (Returns _, _) => error (App.state app') = None
        | (Throws e, _) =>
            error (App.state app')
            = Some (usePromptEditor.messageOf e "Failed to break prompt into segments")
        | (Untyped, _) => False
        end
  | App.MakeConcise segmentId =>
      match usePromptEditor.findSegment segmentId (segments (App.state app)) with
      | Some segment =>
          if negb (OpenAIService.isInitialized (App.service app))
          then app' = app
          else
            match OpenAIService.makeConcise JSON_parse create
                    (content segment) (App.service app) (App.world app) with
            | (Returns _, _) => error (App.state app') = None
            | (Throws e, _) =>
                error (App.state app')
                = Some (usePromptEditor.messageOf e "Failed to make content concise")
            | (Untyped, _) => False
            end
      | None => app' = app
      end
  end.
Proof.
  destruct app as [st cfg svc w].
  destruct a; simpl; try (by intros [= <-]).
  - unfold usePromptEditor.breakPromptIntoSegments.
    destruct (_ || _); [by intros [= <-]|].
    destruct (OpenAIService.breakPromptIntoSegments _ _ _ _ _) as [[segs|e|] w1];
      try discriminate; by intros [= <-].
  - unfold usePromptEditor.makeConcise.
    destruct (usePromptEditor.findSegment _ _) as [segment|]; [|by intros [= <-]].
    destruct (negb _); [by intros [= <-]|].
    destruct (OpenAIService.makeConcise _ _ _ _ _) as [[s|e|] w1];
      try discriminate; by intros [= <-].
  - destruct (usePromptEditor.saveSession _ _) as [w1| |]; by intros [= <-].
  - destruct (usePromptEditor.loadSession _ _ _) as [[[] st']| |] eqn:E;
      try discriminate; intros [= <-]; simpl; [|clear -E].
    + revert E. unfold usePromptEditor.loadSession.
      repeat match goal with
             | |- context [match ?x with _ => _ end] => destruct x; try discriminate
             end; by intros [= <-].
    + revert E. unfold usePromptEditor.loadSession.
      repeat match goal with
             | |- context [match ?x with _ => _ end] => destruct x; try discriminate
             end; by intros [= <-].
Qed.

End ErrorField.

(** * The examples of the specification *)

(** Two included segments give their contents with a blank line between. *)
Example output_A_B :
  output [Scenario.A; Scenario.B] = "A" +:+ JsString.LF +:+ JsString.LF +:+ "B".
Proof. reflexivity. Qed.

(** Excluding the second segment leaves the first. *)
Example output_after_exclusion :
  finalOutput (usePromptEditor.updateSegment "b"
                 (mkPartial None None None (Some false) None None None) Scenario.editing)
  = "A".
Proof. reflexivity. Qed.

(** [reorder([B, A])] gives B the order 0 and A the order 1, and the output
    follows. *)
Example output_after_reorder :
  List.map (fun s => (id s, order s))
    (segments (usePromptEditor.reorderSegments [Scenario.B; Scenario.A] Scenario.editing))
  = [("b", 0); ("a", 1)]
  /\ finalOutput (usePromptEditor.reorderSegments [Scenario.B; Scenario.A] Scenario.editing)
     = "B" +:+ JsString.LF +:+ JsString.LF +:+ "A".
Proof. split; reflexivity. Qed.

(** The sort is stable and does not look at the position in the array. *)
Example includedSegments_by_order :
  List.map id (includedSegments
                 [mkSegment "x" "" "" true 2 false None;
                  mkSegment "y" "" "" false 0 false None;
                  mkSegment "z" "" "" true 1 false None;
                  mkSegment "t" "" "" true 2 false None])
  = ["z"; "x"; "t"].
Proof. reflexivity. Qed.

(** Cache keys: the hash is the 32-bit rolling hash of the text, printed
    without its sign. *)
Example cacheKey_hello_world :
  OpenAIService.generateCacheKey "break-segments" "hello world"
  = "prompt-editor-cache-break-segments-1794106052".
Proof. vm_compute. reflexivity. Qed.

Example cacheKey_negative_hash :
  fold_left OpenAIService.hashStep (JsString.chars "A long paragraph.") 0 = -935433531
  /\ OpenAIService.generateCacheKey "make-concise" "A long paragraph."
     = "prompt-editor-cache-make-concise-935433531".
Proof. split; vm_compute; reflexivity. Qed.

Example trim_examples :
  JsString.trim "  short  " = "short"
  /\ JsString.trim "   " = ""
  /\ JsString.trim "a b" = "a b".
Proof. repeat split; reflexivity. Qed.

(** The segments made from a reply whose records lack both fields. *)
Example segments_from_defaults :
  List.map (fun s => (id s, title s, content s, order s, isIncluded s)) Scenario.segmented
  = [("segment-1700000001200-0", "Segment 1", "", 0, true);
     ("segment-1700000001200-1", "Segment 2", "", 1, true)].
Proof. reflexivity. Qed.

(** On [breakPromptIntoSegments] a reply cut short is told apart. *)
Example breakPromptIntoSegments_truncated :
  (OpenAIService.breakPromptIntoSegments Scenario.parse Scenario.truncating
     "hello world" Scenario.service Scenario.browser).1
  = Throws (Error ("Failed to break prompt into segments: " +:+ OpenAIService.truncatedMessage)).
Proof. vm_compute. reflexivity. Qed.

(** The cast [as PromptSegment] is defined on the JSON form of a segment
    only. *)
Example asSegment_shapes :
  Json.asSegment (Json.ofSegment Scenario.B) = Some Scenario.B
  /\ Json.asSegment (JObj [("id", JStr "a")]) = None
  /\ Json.asSegment (JObj [("id", JStr "b"); ("title", JStr "Second"); ("content", JStr "B");
                           ("isIncluded", JBool true); ("order", JStr "1");
                           ("isEditing", JBool false)]) = None.
Proof. repeat split; reflexivity. Qed.

(** * The properties on the example session *)

Lemma C1_witness :
  App.run Scenario.parse Scenario.provider Scenario.shuffling (App.start Scenario.browser)
  = Returns Scenario.shuffled
  /\ List.map (fun s => (id s, order s, isIncluded s)) (segments (App.state Scenario.shuffled))
     = [("b", 7, true); ("a", 1, true); ("c", 2, false)]
  /\ finalOutput (App.state Scenario.shuffled) = String "A" (String "010" (String "010" "B"))
  /\ exists taken : list PromptSegment,
       Permutation taken (List.filter isIncluded (segments (App.state Scenario.shuffled)))
       /\ StronglySorted orderLe taken
       /\ finalOutput (App.state Scenario.shuffled)
          = String.concat (String "010" (String "010" EmptyString)) (List.map content taken).
Proof.
  assert (H : App.run Scenario.parse Scenario.provider Scenario.shuffling
                (App.start Scenario.browser) = Returns Scenario.shuffled)
    by (vm_compute; reflexivity).
  split; [exact H|]. split; [reflexivity|]. split; [reflexivity|].
  exact (proj1 (C1_finalOutput_joins_included_in_order _ _ _ _ _ H)).
Defined.

Lemma C2_witness :
  (OpenAIService.makeConcise Scenario.parse Scenario.truncating
     "A long paragraph." Scenario.service Scenario.browser).1
  = Throws (Error "Failed to make content concise: No response from OpenAI").
Proof.
  apply (C2_makeConcise_truncated_reply_is_no_response
           Scenario.parse Scenario.truncating "A long paragraph."
           Scenario.service Scenario.browser Scenario.client Scenario.config
           Scenario.truncated);
    vm_compute; reflexivity.
Defined.

Lemma C3_witness :
  OpenAIService.breakPromptIntoSegments Scenario.parse Scenario.provider
    "hello world" Scenario.service Scenario.browser
  = (Returns Scenario.segmented, Scenario.afterSegmenting)
  /\ OpenAIService.breakPromptIntoSegments Scenario.parse Scenario.provider
       "hello world" Scenario.service (advance 3600000 Scenario.afterSegmenting)
     = (Returns Scenario.segmented, advance 3600000 Scenario.afterSegmenting).
Proof.
  assert (H : OpenAIService.breakPromptIntoSegments Scenario.parse Scenario.provider
                "hello world" Scenario.service Scenario.browser
              = (Returns Scenario.segmented, Scenario.afterSegmenting))
    by (vm_compute; reflexivity).
  split; [exact H|].
  destruct (C3_second_segmentize_served_from_cache _ _ _ _ _ _ _ H) as (_ & Hcached & _).
  destruct Hcached as (timestamp & _ & Hasked & Hsecond).
  - right. vm_compute. reflexivity.
  - apply Hsecond; [reflexivity|].
    rewrite Hasked; [vm_compute; reflexivity | vm_compute; discriminate].
Defined.

(** C3, as the specification words it, fails in a browser whose storage is
    full: the segmentation succeeds and asks the provider once; the write of
    the result is refused; a second after, the same prompt is sent to the
    provider a second time. *)
Lemma C3_counterexample :
  OpenAIService.breakPromptIntoSegments Scenario.parse Scenario.provider
    "hello world" Scenario.service Scenario.full
  = (Returns Scenario.segmented, Scenario.uncached)
  /\ requests Scenario.uncached
     = [OpenAIService.breakRequest Scenario.config "hello world"]
  /\ localStorage Scenario.uncached = ∅
  /\ requests (OpenAIService.breakPromptIntoSegments Scenario.parse Scenario.provider
                 "hello world" Scenario.service (advance 1000 Scenario.uncached)).2
     = [OpenAIService.breakRequest Scenario.config "hello world";
        OpenAIService.breakRequest Scenario.config "hello world"].
Proof. repeat split; vm_compute; reflexivity. Qed.

Lemma C4_witness :
  OpenAIService.getCachedResult Scenario.parse "k"
    (advance 5000 (OpenAIService.setCachedResult "k" (JStr "v") Scenario.browser))
  = (Returns (Some (JStr "v")),
     advance 5000 (OpenAIService.setCachedResult "k" (JStr "v") Scenario.browser))
  /\ OpenAIService.getCachedResult Scenario.parse "k"
       (advance 86400000 (OpenAIService.setCachedResult "k" (JStr "v") Scenario.browser))
     = (Returns null,
        localStorage_removeItem "k"
          (advance 86400000 (OpenAIService.setCachedResult "k" (JStr "v") Scenario.browser)))
  /\ localStorage
       (localStorage_removeItem "k"
          (advance 86400000
             (OpenAIService.setCachedResult "k" (JStr "v") Scenario.browser))) !! "k"
     = None.
Proof.
  destruct (proj1 (C4_cache_entry_valid_for_24_hours Scenario.parse "k" (JStr "v")
                     Scenario.browser
                     (advance 5000
                        (OpenAIService.setCachedResult "k" (JStr "v") Scenario.browser)))
              eq_refl eq_refl) as [Hfresh _].
  destruct (proj1 (C4_cache_entry_valid_for_24_hours Scenario.parse "k" (JStr "v")
                     Scenario.browser
                     (advance 86400000
                        (OpenAIService.setCachedResult "k" (JStr "v") Scenario.browser)))
              eq_refl eq_refl) as [_ Hold].
  split; [|split].
  - apply Hfresh. vm_compute. reflexivity.
  - apply Hold. vm_compute. discriminate.
  - apply Hold. vm_compute. discriminate.
Defined.

(** C4, as the specification words it, fails in a browser whose storage is
    full: [setCachedResult] returns and has stored nothing, and the read
    that follows at once reports a miss. *)
Lemma C4_counterexample :
  OpenAIService.setCachedResult "k" (JStr "v") Scenario.full = Scenario.full
  /\ OpenAIService.getCachedResult Scenario.parse "k"
       (OpenAIService.setCachedResult "k" (JStr "v") Scenario.full)
     = (Returns null, Scenario.full).
Proof. split; vm_compute; reflexivity. Qed.

Lemma C6_witness :
  segments (usePromptEditor.reorderSegments [Scenario.B; Scenario.A] Scenario.editing) !! 1%nat
  = Some (mkSegment "a" "A" "First" true 1 false (Some false))
  /\ finalOutput (usePromptEditor.reorderSegments
                    (Array_sort byOrder (segments Scenario.editing)) Scenario.editing)
     = finalOutput Scenario.editing.
Proof.
  destruct (C6_reorder_by_position_canonical_noop
              Scenario.editing [Scenario.B; Scenario.A] eq_refl)
    as (_ & Hpos & _ & Hnoop & _).
  split; [exact (Hpos 1%nat Scenario.A eq_refl) | exact Hnoop].
Defined.

Lemma C7_witness :
  usePromptEditor.saveSession Scenario.editing Scenario.browser = Returns Scenario.saved
  /\ exists restored,
       usePromptEditor.loadSession Scenario.parse (advance 60000 Scenario.saved)
         usePromptEditor.initialState
       = Returns (true, restored)
       /\ originalPrompt restored = "A B"
       /\ segments restored = [Scenario.A; Scenario.B].
Proof.
  destruct (proj1 (C7_saveSession_loadSession_roundtrip Scenario.parse Scenario.editing
                     usePromptEditor.initialState Scenario.browser) eq_refl)
    as (w1 & Hsave & Hload).
  assert (Hw : Returns w1 = Returns Scenario.saved)
    by (rewrite <- Hsave; vm_compute; reflexivity).
  injection Hw as ->. split; [exact Hsave|].
  destruct (Hload (advance 60000 Scenario.saved) eq_refl)
    as (restored & Hrestored & Hprompt & Hsegs & _).
  exists restored. auto.
Defined.

(** C7, as the specification words it, fails in a browser whose storage is
    full: the save stores nothing, and the load that follows finds no
    session and restores neither the prompt nor the segments. *)
Lemma C7_counterexample :
  originalPrompt Scenario.editing = "A B"
  /\ usePromptEditor.saveSession Scenario.editing Scenario.full = Throws QuotaExceededError
  /\ App.step Scenario.parse Scenario.provider App.SaveSession
       (App.mk Scenario.editing None OpenAIService.new Scenario.full)
     = Returns (App.mk Scenario.editing None OpenAIService.new Scenario.full)
  /\ usePromptEditor.loadSession Scenario.parse Scenario.full usePromptEditor.initialState
     = Returns (false, usePromptEditor.initialState).
Proof. repeat split; vm_compute; reflexivity. Qed.

Lemma C8_witness :
  App.step Scenario.parse Scenario.provider App.BreakPromptIntoSegments Scenario.failedApp
  = Returns Scenario.retried
  /\ error (App.state Scenario.retried) = None.
Proof.
  assert (H : App.step Scenario.parse Scenario.provider App.BreakPromptIntoSegments
                Scenario.failedApp = Returns Scenario.retried)
    by (vm_compute; reflexivity).
  split; [exact H|].
  exact (C8_what_clears_the_error Scenario.parse Scenario.provider
           App.BreakPromptIntoSegments Scenario.failedApp Scenario.retried H).
Defined.

(** C8, as the specification words it, fails: an error is stored; the
    segmentation is asked again and succeeds, and the error is gone; a saved
    session is loaded, and the error is gone. *)
Lemma C8_counterexample :
  error (App.state Scenario.failedApp)
  = Some "Failed to break prompt into segments: 429 Too Many Requests"
  /\ App.step Scenario.parse Scenario.provider App.BreakPromptIntoSegments Scenario.failedApp
     = Returns Scenario.retried
  /\ error (App.state Scenario.retried) = None
  /\ error (App.state Scenario.savedApp)
     = Some "Failed to break prompt into segments: 429 Too Many Requests"
  /\ App.step Scenario.parse Scenario.provider App.LoadSession Scenario.savedApp
     = Returns Scenario.reloaded
  /\ error (App.state Scenario.reloaded) = None.
Proof. repeat split; vm_compute; reflexivity. Qed.

Lemma C9_witness :
  usePromptEditor.breakPromptIntoSegments Scenario.parse Scenario.refusing
    Scenario.service Scenario.editing Scenario.browser
  = (Returns {| originalPrompt := "A B";
                segments := [Scenario.A; Scenario.B];
                finalOutput := finalOutput Scenario.editing;
                isLoading := false;
                error := Some "Failed to break prompt into segments: 429 Too Many Requests" |},
     mkWorld ∅ 1700000000030
       [OpenAIService.breakRequest Scenario.config "A B"] (quota Scenario.browser))
  /\ usePromptEditor.makeConcise Scenario.parse Scenario.refusing
       Scenario.service "a" Scenario.editing Scenario.browser
     = (Returns {| originalPrompt := "A B";
                   segments := [Scenario.A; Scenario.B];
                   finalOutput := finalOutput Scenario.editing;
                   isLoading := false;
                   error := Some "Failed to make content concise: 429 Too Many Requests" |},
        mkWorld ∅ 1700000000030
          [OpenAIService.conciseRequest Scenario.config "A"] (quota Scenario.browser)).
Proof.
  split.
  - destruct (proj1 (C9_failed_operation_changes_only_loading_and_error
                       Scenario.parse Scenario.refusing Scenario.service Scenario.editing
                       Scenario.browser
                       (mkWorld ∅ 1700000000030
                          [OpenAIService.breakRequest Scenario.config "A B"]
                          (quota Scenario.browser))
                       (Error "Failed to break prompt into segments: 429 Too Many Requests")))
      as (message & Hmessage & Hcall).
    + vm_compute. discriminate.
    + reflexivity.
    + vm_compute. reflexivity.
    + injection Hmessage as <-. exact Hcall.
  - destruct (proj2 (C9_failed_operation_changes_only_loading_and_error
                       Scenario.parse Scenario.refusing Scenario.service Scenario.editing
                       Scenario.browser
                       (mkWorld ∅ 1700000000030
                          [OpenAIService.conciseRequest Scenario.config "A"]
                          (quota Scenario.browser))
                       (Error "Failed to make content concise: 429 Too Many Requests"))
                "a" Scenario.A)
      as (message & Hmessage & Hcall).
    + reflexivity.
    + reflexivity.
    + vm_compute. reflexivity.
    + injection Hmessage as <-. exact Hcall.
Defined.

Lemma C10_witness :
  usePromptEditor.breakPromptIntoSegments Scenario.parse Scenario.provider
    Scenario.service Scenario.blank Scenario.browser
  = (Returns Scenario.blank, Scenario.browser)
  /\ usePromptEditor.makeConcise Scenario.parse Scenario.provider
       OpenAIService.new "a" Scenario.editing Scenario.browser
     = (Returns Scenario.editing, Scenario.browser).
Proof.
  split.
  - apply (proj1 (C10_guarded_operations_change_nothing Scenario.parse Scenario.provider
                    Scenario.service Scenario.blank Scenario.browser "a")).
    left. repeat constructor.
  - apply (proj2 (C10_guarded_operations_change_nothing Scenario.parse Scenario.provider
                    OpenAIService.new Scenario.editing Scenario.browser "a")).
    right. reflexivity.
Defined.

(** * Further properties of the service *)

(** ** The cache key *)

Lemma ToInt32_range z : - 2 ^ 31 <= OpenAIService.ToInt32 z < 2 ^ 31.
Proof.
  unfold OpenAIService.ToInt32.
  pose proof (Z.mod_pos_bound (z + 2 ^ 31) (2 ^ 32) eq_refl). lia.
Qed.

Lemma ToInt32_shift z k : OpenAIService.ToInt32 (z + k * 2 ^ 32) = OpenAIService.ToInt32 z.
Proof.
  unfold OpenAIService.ToInt32.
  replace (z + k * 2 ^ 32 + 2 ^ 31) with (z + 2 ^ 31 + k * 2 ^ 32) by lia.
  by rewrite Z_mod_plus_full.
Qed.

Lemma ToInt32_multiple z : exists k, OpenAIService.ToInt32 z = z + k * 2 ^ 32.
Proof.
  exists (- ((z + 2 ^ 31) / 2 ^ 32)). unfold OpenAIService.ToInt32.
  pose proof (Z.div_mod (z + 2 ^ 31) (2 ^ 32)). lia.
Qed.

(** A turn of the loop multiplies by 31 and adds the code, within 32 bits. *)
Lemma hashStep_polynomial hash c k :
  OpenAIService.hashStep (hash + k * 2 ^ 32) c
  = OpenAIService.ToInt32 (31 * hash + JsString.charCodeAt c).
Proof.
  unfold OpenAIService.hashStep. rewrite Z.shiftl_mul_pow2 by lia.
  destruct (ToInt32_multiple ((hash + k * 2 ^ 32) * 2 ^ 5)) as [k' ->].
  replace ((hash + k * 2 ^ 32) * 2 ^ 5 + k' * 2 ^ 32 - (hash + k * 2 ^ 32)
           + JsString.charCodeAt c)
    with (31 * hash + JsString.charCodeAt c + (31 * k + k') * 2 ^ 32) by lia.
  apply ToInt32_shift.
Qed.

Lemma hash_polynomial_from cs : forall hash hash' k,
  hash = hash' + k * 2 ^ 32 ->
  - 2 ^ 31 <= hash < 2 ^ 31 ->
  let result := fold_left OpenAIService.hashStep cs hash in
  - 2 ^ 31 <= result < 2 ^ 31
  /\ exists k', result
                = fold_left (fun h c => 31 * h + JsString.charCodeAt c) cs hash' + k' * 2 ^ 32.
Proof.
  induction cs as [|c cs IH]; intros hash hash' k Heq Hrange; simpl.
  - split; [exact Hrange | by exists k].
  - subst hash. rewrite hashStep_polynomial.
    destruct (ToInt32_multiple (31 * hash' + JsString.charCodeAt c)) as [k1 Hk1].
    apply (IH _ _ k1 Hk1). apply ToInt32_range.
Qed.

(** X1. The number in a cache key is the absolute value of the 31-multiplier
    polynomial hash of the text reduced to a signed 32-bit integer; it lies
    between 0 and 2^31. *)
Theorem cacheKey_hash_is_polynomial_mod_2_32 (operation input : string) :
  let hash := fold_left OpenAIService.hashStep (JsString.chars input) 0 in
  hash = OpenAIService.ToInt32 (polynomialHash (JsString.chars input))
  /\ - 2 ^ 31 <= hash < 2 ^ 31
  /\ 0 <= Z.abs hash <= 2 ^ 31
  /\ OpenAIService.generateCacheKey operation input
     = "prompt-editor-cache-" +:+ operation +:+ "-" +:+ pretty (Z.abs hash).
Proof.
  intros hash.
  destruct (hash_polynomial_from (JsString.chars input) 0 0 0 eq_refl) as [Hrange [k Hk]];
    [lia|].
  fold hash in Hrange, Hk. split; [|split; [exact Hrange | split; [lia | reflexivity]]].
  unfold polynomialHash. rewrite <- (ToInt32_shift _ k), <- Hk.
  unfold OpenAIService.ToInt32.
  rewrite Z.mod_small by lia. lia.
Qed.

(** ** Reading the cache *)

Section CacheReads.
Variable JSON_parse : string -> string + json.
Variable create : OpenAI.Client -> OpenAI.Request -> World -> OpenAI.Settled.

Import OpenAIService.

Lemma getCachedResult_cases key w :
  (exists v, getCachedResult JSON_parse key w = (Returns v, w))
  \/ getCachedResult JSON_parse key w = (Returns null, localStorage_removeItem key w)
  \/ getCachedResult JSON_parse key w = (Untyped, w).
Proof.
  unfold getCachedResult.
  destruct (localStorage w !! key) as [cached|]; [|left; eauto].
  destruct (itemTruthy cached); [|left; eauto].
  destruct (parseItem JSON_parse cached) as [msg|parsed]; [left; eauto|].
  destruct parsed; try (left; by eauto);
    destruct (Json.ToNumber _) as [[t|]| |]; try discriminate; auto;
    destruct (_ <? _); eauto.
Qed.

(** X6. [getCachedResult] never throws and leaves the clock, the request log
    and every other item alone: the storage after it is the storage before,
    or that storage without the item under [key]; an item that is not there,
    or whose text does not parse, is reported as [null] and the storage is
    left as it is. *)
Theorem getCachedResult_touches_only_its_key (key : string) (w : World) :
  (forall e, (getCachedResult JSON_parse key w).1 <> Throws e)
  /\ Date_now (getCachedResult JSON_parse key w).2 = Date_now w
  /\ requests (getCachedResult JSON_parse key w).2 = requests w
  /\ (localStorage (getCachedResult JSON_parse key w).2 = localStorage w
      \/ localStorage (getCachedResult JSON_parse key w).2 = delete key (localStorage w))
  /\ (forall other, other <> key ->
        localStorage (getCachedResult JSON_parse key w).2 !! other = localStorage w !! other)
  /\ (forall text message,
        (localStorage w !! key = None
         \/ (localStorage w !! key = Some (Raw text) /\ JSON_parse text = inl message)) ->
        getCachedResult JSON_parse key w = (Returns null, w)).
Proof.
  split; [|split; [|split; [|split; [|split]]]].
  - intros e. destruct (getCachedResult_cases key w) as [[v ->]|[-> | ->]]; discriminate.
  - apply getCachedResult_world.
  - apply getCachedResult_world.
  - destruct (getCachedResult_cases key w) as [[v ->]|[-> | ->]]; auto.
  - intros other Hother.
    destruct (getCachedResult_cases key w) as [[v ->]|[-> | ->]]; try reflexivity.
    simpl. by rewrite lookup_delete_ne.
  - intros text message [Hnone|[Hraw Hparse]]; unfold getCachedResult.
    + by rewrite Hnone.
    + rewrite Hraw. simpl. rewrite Hparse. by destruct (JsString.truthy text).
Qed.

(** Without a dated entry under [key] the clock plays no part. *)
Lemma getCachedResult_no_entry key w w' :
  entryOf JSON_parse key w = None ->
  localStorage w' = localStorage w ->
  (getCachedResult JSON_parse key w').1 = (getCachedResult JSON_parse key w).1
  /\ localStorage (getCachedResult JSON_parse key w').2
     = localStorage (getCachedResult JSON_parse key w).2
  /\ ((getCachedResult JSON_parse key w).1 = Returns null
      \/ (getCachedResult JSON_parse key w).1 = Untyped).
Proof.
  unfold entryOf, getCachedResult. intros Hentry Hsame. rewrite Hsame. revert Hentry.
  destruct (localStorage w !! key) as [cached|]; [|by simpl; auto].
  destruct (itemTruthy cached); [|by simpl; auto].
  destruct (parseItem JSON_parse cached) as [msg|parsed]; [by simpl; auto|].
  destruct parsed; try (by simpl; auto);
    destruct (Json.ToNumber _) as [[t|]| |]; try discriminate; simpl; rewrite ?Hsame; auto.
Qed.

(** What a read returns once a first read has returned and only the clock
    has moved: the same value or [null], and again the storage is kept or
    loses the item under [key]. *)
Lemma getCachedResult_again key w v w0 w' :
  getCachedResult JSON_parse key w = (Returns v, w0) ->
  localStorage w' = localStorage w0 ->
  exists v' w0', getCachedResult JSON_parse key w' = (Returns v', w0')
                 /\ (v' = v \/ v' = null)
                 /\ (localStorage w0' = localStorage w'
                     \/ localStorage w0' = delete key (localStorage w')).
Proof.
  intros Hget Hsame.
  assert (Habsent : localStorage w' !! key = None ->
                    exists v' w0', getCachedResult JSON_parse key w' = (Returns v', w0')
                                   /\ (v' = v \/ v' = null)
                                   /\ (localStorage w0' = localStorage w'
                                       \/ localStorage w0' = delete key (localStorage w'))).
  { intros Hnone. exists null, w'. unfold getCachedResult. rewrite Hnone. auto. }
  destruct (entryOf JSON_parse key w) as [[data timestamp]|] eqn:Hentry.
  - rewrite (getCachedResult_entry _ _ _ _ _ Hentry) in Hget.
    destruct (Date_now w - timestamp <? TTL); injection Hget as <- <-.
    + assert (Hentry' : entryOf JSON_parse key w' = Some (data, timestamp)).
      { rewrite <- Hentry. apply entryOf_lookup. by rewrite Hsame. }
      rewrite (getCachedResult_entry _ _ _ _ _ Hentry').
      destruct (Date_now w' - timestamp <? TTL); eauto 10.
    + apply Habsent. rewrite Hsame. simpl. apply lookup_delete_eq.
  - destruct (getCachedResult_cases key w) as [[v1 H1]|[H1|H1]];
      rewrite H1 in Hget; try discriminate; injection Hget as <- <-.
    + destruct (getCachedResult_no_entry key w w' Hentry Hsame) as (Hres & Hstore & Hnull).
      rewrite H1 in Hres, Hstore, Hnull. simpl in *.
      destruct (getCachedResult JSON_parse key w') as [o w0'] eqn:E. simpl in *. subst o.
      exists v1, w0'. split; [reflexivity|]. split; [by left|]. left. by rewrite Hstore.
    + apply Habsent. rewrite Hsame. simpl. apply lookup_delete_eq.
Qed.

End CacheReads.

(** ** Calls of the service *)

Section ServiceCalls.
Variable JSON_parse : string -> string + json.
Variable create : OpenAI.Client -> OpenAI.Request -> World -> OpenAI.Settled.

Import OpenAIService.

Lemma cachedString_Some cached s :
  cachedString cached = Some s -> cached = Some (JStr s) /\ s <> "".
Proof.
  unfold cachedString. destruct (Json.truthy cached) eqn:Ht; [|discriminate].
  destruct cached as [[]|]; try discriminate. intros [= ->].
  split; [reflexivity|]. intros ->. discriminate.
Qed.

Lemma cachedArray_null : cachedArray null = None.
Proof. reflexivity. Qed.

Lemma cachedString_null : cachedString null = None.
Proof. reflexivity. Qed.

(** The uncached part of either call logs its request, whatever comes back,
    and stores an entry only when it returns. *)
Lemma breakUncached_world c cfg cacheKey prompt w :
  requests (breakUncached JSON_parse create c cfg cacheKey prompt w).2
  = (requests w ++ [breakRequest cfg prompt])%list
  /\ match (breakUncached JSON_parse create c cfg cacheKey prompt w).1 with
     | Returns _ => True
     | _ => localStorage (breakUncached JSON_parse create c cfg cacheKey prompt w).2
            = localStorage w
     end.
Proof.
  unfold breakUncached, await_create.
  destruct (OpenAI.result _) as [e|response]; [done|].
  destruct (noContent _); [by destruct (finishedByLength _)|].
  destruct (JSON_parse _) as [msg|parsed]; [done|].
  destruct (convertSegments _ _); try done.
  cbn [fst snd]. split; [|done].
  match goal with
  | |- context [setCachedResult cacheKey ?d ?wm] =>
      by destruct (setCachedResult_world cacheKey d wm) as (_ & -> & _)
  end.
Qed.

Lemma conciseUncached_world c cfg cacheKey content w :
  requests (conciseUncached create c cfg cacheKey content w).2
  = (requests w ++ [conciseRequest cfg content])%list
  /\ match (conciseUncached create c cfg cacheKey content w).1 with
     | Returns _ => True
     | _ => localStorage (conciseUncached create c cfg cacheKey content w).2
            = localStorage w
     end.
Proof.
  unfold conciseUncached, await_create.
  destruct (OpenAI.result _) as [e|response]; [done|].
  destruct (noContent _); [done|].
  cbn [fst snd]. split; [|done].
  match goal with
  | |- context [setCachedResult cacheKey ?d ?wm] =>
      by destruct (setCachedResult_world cacheKey d wm) as (_ & -> & _)
  end.
Qed.

(** A fresh entry that holds segments is what the call returns. *)
Lemma breakPromptIntoSegments_served prompt this c cfg w data timestamp segs :
  client this = Some c -> config this = Some cfg ->
  entryOf JSON_parse (generateCacheKey "break-segments" prompt) w
  = Some (Some (JArr data), timestamp) ->
  Json.asSegments data = Some segs ->
  Date_now w - timestamp < TTL ->
  breakPromptIntoSegments JSON_parse create prompt this w = (Returns segs, w).
Proof.
  intros Hc Hcfg Hentry Hdata Hfresh. unfold breakPromptIntoSegments.
  rewrite Hc, Hcfg, (getCachedResult_entry _ _ _ _ _ Hentry).
  destruct (Z.ltb_spec (Date_now w - timestamp) TTL); [|lia].
  simpl. by rewrite Hdata.
Qed.

(** A call that returns leaves an entry that holds what it returned, when
    it was served from the cache or when the browser accepted the write. *)
Lemma breakPromptIntoSegments_entry prompt this w segs w1 :
  breakPromptIntoSegments JSON_parse create prompt this w = (Returns segs, w1) ->
  requests w1 = requests w
  \/ localStorage_accepts (generateCacheKey "break-segments" prompt)
       (Stringified (cacheData (Json.ofSegments segs) (Date_now w1)))
       (getCachedResult JSON_parse (generateCacheKey "break-segments" prompt) w).2 = true ->
  exists c cfg timestamp,
    client this = Some c /\ config this = Some cfg
    /\ entryOf JSON_parse (generateCacheKey "break-segments" prompt) w1
       = Some (Some (Json.ofSegments segs), timestamp).
Proof.
  unfold breakPromptIntoSegments.
  destruct (client this) as [c|]; [|discriminate].
  destruct (config this) as [cfg|]; [|discriminate].
  pose proof (getCachedResult_world JSON_parse
                (generateCacheKey "break-segments" prompt) w) as [_ Hreq].
  destruct (getCachedResult JSON_parse _ w) as [[cached| |] w0] eqn:Hget; try discriminate.
  cbn [snd] in *.
  destruct (cachedArray cached) as [l|] eqn:Harr.
  - apply cachedArray_Some in Harr as ->.
    destruct (Json.asSegments l) as [segs'|] eqn:Hl; [|discriminate].
    intros [= -> ->] _.
    apply getCachedResult_hit in Hget as [-> (timestamp & Hentry & _)]; [|discriminate].
    exists c, cfg, timestamp. repeat split. rewrite Hentry.
    unfold Json.ofSegments. by rewrite (ofSegments_asSegments _ _ Hl).
  - destruct (breakUncached JSON_parse create c cfg _ prompt w0)
      as [[result|e|] w1'] eqn:Hun; try discriminate.
    intros [= -> ->].
    apply breakUncached_Returns in Hun as (Hlog & Hstored & _).
    intros [Hsame|Hroom]; [|eauto 10].
    rewrite Hlog, Hreq in Hsame. apply (f_equal length) in Hsame.
    rewrite length_app in Hsame. simpl in Hsame. lia.
Qed.

(** X2. The cache key of a prompt is its hash only.  When two prompts have
    the same key and the segmentation of the first has returned and its
    result is in the cache (it was served from the cache, or the browser
    accepted the write), the segmentation of the second, made while that
    entry is younger than 24 hours, returns the segments of the first and
    asks the provider nothing. *)
Theorem breakPromptIntoSegments_same_key_same_answer
    (prompt prompt' : string) (this : t) (w w1 : World) (segs : list PromptSegment) :
  generateCacheKey "break-segments" prompt' = generateCacheKey "break-segments" prompt ->
  breakPromptIntoSegments JSON_parse create prompt this w = (Returns segs, w1) ->
  requests w1 = requests w
  \/ localStorage_accepts (generateCacheKey "break-segments" prompt)
       (Stringified (cacheData (Json.ofSegments segs) (Date_now w1)))
       (getCachedResult JSON_parse (generateCacheKey "break-segments" prompt) w).2 = true ->
  exists timestamp,
    entryOf JSON_parse (generateCacheKey "break-segments" prompt) w1
    = Some (Some (Json.ofSegments segs), timestamp)
    /\ forall w2,
         localStorage w2 !! generateCacheKey "break-segments" prompt
         = localStorage w1 !! generateCacheKey "break-segments" prompt ->
         Date_now w2 - timestamp < 24 * 60 * 60 * 1000 ->
         breakPromptIntoSegments JSON_parse create prompt' this w2 = (Returns segs, w2).
Proof.
  intros Hkey Hfirst Hcached.
  destruct (breakPromptIntoSegments_entry _ _ _ _ _ Hfirst Hcached)
    as (c & cfg & timestamp & Hc & Hcfg & Hentry).
  exists timestamp. split; [exact Hentry|]. intros w2 Hsame Hfresh.
  apply (breakPromptIntoSegments_served prompt' this c cfg w2
           (List.map Json.ofSegment segs) timestamp); try done.
  - rewrite Hkey. etransitivity; [|exact Hentry]. by apply entryOf_lookup.
  - apply asSegments_ofSegments.
Qed.

(** Every failure of an initialized service carries the name of the
    operation. *)
Lemma breakPromptIntoSegments_failure_message prompt this w e w1 :
  isInitialized this = true ->
  breakPromptIntoSegments JSON_parse create prompt this w = (Throws e, w1) ->
  exists message, e = Error ("Failed to break prompt into segments: " +:+ message).
Proof.
  unfold isInitialized, breakPromptIntoSegments.
  destruct (client this); [|discriminate].
  destruct (config this); [|discriminate]. intros _.
  destruct (getCachedResult _ _ _) as [[cached| |] w0]; try discriminate.
  destruct (cachedArray cached) as [l|].
  - destruct (Json.asSegments l); discriminate.
  - destruct (breakUncached _ _ _ _ _ _ _) as [[r|e'|] w']; try discriminate.
    intros [= <- _]. unfold wrap. eauto.
Qed.

Lemma makeConcise_failure_message content this w e w1 :
  isInitialized this = true ->
  makeConcise JSON_parse create content this w = (Throws e, w1) ->
  exists message, e = Error ("Failed to make content concise: " +:+ message).
Proof.
  unfold isInitialized, makeConcise.
  destruct (client this); [|discriminate].
  destruct (config this); [|discriminate]. intros _.
  destruct (getCachedResult _ _ _) as [[cached| |] w0]; try discriminate.
  destruct (cachedString cached) as [s|]; [discriminate|].
  destruct (conciseUncached _ _ _ _ _ _) as [[r|e'|] w']; try discriminate.
  intros [= <- _]. unfold wrap. eauto.
Qed.

(** X5. A segmentation that fails on an initialized service has asked the
    provider once and has stored nothing: the storage is as the read of the
    cache left it.  Asked again with that storage, the service asks the
    provider again. *)
Theorem breakPromptIntoSegments_failure_is_not_cached
    (prompt : string) (this : t) (c : OpenAI.Client) (cfg : OpenAIConfig)
    (w w1 : World) (e : thrown) :
  client this = Some c -> config this = Some cfg ->
  breakPromptIntoSegments JSON_parse create prompt this w = (Throws e, w1) ->
  requests w1 = (requests w ++ [breakRequest cfg prompt])%list
  /\ localStorage w1
     = localStorage (getCachedResult JSON_parse (generateCacheKey "break-segments" prompt) w).2
  /\ forall w2,
       localStorage w2 = localStorage w1 ->
       requests (breakPromptIntoSegments JSON_parse create prompt this w2).2
       = (requests w2 ++ [breakRequest cfg prompt])%list.
Proof.
  intros Hc Hcfg. unfold breakPromptIntoSegments. rewrite Hc, Hcfg.
  set (key := generateCacheKey "break-segments" prompt).
  pose proof (getCachedResult_world JSON_parse key w) as [_ Hlog].
  destruct (getCachedResult JSON_parse key w) as [[cached| |] w0] eqn:Hget; try discriminate.
  simpl in Hlog.
  destruct (cachedArray cached) as [l|] eqn:Harr;
    [destruct (Json.asSegments l); discriminate|].
  pose proof (breakUncached_world c cfg key prompt w0) as [Hasked Hkept].
  destruct (breakUncached JSON_parse create c cfg key prompt w0)
    as [[result|e'|] w1'] eqn:Hun; try discriminate.
  intros [= _ <-]. simpl in *.
  split; [by rewrite Hasked, Hlog|]. split; [exact Hkept|].
  intros w2 Hw2. rewrite Hkept in Hw2.
  destruct (getCachedResult_again JSON_parse key w cached w0 w2 Hget Hw2)
    as (v' & w0' & Hget' & Hv' & _).
  pose proof (getCachedResult_world JSON_parse key w2) as [_ Hlog'].
  rewrite Hget' in Hlog' |- *. simpl in Hlog'.
  assert (Hmiss : cachedArray v' = None) by (destruct Hv' as [->| ->]; done).
  rewrite Hmiss.
  pose proof (breakUncached_world c cfg key prompt w0') as [Hasked' _].
  destruct (breakUncached JSON_parse create c cfg key prompt w0') as [[r|e2|] w3];
    simpl in *; by rewrite Hasked', Hlog'.
Qed.

End ServiceCalls.

(** ** Making a text concise *)

Lemma trimEnd_ends s :
  JsString.trimEnd s = "" \/ JsString.trimEnd (JsString.trimEnd s) = JsString.trimEnd s.
Proof.
  induction s as [|c s IH]; simpl; [by left|].
  destruct (JsString.trimEnd s) as [|d r] eqn:E.
  - destruct (JsString.isWhiteSpace c) eqn:Ec; [by left|].
    right. simpl. by rewrite Ec.
  - right. destruct IH as [IH|IH]; [discriminate|].
    simpl in *. by rewrite IH.
Qed.

Lemma trimEnd_idempotent s : JsString.trimEnd (JsString.trimEnd s) = JsString.trimEnd s.
Proof. destruct (trimEnd_ends s) as [-> | ->]; reflexivity. Qed.

Lemma trimStart_trimEnd s :
  JsString.trimStart s = s -> JsString.trimStart (JsString.trimEnd s) = JsString.trimEnd s.
Proof.
  destruct s as [|c s]; [reflexivity|]. simpl.
  destruct (JsString.isWhiteSpace c) eqn:Ec.
  - intros H. exfalso.
    assert (Hlen : forall t, (String.length (JsString.trimStart t) <= String.length t)%nat).
    { induction t as [|d t IHt]; simpl; [lia|]. destruct (JsString.isWhiteSpace d); simpl; lia. }
    pose proof (Hlen s) as Hs. rewrite H in Hs. simpl in Hs. lia.
  - intros _. destruct (JsString.trimEnd s); simpl; by rewrite Ec.
Qed.

Lemma trimStart_idempotent s : JsString.trimStart (JsString.trimStart s) = JsString.trimStart s.
Proof.
  induction s as [|c s IH]; simpl; [reflexivity|].
  destruct (JsString.isWhiteSpace c) eqn:Ec; [exact IH|]. simpl. by rewrite Ec.
Qed.

(** A trimmed text has nothing left to trim. *)
Lemma trim_idempotent s : JsString.trim (JsString.trim s) = JsString.trim s.
Proof.
  unfold JsString.trim.
  rewrite (trimStart_trimEnd _ (trimStart_idempotent s)).
  apply trimEnd_idempotent.
Qed.

Section Condense.
Variable JSON_parse : string -> string + json.
Variable create : OpenAI.Client -> OpenAI.Request -> World -> OpenAI.Settled.

Import OpenAIService.

Lemma makeConcise_served content this c cfg w s timestamp :
  client this = Some c -> config this = Some cfg ->
  entryOf JSON_parse (generateCacheKey "make-concise" content) w
  = Some (Some (JStr s), timestamp) ->
  s <> "" ->
  Date_now w - timestamp < TTL ->
  makeConcise JSON_parse create content this w = (Returns s, w).
Proof.
  intros Hc Hcfg Hentry Hs Hfresh. unfold makeConcise.
  rewrite Hc, Hcfg, (getCachedResult_entry _ _ _ _ _ Hentry).
  destruct (Z.ltb_spec (Date_now w - timestamp) TTL); [|lia].
  unfold cachedString. simpl. by destruct s.
Qed.

Lemma conciseUncached_Returns c cfg cacheKey content w r w1 :
  conciseUncached create c cfg cacheKey content w = (Returns r, w1) ->
  requests w1 = (requests w ++ [conciseRequest cfg content])%list
  /\ JsString.trim r = r
  /\ (localStorage_accepts cacheKey (Stringified (cacheData (JStr r) (Date_now w1))) w = true ->
      entryOf JSON_parse cacheKey w1 = Some (Some (JStr r), Date_now w1))
  /\ (localStorage_accepts cacheKey (Stringified (cacheData (JStr r) (Date_now w1))) w = false ->
      localStorage w1 = localStorage w).
Proof.
  unfold conciseUncached, await_create.
  destruct (OpenAI.result _) as [e|response]; [discriminate|].
  destruct (noContent _); [discriminate|].
  intros [= <- <-].
  match goal with
  | |- context [setCachedResult cacheKey ?d ?wm] =>
      destruct (setCachedResult_world cacheKey d wm) as (Hnow & Hreq & _);
      pose proof (entryOf_setCachedResult JSON_parse cacheKey d wm) as Hentry;
      destruct (setCachedResult_cases cacheKey d wm) as [[Hroom Heq]|[Hroom Heq]]
  end.
  all: rewrite Hnow, Hreq; simpl in *; unfold localStorage_accepts in *; simpl in *.
  all: split; [reflexivity|]; split; [apply trim_idempotent|]; split; intros H.
  - by apply Hentry.
  - congruence.
  - congruence.
  - by rewrite Heq.
Qed.

(** X3. A [makeConcise content] that returns a text that is not empty has
    asked the provider at most once.  When it was served from the cache, or
    when the browser accepted the write of the text, the cache holds that
    text, and a second call with the same content made while the entry is
    younger than 24 hours returns the same text and leaves the world, the
    log of requests included, as it was.  When the browser refused the
    write, the storage is as the read of the cache left it. *)
Theorem makeConcise_second_call_served_from_cache
    (content : string) (this : t) (w w1 : World) (r : string) :
  makeConcise JSON_parse create content this w = (Returns r, w1) ->
  r <> "" ->
  let key := generateCacheKey "make-concise" content in
  let afterRead := (getCachedResult JSON_parse key w).2 in
  let entry := Stringified (cacheData (JStr r) (Date_now w1)) in
  (length (requests w1) <= length (requests w) + 1)%nat
  /\ (requests w1 = requests w \/ localStorage_accepts key entry afterRead = true ->
      exists timestamp,
        entryOf JSON_parse key w1 = Some (Some (JStr r), timestamp)
        /\ forall w2,
             localStorage w2 !! key = localStorage w1 !! key ->
             Date_now w2 - timestamp < 24 * 60 * 60 * 1000 ->
             makeConcise JSON_parse create content this w2 = (Returns r, w2))
  /\ (requests w1 <> requests w -> localStorage_accepts key entry afterRead = false ->
      localStorage w1 = localStorage afterRead).
Proof.
  intros Hcall Hr key afterRead entry.
  assert (Hgoal : exists c cfg,
             client this = Some c /\ config this = Some cfg
             /\ (length (requests w1) <= length (requests w) + 1)%nat
             /\ (requests w1 = requests w \/ localStorage_accepts key entry afterRead = true ->
                 exists timestamp,
                   entryOf JSON_parse key w1 = Some (Some (JStr r), timestamp))
             /\ (requests w1 <> requests w ->
                 localStorage_accepts key entry afterRead = false ->
                 localStorage w1 = localStorage afterRead)).
  { revert Hcall. unfold makeConcise.
    destruct (client this) as [c|]; [|discriminate].
    destruct (config this) as [cfg|]; [|discriminate].
    fold key.
    pose proof (getCachedResult_world JSON_parse key w) as [_ Hlog].
    subst afterRead.
    destruct (getCachedResult JSON_parse key w) as [[cached| |] w0] eqn:Hget;
      try discriminate.
    cbn [snd] in *.
    destruct (cachedString cached) as [s|] eqn:Hs.
    - apply cachedString_Some in Hs as [-> _]. intros [= -> ->].
      apply getCachedResult_hit in Hget as [-> (timestamp & Hentry & _)]; [|discriminate].
      exists c, cfg. split; [reflexivity|]. split; [reflexivity|]. split; [lia|].
      split; [eauto | by intros Hneq].
    - destruct (conciseUncached create c cfg key content w0) as [[r'|e|] w1'] eqn:Hun;
        try discriminate.
      intros [= -> ->].
      apply conciseUncached_Returns in Hun as (Hasked & _ & Hstored & Hrefused).
      exists c, cfg. split; [reflexivity|]. split; [reflexivity|]. split; [|split].
      + rewrite Hasked, length_app, Hlog. simpl. lia.
      + intros [Hsame|Hroom]; [|eauto].
        rewrite Hasked, Hlog in Hsame. apply (f_equal length) in Hsame.
        rewrite length_app in Hsame. simpl in Hsame. lia.
      + intros _ Hfull. by apply Hrefused. }
  destruct Hgoal as (c & cfg & Hc & Hcfg & Hlen & Hstored & Hrefused).
  split; [exact Hlen|]. split; [|exact Hrefused].
  intros Hcached. destruct (Hstored Hcached) as [timestamp Hentry].
  exists timestamp. split; [exact Hentry|].
  intros w2 Hsame Hfresh.
  apply (makeConcise_served content this c cfg w2 r timestamp); try done.
  rewrite <- Hentry. by apply entryOf_lookup.
Qed.

(** X4. A reply that is not empty but is all white space passes the test for
    an empty reply: [makeConcise] returns the empty text and hands it to
    the cache, which stores it when the browser accepts the write.  Stored
    or not, the empty text is not taken for a cached result: the next call
    asks the provider again. *)
Theorem makeConcise_blank_reply_returns_empty_text
    (content : string) (this : t) (w : World)
    (c : OpenAI.Client) (cfg : OpenAIConfig) (response : OpenAI.ChatCompletion)
    (text : string) :
  client this = Some c -> config this = Some cfg ->
  localStorage w !! generateCacheKey "make-concise" content = None ->
  OpenAI.result (create c (conciseRequest cfg content) w) = inr response ->
  messageContent (firstChoice response) = Some text ->
  text <> "" ->
  Forall (fun ch => JsString.isWhiteSpace ch = true) (JsString.chars text) ->
  exists w1,
    makeConcise JSON_parse create content this w = (Returns "", w1)
    /\ (localStorage_accepts (generateCacheKey "make-concise" content)
          (Stringified (cacheData (JStr "") (Date_now w1))) w = true ->
        entryOf JSON_parse (generateCacheKey "make-concise" content) w1
        = Some (Some (JStr ""), Date_now w1))
    /\ (localStorage_accepts (generateCacheKey "make-concise" content)
          (Stringified (cacheData (JStr "") (Date_now w1))) w = false ->
        localStorage w1 = localStorage w)
    /\ requests w1 = (requests w ++ [conciseRequest cfg content])%list
    /\ requests (makeConcise JSON_parse create content this w1).2
       = (requests w1 ++ [conciseRequest cfg content])%list.
Proof.
  intros Hc Hcfg Hmiss Hreply Htext Hnonempty Hblank.
  set (key := generateCacheKey "make-concise" content) in *.
  destruct (conciseUncached create c cfg key content w) as [o w1] eqn:Hun.
  assert (Ho : o = Returns "").
  { revert Hun. unfold conciseUncached, await_create. rewrite Hreply, Htext. simpl.
    destruct text; [done|]. simpl negb. cbv iota.
    rewrite (trim_whitespace _ Hblank). by intros [= <- _]. }
  subst o.
  destruct (conciseUncached_Returns _ _ _ _ _ _ _ Hun) as (Hasked & _ & Hstored & Hrefused).
  exists w1. split; [|split; [exact Hstored|split; [exact Hrefused|split; [exact Hasked|]]]].
  - unfold makeConcise. rewrite Hc, Hcfg. fold key.
    rewrite (getCachedResult_absent _ _ _ Hmiss). simpl. by rewrite Hun.
  - assert (Hread : exists cached w0,
               getCachedResult JSON_parse key w1 = (Returns cached, w0)
               /\ cachedString cached = None /\ requests w0 = requests w1).
    { destruct (localStorage_accepts key (Stringified (cacheData (JStr "") (Date_now w1))) w)
        eqn:Hroom.
      - exists (Some (JStr "")), w1.
        rewrite (getCachedResult_entry JSON_parse key w1 _ _ (Hstored eq_refl)).
        rewrite Z.sub_diag. by simpl.
      - exists null, w1. rewrite getCachedResult_absent; [done|].
        by rewrite (Hrefused eq_refl). }
    destruct Hread as (cached & w0 & Hget & Hnone & Hlog).
    unfold makeConcise. rewrite Hc, Hcfg. fold key. rewrite Hget, Hnone.
    pose proof (conciseUncached_world create c cfg key content w0) as [Hagain _].
    destruct (conciseUncached create c cfg key content w0) as [[r|e|] w3];
      simpl in *; by rewrite Hagain, Hlog.
Qed.

End Condense.

(** * Segments in position *)






(** ** The segments that a reply gives *)

Section FreshSegments.
Variable JSON_parse : string -> string + json.
Variable create : OpenAI.Client -> OpenAI.Request -> World -> OpenAI.Settled.

Import OpenAIService.





End FreshSegments.

(** ** The order of a segment is its position, in every state *)

Section Positions.
Variable JSON_parse : string -> string + json.
Variable create : OpenAI.Client -> OpenAI.Request -> World -> OpenAI.Settled.

Import OpenAIService.
















End Positions.

(** * The service behind the page *)

Section Singleton.
Variable JSON_parse : string -> string + json.
Variable create : OpenAI.Client -> OpenAI.Request -> World -> OpenAI.Settled.

Lemma step_service a app app' :
  App.step JSON_parse create a app = Returns app' ->
  App.service app'
  = match a with
    | App.SetConfig (Some c) => OpenAIService.initialize c (App.service app)
    | _ => App.service app
    end
  /\ App.config app'
     = match a with
       | App.SetConfig cfg => cfg
       | _ => App.config app
       end.
Proof.
  destruct a; simpl; try (by intros [= <-]).
  - destruct (usePromptEditor.breakPromptIntoSegments _ _ _ _ _) as [[st| |] w1];
      try discriminate; by intros [= <-].
  - destruct (usePromptEditor.makeConcise _ _ _ _ _ _) as [[st| |] w1];
      try discriminate; by intros [= <-].
  - destruct (usePromptEditor.saveSession _ _) as [w1| |]; by intros [= <-].
  - destruct (usePromptEditor.loadSession _ _ _) as [[flag st]| |];
      try discriminate; by intros [= <-].
Qed.

Lemma run_service actions : forall app app' sofar,
  App.service app = serviceOf sofar ->
  (forall c, App.config app = Some c -> sofar = Some c) ->
  App.run JSON_parse create actions app = Returns app' ->
  App.service app' = serviceOf (lastConfigured actions sofar)
  /\ (forall c, App.config app' = Some c -> lastConfigured actions sofar = Some c).
Proof.
  induction actions as [|a rest IH]; simpl; intros app app' sofar Hs Hc.
  - by intros [= <-].
  - destruct (App.step JSON_parse create a app) as [app1| |] eqn:E; try discriminate.
    destruct (step_service _ _ _ E) as [Hs1 Hc1]. intros Hrun.
    destruct a as [[c|]| | | | | | | | |];
      try (apply (IH app1 app' sofar); [by rewrite Hs1 | by rewrite Hc1 | exact Hrun]).
    apply (IH app1 app' (Some c)); [by rewrite Hs1 | | exact Hrun].
    rewrite Hc1. by intros c' [= <-].
Qed.

Lemma reached_service w actions app :
  App.run JSON_parse create actions (App.start w) = Returns app ->
  App.service app = serviceOf (lastConfigured actions None)
  /\ (forall c, App.config app = Some c -> lastConfigured actions None = Some c).
Proof.
  intros Hrun. by apply (run_service actions (App.start w) app None).
Qed.

(** X10. The service is a singleton that is only ever initialized: after any
    actions it holds the client and the configuration of the last
    configuration that was not null, also when the page has since been
    given the null configuration; it is initialized exactly when some
    action has configured it; and a configuration that the page holds is
    the one the service holds. *)
Theorem service_keeps_last_configuration
    (w : World) (actions : list App.Action) (app : App.t) :
  App.run JSON_parse create actions (App.start w) = Returns app ->
  App.service app
  = match lastConfigured actions None with
    | Some c => OpenAIService.mk (Some (OpenAI.mkClient (apiKey c) true)) (Some c)
    | None => OpenAIService.new
    end
  /\ OpenAIService.isInitialized (App.service app) = existsb configures actions
  /\ (forall c, App.config app = Some c ->
        OpenAIService.config (App.service app) = Some c).
Proof.
  intros Hrun.
  destruct (reached_service w actions app Hrun) as [Hs Hc].
  assert (Hlast : forall acts sofar,
             match lastConfigured acts sofar with Some _ => true | None => false end
             = existsb configures acts || match sofar with Some _ => true | None => false end).
  { induction acts as [|a rest IH]; intros sofar; simpl; [reflexivity|].
    destruct a as [[c|]| | | | | | | | |]; simpl; rewrite IH; try reflexivity.
    by rewrite orb_true_r. }
  split; [|split].
  - rewrite Hs. by destruct (lastConfigured actions None).
  - rewrite Hs. specialize (Hlast actions None). rewrite orb_false_r in Hlast.
    rewrite <- Hlast. by destruct (lastConfigured actions None).
  - intros c Hcfg. rewrite Hs, (Hc c Hcfg). reflexivity.
Qed.

(** X21. When the button of the prompt box is enabled, the guard of
    [breakPromptIntoSegments] lets the call through: the prompt is not
    blank and the service is initialized. *)
Theorem enabled_button_passes_the_guard
    (w : World) (actions : list App.Action) (app : App.t) :
  App.run JSON_parse create actions (App.start w) = Returns app ->
  Page.canBreakPrompt app = true ->
  negb (JsString.truthy (JsString.trim (originalPrompt (App.state app))))
  || negb (OpenAIService.isInitialized (App.service app)) = false
  /\ usePromptEditor.breakPromptIntoSegments JSON_parse create
       (App.service app) (App.state app) (App.world app)
     = match OpenAIService.breakPromptIntoSegments JSON_parse create
               (originalPrompt (App.state app)) (App.service app) (App.world app) with
       | (Returns segs, w1) =>
           (Returns {| originalPrompt := originalPrompt (App.state app);
                       segments := segs;
                       finalOutput := output segs;
                       isLoading := false;
                       error := None |}, w1)
       | (Throws e, w1) =>
           (Returns {| originalPrompt := originalPrompt (App.state app);
                       segments := segments (App.state app);
                       finalOutput := finalOutput (App.state app);
                       isLoading := false;
                       error := Some (usePromptEditor.messageOf e
                                        "Failed to break prompt into segments") |}, w1)
       | (Untyped, w1) => (Untyped, w1)
       end.
Proof.
  intros Hrun Hcan.
  destruct (reached_service w actions app Hrun) as [Hs Hc].
  unfold Page.canBreakPrompt, Page.hasApiKey in Hcan.
  destruct (App.config app) as [c|] eqn:Hcfg; [|discriminate].
  apply andb_prop in Hcan as [Hcan _]. simpl in Hcan.
  assert (Hguard : negb (JsString.truthy (JsString.trim (originalPrompt (App.state app))))
                   || negb (OpenAIService.isInitialized (App.service app)) = false).
  { rewrite Hs, (Hc c eq_refl). simpl.
    by destruct (JsString.trim _). }
  split; [exact Hguard|].
  unfold usePromptEditor.breakPromptIntoSegments. rewrite Hguard.
  by destruct (OpenAIService.breakPromptIntoSegments _ _ _ _ _) as [[segs|e|] w1].
Qed.

End Singleton.

(** * The callbacks of the hook *)

Section Callbacks.
Variable JSON_parse : string -> string + json.
Variable create : OpenAI.Client -> OpenAI.Request -> World -> OpenAI.Settled.

(** X7. What an AI callback leaves in [error]: nothing new when its guard
    stops it, null when the call returns, and otherwise a message that
    starts with the name of the operation.  The message of the service that
    is not initialized is never put there. *)
Theorem callbacks_report_named_failures
    (service : OpenAIService.t) (st st' : AppState) (w w' : World) (segmentId : string) :
  (usePromptEditor.breakPromptIntoSegments JSON_parse create service st w = (Returns st', w') ->
   (st' = st
    \/ error st' = None
    \/ exists message,
         error st' = Some ("Failed to break prompt into segments: " +:+ message))
   /\ (error st' = Some "OpenAI service not initialized" -> st' = st))
  /\ (usePromptEditor.makeConcise JSON_parse create service segmentId st w = (Returns st', w') ->
      (st' = st
       \/ error st' = None
       \/ exists message,
            error st' = Some ("Failed to make content concise: " +:+ message))
      /\ (error st' = Some "OpenAI service not initialized" -> st' = st)).
Proof.
  assert (Hsplit : forall prefix,
             (st' = st \/ error st' = None
              \/ exists message, error st' = Some (String "F" prefix +:+ message)) ->
             (st' = st \/ error st' = None
              \/ exists message, error st' = Some (String "F" prefix +:+ message))
             /\ (error st' = Some "OpenAI service not initialized" -> st' = st)).
  { intros prefix H. split; [exact H|].
    destruct H as [H|[H|[message H]]]; rewrite ?H; [done | discriminate | discriminate]. }
  split.
  - unfold usePromptEditor.breakPromptIntoSegments. intros H.
    apply (Hsplit "ailed to break prompt into segments: "). revert H.
    destruct (negb (JsString.truthy _)) eqn:Hblank; simpl; [intros [= <- _]; by left|].
    destruct (OpenAIService.isInitialized service) eqn:Hinit; simpl;
      [|intros [= <- _]; by left].
    destruct (OpenAIService.breakPromptIntoSegments _ _ _ _ _) as [[segs|e|] w1] eqn:Hcall;
      try discriminate; intros [= <- _]; right; [by left|]. right.
    destruct (breakPromptIntoSegments_failure_message _ _ _ _ _ _ _ Hinit Hcall)
      as [message ->].
    by exists message.
  - unfold usePromptEditor.makeConcise. intros H.
    apply (Hsplit "ailed to make content concise: "). revert H.
    destruct (usePromptEditor.findSegment _ _) as [segment|]; [|intros [= <- _]; by left].
    destruct (OpenAIService.isInitialized service) eqn:Hinit; simpl;
      [|intros [= <- _]; by left].
    destruct (OpenAIService.makeConcise _ _ _ _ _) as [[r|e|] w1] eqn:Hcall;
      try discriminate; intros [= <- _]; right; [by left|]. right.
    destruct (makeConcise_failure_message _ _ _ _ _ _ _ Hinit Hcall) as [message ->].
    by exists message.
Qed.

(** X19. When [makeConcise] gets a text from the service, every segment with
    the id has that text as content and is otherwise as before, the other
    segments are as before, [isLoading] is false, no error is set and
    [finalOutput] is the output of the new segments. *)
Theorem makeConcise_replaces_the_content
    (service : OpenAIService.t) (st : AppState) (w w1 : World)
    (segmentId : string) (segment : PromptSegment) (conciseContent : string) :
  usePromptEditor.findSegment segmentId (segments st) = Some segment ->
  OpenAIService.isInitialized service = true ->
  OpenAIService.makeConcise JSON_parse create (content segment) service w
  = (Returns conciseContent, w1) ->
  exists st',
    usePromptEditor.makeConcise JSON_parse create service segmentId st w = (Returns st', w1)
    /\ (forall (i : nat),
          segments st' !! i
          = (fun s => if String.eqb (id s) segmentId
                      then mkSegment (id s) conciseContent (title s) (isIncluded s)
                             (order s) (isEditing s) (isExpanded s)
                      else s) <$> (segments st !! i))
    /\ originalPrompt st' = originalPrompt st
    /\ isLoading st' = false /\ error st' = None
    /\ finalOutput st' = output (segments st').
Proof.
  intros Hfind Hinit Hcall. eexists. split.
  - unfold usePromptEditor.makeConcise. rewrite Hfind, Hinit, Hcall. reflexivity.
  - simpl. split; [|done]. intros i. by rewrite list_lookup_fmap.
Qed.

End Callbacks.

(** * The handlers of the cards *)

Lemma spread_id segment updates :
  p_id updates = None -> id (spread segment updates) = id segment.
Proof. intros H. unfold spread. simpl. by rewrite H. Qed.

Lemma withIncluded_same s : withIncluded (isIncluded s) s = s.
Proof. by destruct s. Qed.

Lemma withIncluded_twice b b' s : withIncluded b (withIncluded b' s) = withIncluded b s.
Proof. reflexivity. Qed.

Lemma map_matching_absent (f : PromptSegment -> PromptSegment) id0 segs :
  Forall (fun s => id s <> id0) segs ->
  List.map (fun s => if String.eqb (id s) id0 then f s else s) segs = segs.
Proof.
  induction 1 as [|s l Hs Hl IH]; simpl; [reflexivity|].
  rewrite IH. by destruct (String.eqb_spec (id s) id0).
Qed.

(** With ids that are pairwise different an update reaches one segment. *)
Lemma map_matching_unique (f : PromptSegment -> PromptSegment) segs : forall (i : nat) seg,
  NoDup (List.map id segs) ->
  segs !! i = Some seg ->
  List.map (fun s => if String.eqb (id s) (id seg) then f s else s) segs = <[i := f seg]> segs.
Proof.
  induction segs as [|x l IH]; intros i seg Hnd Hi; [by destruct i|].
  simpl in Hnd. apply NoDup_cons in Hnd as [Hx Hnd].
  destruct i as [|i]; simpl in *.
  - injection Hi as ->. rewrite String.eqb_refl. f_equal.
    apply map_matching_absent. apply Forall_forall. intros s Hs Heq.
    apply Hx. rewrite <- Heq. by apply (list_elem_of_fmap_2 id).
  - destruct (String.eqb_spec (id x) (id seg)) as [Heq|_].
    + exfalso. apply Hx. rewrite Heq.
      apply (list_elem_of_fmap_2 id). by apply list_elem_of_lookup_2 in Hi.
    + f_equal. by apply IH.
Qed.

Lemma updateSegment_state id0 updates st :
  usePromptEditor.updateSegment id0 updates st
  = {| originalPrompt := originalPrompt st;
       segments := List.map (fun s => if String.eqb (id s) id0 then spread s updates else s)
                            (segments st);
       finalOutput := output (List.map (fun s => if String.eqb (id s) id0
                                                 then spread s updates else s)
                                       (segments st));
       isLoading := isLoading st;
       error := error st |}.
Proof. reflexivity. Qed.

Lemma settled_state st segs :
  finalOutput st = output (segments st) ->
  segs = segments st ->
  {| originalPrompt := originalPrompt st;
     segments := segs;
     finalOutput := output segs;
     isLoading := isLoading st;
     error := error st |} = st.
Proof. intros Hf ->. rewrite <- Hf. by destruct st. Qed.

(** X11. [updateSegment] keeps the number of segments and every segment with
    another id; with an id that no segment has it changes no segment, and
    leaves a state whose output is up to date exactly as it is: no failure
    is reported for the unknown id. *)
Theorem updateSegment_unknown_id_changes_nothing
    (id0 : string) (updates : PartialSegment) (st : AppState) :
  length (segments (usePromptEditor.updateSegment id0 updates st)) = length (segments st)
  /\ (forall (i : nat) s,
        segments st !! i = Some s -> id s <> id0 ->
        segments (usePromptEditor.updateSegment id0 updates st) !! i = Some s)
  /\ (Forall (fun s => id s <> id0) (segments st) ->
      segments (usePromptEditor.updateSegment id0 updates st) = segments st
      /\ error (usePromptEditor.updateSegment id0 updates st) = error st
      /\ (finalOutput st = output (segments st) ->
          usePromptEditor.updateSegment id0 updates st = st)).
Proof.
  rewrite updateSegment_state. simpl. split; [|split].
  - apply length_map.
  - intros i s Hs Hid. rewrite list_lookup_fmap, Hs. simpl.
    by destruct (String.eqb_spec (id s) id0).
  - intros Habsent. rewrite (map_matching_absent _ _ _ Habsent).
    split; [reflexivity|]. split; [reflexivity|].
    intros Hst. by apply settled_state.
Qed.

(** X12. With ids that are pairwise different, the checkbox of a card changes
    [isIncluded] of its segment and nothing else in the array, and ticking
    it twice gives back the state. *)
Theorem toggle_include_twice_restores
    (st : AppState) (i : nat) (segment : PromptSegment) :
  NoDup (List.map id (segments st)) ->
  segments st !! i = Some segment ->
  finalOutput st = output (segments st) ->
  segments (SegmentCard.handleToggleInclude segment st)
  = <[i := withIncluded (negb (isIncluded segment)) segment]> (segments st)
  /\ SegmentCard.handleToggleInclude (withIncluded (negb (isIncluded segment)) segment)
       (SegmentCard.handleToggleInclude segment st)
     = st.
Proof.
  intros Hnd Hi Hst. unfold SegmentCard.handleToggleInclude.
  set (toggled := withIncluded (negb (isIncluded segment)) segment).
  assert (Hfirst : segments (usePromptEditor.updateSegment (id segment)
                     (mkPartial None None None (Some (negb (isIncluded segment)))
                        None None None) st)
                   = <[i := toggled]> (segments st)).
  { rewrite updateSegment_state. simpl.
    exact (map_matching_unique (withIncluded (negb (isIncluded segment))) _ i segment Hnd Hi). }
  split; [exact Hfirst|].
  rewrite (updateSegment_state (id toggled)). rewrite Hfirst.
  assert (Hi' : <[i := toggled]> (segments st) !! i = Some toggled).
  { apply list_lookup_insert_eq. by apply lookup_lt_Some in Hi. }
  assert (Hnd' : NoDup (List.map id (<[i := toggled]> (segments st)))).
  { change (List.map id) with (fmap (M:=list) id). rewrite list_fmap_insert.
    rewrite list_insert_id; [exact Hnd|].
    rewrite list_lookup_fmap, Hi. reflexivity. }
  pose proof (map_matching_unique (withIncluded (negb (isIncluded toggled)))
                _ i toggled Hnd' Hi') as Hsecond.
  unfold withIncluded at 1 in Hsecond. rewrite Hsecond.
  rewrite list_insert_insert_eq.
  assert (Hback : withIncluded (negb (isIncluded toggled)) toggled = segment).
  { unfold toggled. destruct segment as [? ? ? b ? ? ?]. unfold withIncluded, spread. simpl.
    by rewrite negb_involutive. }
  rewrite Hback, (list_insert_id _ _ _ Hi).
  simpl. by apply settled_state.
Qed.

Lemma updateSegment_unique st (i : nat) segment updates :
  NoDup (List.map id (segments st)) ->
  segments st !! i = Some segment ->
  p_id updates = None ->
  segments (usePromptEditor.updateSegment (id segment) updates st)
  = <[i := spread segment updates]> (segments st)
  /\ NoDup (List.map id (segments (usePromptEditor.updateSegment (id segment) updates st)))
  /\ segments (usePromptEditor.updateSegment (id segment) updates st) !! i
     = Some (spread segment updates).
Proof.
  intros Hnd Hi Hid. rewrite updateSegment_state. simpl.
  rewrite (map_matching_unique (fun s => spread s updates) _ i segment Hnd Hi).
  split; [reflexivity|]. split.
  - change (List.map id) with (fmap (M:=list) id). rewrite list_fmap_insert.
    rewrite list_insert_id; [exact Hnd|].
    rewrite list_lookup_fmap, Hi. simpl. by rewrite Hid.
  - apply list_lookup_insert_eq. by apply lookup_lt_Some in Hi.
Qed.

(** X14. Editing a card, with ids that are pairwise different.  Start, type
    and save: the segment has the typed text as content, is no longer being
    edited, and the other segments are as before.  Start, type and cancel,
    on a segment that was not being edited: the state is as before and the
    typed text is gone from the card. *)
Theorem edit_then_save_or_cancel
    (st : AppState) (card : SegmentCard.Local) (i : nat) (segment : PromptSegment)
    (value : string) :
  NoDup (List.map id (segments st)) ->
  segments st !! i = Some segment ->
  finalOutput st = output (segments st) ->
  let typed := SegmentCard.handleContentChange value
                 (SegmentCard.handleStartEdit segment (card, st)) in
  segments (SegmentCard.handleSaveEdit segment typed).2
  = <[i := mkSegment (id segment) value (title segment) (isIncluded segment)
             (order segment) false (isExpanded segment)]> (segments st)
  /\ finalOutput (SegmentCard.handleSaveEdit segment typed).2
     = output (segments (SegmentCard.handleSaveEdit segment typed).2)
  /\ (isEditing segment = false ->
      (SegmentCard.handleCancelEdit segment typed).2 = st
      /\ SegmentCard.editedContent (SegmentCard.handleCancelEdit segment typed).1
         = content segment).
Proof.
  intros Hnd Hi Hst typed.
  set (start := mkPartial None None None None None (Some true) None).
  destruct (updateSegment_unique st i segment start Hnd Hi eq_refl) as (H1 & Hnd1 & Hi1).
  assert (Hid : id (spread segment start) = id segment) by reflexivity.
  split; [|split].
  - unfold typed, SegmentCard.handleSaveEdit, SegmentCard.handleContentChange,
      SegmentCard.handleStartEdit. cbn [fst snd SegmentCard.editedContent].
    fold start.
    destruct (updateSegment_unique _ i (spread segment start)
                (mkPartial None (Some value) None None None (Some false) None)
                Hnd1 Hi1 eq_refl) as (H2 & _ & _).
    change (id (spread segment start)) with (id segment) in H2.
    rewrite H2, H1, list_insert_insert_eq. reflexivity.
  - reflexivity.
  - intros Hidle. split; [|reflexivity].
    unfold typed, SegmentCard.handleCancelEdit, SegmentCard.handleContentChange,
      SegmentCard.handleStartEdit. cbn [fst snd]. fold start.
    destruct (updateSegment_unique _ i (spread segment start)
                (mkPartial None None None None None (Some false) None)
                Hnd1 Hi1 eq_refl) as (H2 & _ & _).
    change (id (spread segment start)) with (id segment) in H2.
    rewrite (updateSegment_state (id segment)
               (mkPartial None None None None None (Some false) None)) in H2 |- *.
    cbn [segments] in H2.
    rewrite H2. rewrite H1, list_insert_insert_eq.
    assert (Hback : spread (spread segment start)
                      (mkPartial None None None None None (Some false) None) = segment).
    { destruct segment as [? ? ? ? ? e ?]. simpl in Hidle. by subst e. }
    rewrite Hback, (list_insert_id _ _ _ Hi).
    simpl. by apply settled_state.
Qed.

(** ** Select all, select none *)

Lemma select_fold_segments (b : bool) todo : forall st,
  segments
    (fold_left (fun st segment =>
                  if (if b then negb (isIncluded segment) else isIncluded segment)
                  then usePromptEditor.updateSegment (id segment)
                         (mkPartial None None None (Some b) None None None) st
                  else st)
               todo st)
  = List.map (fun s =>
                if existsb (fun t => (if b then negb (isIncluded t) else isIncluded t)
                                     && String.eqb (id s) (id t)) todo
                then withIncluded b s else s)
             (segments st).
Proof.
  induction todo as [|t todo IH]; intros st; simpl.
  - by rewrite map_id.
  - rewrite IH.
    destruct (if b then negb (isIncluded t) else isIncluded t) eqn:Hcond; simpl;
      [|reflexivity].
    rewrite map_map. apply map_ext. intros s.
    destruct (String.eqb (id s) (id t)) eqn:Hs; [|reflexivity].
    change (id (spread s (mkPartial None None None (Some b) None None None))) with (id s).
    by destruct (existsb _ todo).
Qed.

Lemma select_fold_settled (b : bool) todo : forall st,
  finalOutput st = output (segments st) ->
  let st' := fold_left (fun st segment =>
                  if (if b then negb (isIncluded segment) else isIncluded segment)
                  then usePromptEditor.updateSegment (id segment)
                         (mkPartial None None None (Some b) None None None) st
                  else st)
               todo st in
  finalOutput st' = output (segments st').
Proof.
  induction todo as [|t todo IH]; intros st Hst; simpl; [exact Hst|].
  apply IH. by destruct (if b then negb (isIncluded t) else isIncluded t).
Qed.

Lemma select_all_of_them (b : bool) segs :
  List.map (fun s =>
              if existsb (fun t => (if b then negb (isIncluded t) else isIncluded t)
                                   && String.eqb (id s) (id t)) segs
              then withIncluded b s else s) segs
  = List.map (withIncluded b) segs.
Proof.
  apply map_ext_in. intros s Hs.
  destruct (existsb _ segs) eqn:E; [reflexivity|].
  assert (Hb : isIncluded s = b).
  { destruct (bool_decide (isIncluded s = b)) eqn:D; [by apply bool_decide_eq_true in D|].
    apply bool_decide_eq_false in D. exfalso.
    assert (Ht : existsb (fun t => (if b then negb (isIncluded t) else isIncluded t)
                                   && String.eqb (id s) (id t)) segs = true).
    { apply existsb_exists. exists s. split; [exact Hs|].
      rewrite String.eqb_refl, andb_true_r. by destruct b, (isIncluded s). }
    congruence. }
  rewrite <- Hb. symmetry. apply withIncluded_same.
Qed.

Lemma filter_withIncluded (b : bool) segs :
  List.filter isIncluded (List.map (withIncluded b) segs)
  = if b then List.map (withIncluded b) segs else [].
Proof.
  induction segs as [|s l IH]; simpl; [by destruct b|].
  rewrite IH. by destruct b.
Qed.

(** X13. Select All includes every segment and Select None excludes every
    segment, whatever ids the segments have, and neither changes anything
    else in a segment; after Select All every segment is counted as
    included, and after Select None the output is empty. *)
Theorem select_all_and_select_none (st : AppState) :
  finalOutput st = output (segments st) ->
  segments (SegmentsPanel.handleSelectAll (segments st) st)
  = List.map (withIncluded true) (segments st)
  /\ SegmentsPanel.includedCount (segments (SegmentsPanel.handleSelectAll (segments st) st))
     = Z.of_nat (length (segments st))
  /\ finalOutput (SegmentsPanel.handleSelectAll (segments st) st)
     = output (List.map (withIncluded true) (segments st))
  /\ segments (SegmentsPanel.handleSelectNone (segments st) st)
     = List.map (withIncluded false) (segments st)
  /\ finalOutput (SegmentsPanel.handleSelectNone (segments st) st) = "".
Proof.
  intros Hst.
  pose proof (select_fold_segments true (segments st) st) as Hall.
  pose proof (select_fold_segments false (segments st) st) as Hnone.
  pose proof (select_fold_settled true (segments st) st Hst) as Hall'.
  pose proof (select_fold_settled false (segments st) st Hst) as Hnone'.
  rewrite select_all_of_them in Hall, Hnone. simpl in Hall', Hnone'.
  unfold SegmentsPanel.handleSelectAll, SegmentsPanel.handleSelectNone.
  cbv beta iota in Hall, Hnone, Hall', Hnone'.
  split; [exact Hall|]. split; [|split; [|split; [exact Hnone|]]].
  - rewrite Hall. unfold SegmentsPanel.includedCount.
    by rewrite (filter_withIncluded true), length_map.
  - by rewrite Hall', Hall.
  - rewrite Hnone', Hnone. unfold output, includedSegments.
    by rewrite (filter_withIncluded false).
Qed.

(** * The counts of the page *)

Lemma string_length_append a b :
  String.length (a +:+ b) = (String.length a + String.length b)%nat.
Proof. induction a as [|c a IH]; simpl; [reflexivity | by rewrite IH]. Qed.

Lemma string_length_concat sep l :
  l <> [] ->
  (String.length (String.concat sep l) + String.length sep
   = list_sum (List.map String.length l) + String.length sep * length l)%nat.
Proof.
  induction l as [|x l IH]; [done|]. intros _.
  destruct l as [|y l]; [simpl; lia|].
  change (String.concat sep (x :: y :: l)) with (x +:+ sep +:+ String.concat sep (y :: l)).
  rewrite !string_length_append.
  assert (Hl : y :: l <> []) by done. specialize (IH Hl).
  cbn [List.map list_sum length fold_right] in *. lia.
Qed.

Lemma totalCharacters_sum segs :
  SegmentsPanel.totalCharacters segs
  = Z.of_nat (list_sum (List.map (fun s => String.length (content s))
                                 (List.filter isIncluded segs))).
Proof.
  unfold SegmentsPanel.totalCharacters.
  assert (H : forall l a,
             fold_left (fun sum s => sum + Z.of_nat (String.length (content s))) l a
             = a + Z.of_nat (list_sum (List.map (fun s => String.length (content s)) l))).
  { induction l as [|s l IH]; intros a; simpl; [lia|]. rewrite IH. lia. }
  rewrite H. lia.
Qed.

Lemma list_sum_Permutation (l l' : list nat) :
  Permutation l l' -> list_sum l = list_sum l'.
Proof. induction 1; simpl; lia. Qed.

(** X15. The figures of the page agree: the length of [finalOutput] is the
    number of characters the list of cards shows for the included segments,
    plus two for each blank line between them. *)
Theorem output_length_matches_the_counts (st : AppState) :
  finalOutput st = output (segments st) ->
  Z.of_nat (String.length (finalOutput st))
  = if SegmentsPanel.includedCount (segments st) =? 0 then 0
    else SegmentsPanel.totalCharacters (segments st)
         + 2 * (SegmentsPanel.includedCount (segments st) - 1).
Proof.
  intros ->. rewrite totalCharacters_sum. unfold SegmentsPanel.includedCount, output.
  pose proof (includedSegments_Permutation (segments st)) as Hperm.
  rewrite <- (Permutation_length Hperm).
  rewrite <- (list_sum_Permutation _ _
                (Permutation_map (fun s => String.length (content s)) Hperm)).
  destruct (includedSegments (segments st)) as [|s l] eqn:E; [reflexivity|].
  pose proof (string_length_concat (JsString.LF +:+ JsString.LF)
                (List.map content (s :: l))) as Hlen.
  rewrite map_map, length_map in Hlen.
  change (String.length (JsString.LF +:+ JsString.LF)) with 2%nat in Hlen.
  unfold JsString.join.
  destruct (Z.eqb_spec (Z.of_nat (length (s :: l))) 0) as [H0|_]; [simpl in H0; lia|].
  specialize (Hlen ltac:(done)). simpl length in *. lia.
Qed.

(** * The credential form *)

Lemma asModel_modelName m : ApiKeyManager.asModel (ApiKeyManager.modelName m) = Some m.
Proof. by destruct m. Qed.

(** X16. A blank key stores nothing and hands nothing over.  A key that is
    not blank is trimmed; when the browser accepts the write of the key and
    then the write of the name of the model, the handler hands that
    configuration to the page and, as long as the two items stay, the form
    that mounts later reads the same configuration back and hands it to
    the page.  When the browser refuses the first write nothing is stored,
    when it refuses the second the key is stored without the model, and
    either way the handler ends in the exception of the storage before the
    configuration is handed to the page. *)
Theorem saved_configuration_is_read_back (w : World) (form : ApiKeyManager.Form) :
  let key := JsString.trim (ApiKeyManager.apiKeyInput form) in
  let config := mkConfig key (ApiKeyManager.modelInput form) in
  let withKey := setStorage (<[ApiKeyManager.keyItem := Raw key]> (localStorage w)) w in
  let modelText := Raw (ApiKeyManager.modelName (ApiKeyManager.modelInput form)) in
  (key = "" -> ApiKeyManager.handleSave w form = (Returns (form, None), w))
  /\ (key <> "" ->
      localStorage_accepts ApiKeyManager.keyItem (Raw key) w = true ->
      localStorage_accepts ApiKeyManager.modelItem modelText withKey = true ->
      exists w2,
        ApiKeyManager.handleSave w form
        = (Returns (ApiKeyManager.mkForm (ApiKeyManager.apiKeyInput form)
                      (ApiKeyManager.modelInput form) false
                      (ApiKeyManager.showKey form) false,
                    Some config), w2)
        /\ forall w' form',
             localStorage w' !! ApiKeyManager.keyItem
             = localStorage w2 !! ApiKeyManager.keyItem ->
             localStorage w' !! ApiKeyManager.modelItem
             = localStorage w2 !! ApiKeyManager.modelItem ->
             ApiKeyManager.load w' form'
             = Returns (ApiKeyManager.mkForm key (ApiKeyManager.modelInput form)
                          (ApiKeyManager.isVisible form') (ApiKeyManager.showKey form')
                          (ApiKeyManager.isEditMode form'),
                        Some config))
  /\ (key <> "" ->
      localStorage_accepts ApiKeyManager.keyItem (Raw key) w = false ->
      ApiKeyManager.handleSave w form = (Throws QuotaExceededError, w))
  /\ (key <> "" ->
      localStorage_accepts ApiKeyManager.keyItem (Raw key) w = true ->
      localStorage_accepts ApiKeyManager.modelItem modelText withKey = false ->
      ApiKeyManager.handleSave w form = (Throws QuotaExceededError, withKey)).
Proof.
  intros key config withKey modelText.
  assert (Hsave : key <> "" ->
            ApiKeyManager.handleSave w form
            = match localStorage_setItem ApiKeyManager.keyItem (Raw key) w with
              | Returns w1 =>
                  match localStorage_setItem ApiKeyManager.modelItem modelText w1 with
                  | Returns w2 =>
                      (Returns (ApiKeyManager.mkForm (ApiKeyManager.apiKeyInput form)
                                  (ApiKeyManager.modelInput form) false
                                  (ApiKeyManager.showKey form) false,
                                Some config), w2)
                  | Throws e => (Throws e, w1)
                  | Untyped => (Untyped, w1)
                  end
              | Throws e => (Throws e, w)
              | Untyped => (Untyped, w)
              end).
  { intros Hkey. unfold ApiKeyManager.handleSave. fold key.
    destruct key; [done | reflexivity]. }
  split; [|split; [|split]].
  - intros Hblank. unfold ApiKeyManager.handleSave. fold key. by rewrite Hblank.
  - intros Hkey Hroom1 Hroom2. rewrite (Hsave Hkey).
    destruct (localStorage_setItem_cases ApiKeyManager.keyItem (Raw key) w)
      as [[_ ->]|[H _]]; [|congruence]. fold withKey.
    destruct (localStorage_setItem_cases ApiKeyManager.modelItem modelText withKey)
      as [[_ ->]|[H _]]; [|congruence].
    eexists. split; [reflexivity|].
    intros w' form' Hk Hm. unfold ApiKeyManager.load, ApiKeyManager.getItem.
    rewrite Hk, Hm. simpl.
    rewrite lookup_insert_ne, lookup_insert_eq, lookup_insert_eq by done.
    subst modelText config. simpl. rewrite asModel_modelName.
    destruct key; [done|]. simpl. by destruct (ApiKeyManager.modelInput form).
  - intros Hkey Hfull. rewrite (Hsave Hkey).
    by destruct (localStorage_setItem_cases ApiKeyManager.keyItem (Raw key) w)
      as [[H _]|[_ ->]]; [congruence|].
  - intros Hkey Hroom Hfull. rewrite (Hsave Hkey).
    destruct (localStorage_setItem_cases ApiKeyManager.keyItem (Raw key) w)
      as [[_ ->]|[H _]]; [|congruence]. fold withKey.
    by destruct (localStorage_setItem_cases ApiKeyManager.modelItem modelText withKey)
      as [[H _]|[_ ->]]; [congruence|].
Qed.

(** X17. Clearing the form removes both items, so the form that mounts later
    finds no key, hands nothing to the page and shows the set-up; the other
    items of the storage, the saved session and the cache among them, stay. *)
Theorem cleared_configuration_is_gone
    (w : World) (form form' : ApiKeyManager.Form) :
  ApiKeyManager.load (ApiKeyManager.handleClear w form).1 form'
  = Returns (ApiKeyManager.mkForm (ApiKeyManager.apiKeyInput form')
               (ApiKeyManager.modelInput form') true
               (ApiKeyManager.showKey form') (ApiKeyManager.isEditMode form'),
             None)
  /\ forall key,
       key <> ApiKeyManager.keyItem -> key <> ApiKeyManager.modelItem ->
       localStorage (ApiKeyManager.handleClear w form).1 !! key = localStorage w !! key.
Proof.
  split.
  - unfold ApiKeyManager.load, ApiKeyManager.getItem. simpl.
    rewrite lookup_delete_eq, lookup_delete_ne, lookup_delete_eq by done.
    reflexivity.
  - intros key Hk Hm. simpl. by rewrite !lookup_delete_ne.
Qed.

Lemma substring_prefix a rest : String.substring 0 (String.length a) (a +:+ rest) = a.
Proof. induction a as [|c a IH]; simpl; [by destruct rest | by rewrite IH]. Qed.

Lemma substring_skip a m rest :
  String.substring (String.length a) m (a +:+ rest) = String.substring 0 m rest.
Proof. induction a as [|c a IH]; simpl; [reflexivity | exact IH]. Qed.

Lemma substring_whole z : String.substring 0 (String.length z) z = z.
Proof. induction z as [|c z IH]; simpl; [reflexivity | by rewrite IH]. Qed.

Lemma string_append_assoc a b c : (a +:+ b) +:+ c = a +:+ b +:+ c.
Proof.
  induction a as [|x a IH]; [reflexivity|].
  change (String x ((a +:+ b) +:+ c) = String x (a +:+ b +:+ c)). by rewrite IH.
Qed.

(** X18. A key of at most eight characters is shown whole.  A longer key is
    shown as its first four characters, three dots and its last four
    characters: what lies between them does not show. *)
Theorem maskApiKey_shows_the_ends (key first middle last : string) :
  ((String.length key <= 8)%nat -> ApiKeyManager.maskApiKey key = key)
  /\ (String.length first = 4%nat -> String.length last = 4%nat -> middle <> "" ->
      ApiKeyManager.maskApiKey (first +:+ middle +:+ last) = first +:+ "..." +:+ last).
Proof.
  split.
  - intros H. unfold ApiKeyManager.maskApiKey.
    by destruct (Nat.leb_spec (String.length key) 8); [|lia].
  - intros Hf Hl Hm. unfold ApiKeyManager.maskApiKey.
    assert (Hmid : (1 <= String.length middle)%nat) by (destruct middle; [done | simpl; lia]).
    rewrite !string_length_append, Hf, Hl.
    destruct (Nat.leb_spec (4 + (String.length middle + 4)) 8); [lia|].
    rewrite <- Hf at 1. rewrite substring_prefix.
    replace (4 + (String.length middle + 4) - 4)%nat
      with (String.length (first +:+ middle)) by (rewrite string_length_append; lia).
    rewrite <- (string_append_assoc first middle last), substring_skip.
    rewrite <- Hl, substring_whole. reflexivity.
Qed.

(** * Saving in the background *)

(** X20. The save that the timers run writes nothing while there are no
    segments, whatever the browser.  So once the timers have stored a
    session with segments (the browser accepted the write) and the prompt
    is then replaced, which empties the segments, the timers leave the
    stored session alone, and loading it brings back the prompt and the
    segments from before the replacement. *)
Theorem replaced_prompt_is_not_saved
    (JSON_parse : string -> string + json)
    (st current : AppState) (w w1 : World) (text : string) :
  segments st <> [] ->
  Page.autosave st w = Returns w1 ->
  (forall w0, Page.autosave (usePromptEditor.setOriginalPrompt text st) w0 = Returns w0)
  /\ exists restored,
       usePromptEditor.loadSession JSON_parse w1 current = Returns (true, restored)
       /\ originalPrompt restored = originalPrompt st
       /\ segments restored = segments st.
Proof.
  intros Hsegs Hsaved. split; [reflexivity|].
  assert (Hsave : usePromptEditor.saveSession st w = Returns w1).
  { revert Hsaved. unfold Page.autosave. by destruct (segments st). }
  revert Hsave. unfold usePromptEditor.saveSession.
  destruct (localStorage_setItem_cases usePromptEditor.sessionKey
              (Stringified (usePromptEditor.sessionData st (Date_now w))) w)
    as [[_ ->]|[_ ->]]; [|discriminate].
  intros [= <-]. unfold usePromptEditor.loadSession. simpl.
  rewrite lookup_insert_eq. simpl. rewrite orString_JStr.
  change (JArr (List.map Json.ofSegment (segments st))) with (Json.ofSegments (segments st)).
  rewrite segmentsOr_ofSegments. eexists. split; [reflexivity|]. done.
Qed.

(** * The further properties on the example session *)

Lemma same_key_same_answer_witness :
  OpenAIService.breakPromptIntoSegments Scenario.parse Scenario.provider
    "BB" Scenario.service (advance 60000 Samples.afterAa)
  = (Returns Samples.segmentedAa, advance 60000 Samples.afterAa).
Proof.
  assert (Hkey : OpenAIService.generateCacheKey "break-segments" "BB"
                 = OpenAIService.generateCacheKey "break-segments" "Aa")
    by (vm_compute; reflexivity).
  assert (Hfirst : OpenAIService.breakPromptIntoSegments Scenario.parse Scenario.provider
                     "Aa" Scenario.service Scenario.browser
                   = (Returns Samples.segmentedAa, Samples.afterAa))
    by (vm_compute; reflexivity).
  destruct (breakPromptIntoSegments_same_key_same_answer Scenario.parse Scenario.provider
              "Aa" "BB" Scenario.service Scenario.browser Samples.afterAa
              Samples.segmentedAa Hkey Hfirst) as (timestamp & Hentry & Hsecond).
  - right. vm_compute. reflexivity.
  - apply Hsecond; [reflexivity|].
    assert (Htime : timestamp = 1700000001200)
      by (vm_compute in Hentry; congruence).
    rewrite Htime. vm_compute. reflexivity.
Defined.

Lemma makeConcise_cache_witness :
  OpenAIService.makeConcise Scenario.parse Scenario.provider
    "A long paragraph." Scenario.service (advance 60000 Samples.afterConcise)
  = (Returns "short", advance 60000 Samples.afterConcise).
Proof.
  assert (Hfirst : OpenAIService.makeConcise Scenario.parse Scenario.provider
                     "A long paragraph." Scenario.service Scenario.browser
                   = (Returns "short", Samples.afterConcise))
    by (vm_compute; reflexivity).
  destruct (makeConcise_second_call_served_from_cache Scenario.parse Scenario.provider
              "A long paragraph." Scenario.service Scenario.browser Samples.afterConcise
              "short" Hfirst ltac:(discriminate)) as (_ & Hcached & _).
  destruct Hcached as (timestamp & Hentry & Hsecond).
  - right. vm_compute. reflexivity.
  - apply Hsecond; [reflexivity|].
    assert (Htime : timestamp = 1700000001200)
      by (vm_compute in Hentry; congruence).
    rewrite Htime. vm_compute. reflexivity.
Defined.

Lemma blank_reply_witness :
  exists w1,
    OpenAIService.makeConcise Scenario.parse Samples.blanking
      "A long paragraph." Scenario.service Scenario.browser
    = (Returns "", w1)
    /\ requests (OpenAIService.makeConcise Scenario.parse Samples.blanking
                   "A long paragraph." Scenario.service w1).2
       = (requests w1 ++ [OpenAIService.conciseRequest Scenario.config "A long paragraph."])%list.
Proof.
  destruct (makeConcise_blank_reply_returns_empty_text Scenario.parse Samples.blanking
              "A long paragraph." Scenario.service Scenario.browser
              Scenario.client Scenario.config Samples.blankReply "   ")
    as (w1 & Hcall & _ & _ & _ & Hagain).
  - reflexivity.
  - reflexivity.
  - vm_compute. reflexivity.
  - reflexivity.
  - reflexivity.
  - discriminate.
  - repeat constructor.
  - exists w1. by split.
Defined.

Lemma failure_not_cached_witness :
  requests Samples.afterRefusal
  = [OpenAIService.breakRequest Scenario.config "hello world"]
  /\ requests (OpenAIService.breakPromptIntoSegments Scenario.parse Scenario.refusing
                 "hello world" Scenario.service Samples.afterRefusal).2
     = [OpenAIService.breakRequest Scenario.config "hello world";
        OpenAIService.breakRequest Scenario.config "hello world"].
Proof.
  destruct (breakPromptIntoSegments_failure_is_not_cached Scenario.parse Scenario.refusing
              "hello world" Scenario.service Scenario.client Scenario.config
              Scenario.browser Samples.afterRefusal
              (Error "Failed to break prompt into segments: 429 Too Many Requests")
              eq_refl eq_refl)
    as (Hasked & _ & Hagain); [vm_compute; reflexivity|].
  split; [exact Hasked|].
  rewrite (Hagain Samples.afterRefusal eq_refl). by rewrite Hasked.
Defined.

Lemma getCachedResult_frame_witness :
  localStorage (OpenAIService.getCachedResult Scenario.parse "k" Samples.afterConcise).2
    !! usePromptEditor.sessionKey
  = localStorage Samples.afterConcise !! usePromptEditor.sessionKey
  /\ OpenAIService.getCachedResult Scenario.parse "k" Scenario.browser
     = (Returns null, Scenario.browser).
Proof.
  destruct (getCachedResult_touches_only_its_key Scenario.parse "k" Samples.afterConcise)
    as (_ & _ & _ & _ & Hother & _).
  destruct (getCachedResult_touches_only_its_key Scenario.parse "k" Scenario.browser)
    as (_ & _ & _ & _ & _ & Habsent).
  split.
  - apply Hother. discriminate.
  - apply (Habsent "" ""). left. reflexivity.
Defined.

Lemma named_failures_witness :
  App.state Scenario.retried = Scenario.failed
  \/ error (App.state Scenario.retried) = None
  \/ exists message,
       error (App.state Scenario.retried)
       = Some ("Failed to break prompt into segments: " +:+ message).
Proof.
  apply (proj1 (callbacks_report_named_failures Scenario.parse Scenario.provider
                  Scenario.service Scenario.failed (App.state Scenario.retried)
                  Scenario.browser (App.world Scenario.retried) "a")).
  vm_compute. reflexivity.
Defined.



Lemma service_configuration_witness :
  OpenAIService.isInitialized (App.service Scenario.final) = true
  /\ OpenAIService.config (App.service Scenario.final) = Some Scenario.config.
Proof.
  destruct (service_keeps_last_configuration Scenario.parse Scenario.provider
              Scenario.browser Scenario.actions Scenario.final)
    as (_ & Hinit & Hconfig); [vm_compute; reflexivity|].
  split; [exact Hinit | by apply Hconfig].
Defined.

Lemma enabled_button_witness :
  negb (JsString.truthy (JsString.trim (originalPrompt (App.state Samples.ready))))
  || negb (OpenAIService.isInitialized (App.service Samples.ready)) = false.
Proof.
  apply (enabled_button_passes_the_guard Scenario.parse Scenario.provider
           Scenario.browser
           [App.SetConfig (Some Scenario.config); App.SetOriginalPrompt "hello world"]
           Samples.ready); vm_compute; reflexivity.
Defined.

Lemma makeConcise_content_witness :
  exists st',
    usePromptEditor.makeConcise Scenario.parse Scenario.provider Scenario.service "a"
      Scenario.editing Scenario.browser
    = (Returns st', Samples.afterConciseA)
    /\ error st' = None.
Proof.
  destruct (makeConcise_replaces_the_content Scenario.parse Scenario.provider
              Scenario.service Scenario.editing Scenario.browser Samples.afterConciseA
              "a" Scenario.A "short")
    as (st' & Hcall & _ & _ & _ & Herror & _).
  - reflexivity.
  - reflexivity.
  - vm_compute. reflexivity.
  - exists st'. by split.
Defined.

Lemma unknown_id_witness :
  usePromptEditor.updateSegment "z" (mkPartial None (Some "new") None None None None None)
    Scenario.editing
  = Scenario.editing.
Proof.
  destruct (updateSegment_unknown_id_changes_nothing "z"
              (mkPartial None (Some "new") None None None None None) Scenario.editing)
    as (_ & _ & Habsent).
  destruct Habsent as (_ & _ & Hsame); [repeat constructor; discriminate|].
  by apply Hsame.
Defined.

Lemma toggle_twice_witness :
  SegmentCard.handleToggleInclude (withIncluded false Scenario.B)
    (SegmentCard.handleToggleInclude Scenario.B Scenario.editing)
  = Scenario.editing.
Proof.
  apply (toggle_include_twice_restores Scenario.editing 1 Scenario.B);
    [|reflexivity|reflexivity].
  repeat constructor; vm_compute; set_solver.
Defined.

Lemma edit_witness :
  segments (SegmentCard.handleSaveEdit Scenario.A
              (SegmentCard.handleContentChange "A, edited"
                 (SegmentCard.handleStartEdit Scenario.A (Samples.card, Scenario.editing)))).2
  = [mkSegment "a" "A, edited" "First" true 0 false (Some false); Scenario.B]
  /\ (SegmentCard.handleCancelEdit Scenario.A
        (SegmentCard.handleContentChange "A, edited"
           (SegmentCard.handleStartEdit Scenario.A (Samples.card, Scenario.editing)))).2
     = Scenario.editing.
Proof.
  destruct (edit_then_save_or_cancel Scenario.editing Samples.card 0 Scenario.A "A, edited")
    as (Hsave & _ & Hcancel); [|reflexivity|reflexivity|].
  - repeat constructor; vm_compute; set_solver.
  - split; [exact Hsave | by apply Hcancel].
Defined.

Lemma select_witness :
  finalOutput (SegmentsPanel.handleSelectNone (segments Scenario.editing) Scenario.editing)
  = "".
Proof.
  by destruct (select_all_and_select_none Scenario.editing eq_refl) as (_ & _ & _ & _ & H).
Defined.

Lemma counts_witness :
  Z.of_nat (String.length (finalOutput Scenario.editing)) = 4.
Proof.
  rewrite (output_length_matches_the_counts Scenario.editing eq_refl). reflexivity.
Defined.

Lemma saved_configuration_witness :
  exists w2,
    ApiKeyManager.handleSave Scenario.browser Samples.form
    = (Returns (ApiKeyManager.mkForm "  sk-test  " gpt_4o_mini false false false,
                Some Scenario.config), w2)
    /\ ApiKeyManager.load w2 ApiKeyManager.initialForm
       = Returns (ApiKeyManager.mkForm "sk-test" gpt_4o_mini false false false,
                  Some Scenario.config).
Proof.
  destruct (saved_configuration_is_read_back Scenario.browser Samples.form)
    as (_ & Hsaved & _).
  destruct Hsaved as (w2 & Hsave & Hload).
  - vm_compute. discriminate.
  - reflexivity.
  - reflexivity.
  - exists w2. split; [exact Hsave|].
    apply (Hload w2 ApiKeyManager.initialForm); reflexivity.
Defined.

Lemma cleared_configuration_witness :
  localStorage (ApiKeyManager.handleClear Samples.afterConcise Samples.form).1
    !! usePromptEditor.sessionKey
  = localStorage Samples.afterConcise !! usePromptEditor.sessionKey.
Proof.
  destruct (cleared_configuration_is_gone Samples.afterConcise Samples.form
              ApiKeyManager.initialForm) as [_ Hkept].
  apply Hkept; discriminate.
Defined.

Lemma maskApiKey_witness :
  ApiKeyManager.maskApiKey "sk-proj-0123456789abcd" = "sk-p...abcd".
Proof.
  apply (proj2 (maskApiKey_shows_the_ends "" "sk-p" "roj-0123456789" "abcd"));
    [reflexivity | reflexivity | discriminate].
Defined.

Lemma replaced_prompt_witness :
  Page.autosave Scenario.editing Scenario.browser = Returns Scenario.saved
  /\ exists restored,
       usePromptEditor.loadSession Scenario.parse Scenario.saved usePromptEditor.initialState
       = Returns (true, restored)
       /\ originalPrompt restored = "A B".
Proof.
  assert (Hsaved : Page.autosave Scenario.editing Scenario.browser = Returns Scenario.saved)
    by (vm_compute; reflexivity).
  split; [exact Hsaved|].
  destruct (replaced_prompt_is_not_saved Scenario.parse Scenario.editing
              usePromptEditor.initialState Scenario.browser Scenario.saved "another prompt")
    as (_ & restored & Hload & Hprompt & _); [discriminate | exact Hsaved|].
  exists restored. by split.
Defined.
